(** * TF_Intro.ipynb: a logistic-regression tutorial notebook

    The notebook loads the credit-card-default table with pandas, cleans and
    one-hot encodes it, and then builds the same TensorFlow (1.x) graph three
    times: placeholder, weights and bias, [matmul], bias add, [sigmoid], a
    cost, a gradient-descent step and (in the first two cells) an accuracy
    node.  Every graph is written to a log directory; the last cell also runs
    the training loop.

    The development follows the notebook cell by cell.

    - [Op]: what the graph operations compute, on tensors of exact reals
      (an operation that raises or has no finite real value yields [None]).
    - [Pandas]: data frames, column by column, and the operations of the
      preprocessing cell.
    - [TF]: the notebook state (Python globals, graph objects, summary
      files, session runs) and the graph-building calls, each of which
      appends a node to the default graph and returns a handle that carries
      what the node evaluates to.
    - [Notebook]: the code cells.
    - [Float32]: what the nodes of the model and of the cost evaluate to
      in the [float32] arithmetic of the framework, infinities and values
      that are not numbers included. *)

From Stdlib Require Import Reals Lra Lia QArith Ascii SpecFloat.
From stdpp Require Import base option list gmap strings sorting.

#[local] Set Warnings "-abstract-large-number".

(** * Exceptions *)

Inductive exn : Type :=
  | KeyError | ValueError | AttributeError | IndexError | NameError.

Inductive outcome (A : Type) : Type :=
  | Ok (a : A)
  | Raise (e : exn).
Arguments Ok {A} a.
Arguments Raise {A} e.

#[global] Instance outcome_ret : MRet outcome := λ A a, Ok a.
#[global] Instance outcome_bind : MBind outcome := λ A B f m,
  match m with Ok a => f a | Raise e => Raise e end.
#[global] Instance outcome_fmap : FMap outcome := λ A B f m,
  match m with Ok a => Ok (f a) | Raise e => Raise e end.

Definition or_raise {A} (e : exn) (o : option A) : outcome A :=
  match o with Some a => Ok a | None => Raise e end.

(** * Tensors of rank 0, 1 and 2

    A matrix carries its number of columns, so that the shape [[0, c]] is
    represented too. *)

Inductive tensor (A : Type) : Type :=
  | Scalar (a : A)
  | Vec (v : list A)
  | Mat (cols : nat) (rows : list (list A)).
Arguments Scalar {A} a.
Arguments Vec {A} v.
Arguments Mat {A} cols rows.

#[global] Instance Rlt_decision (x y : R) : Decision (x < y)%R := Rlt_dec x y.

Module Op.

Definition elements {A} (t : tensor A) : list A :=
  match t with
  | Scalar a => [a]
  | Vec v => v
  | Mat _ m => concat m
  end.

Definition tmap {A B} (f : A → B) (t : tensor A) : tensor B :=
  match t with
  | Scalar a => Scalar (f a)
  | Vec v => Vec (fmap (M:=list) f v)
  | Mat c m => Mat c (fmap (M:=list) (fmap (M:=list) f) m)
  end.

Definition is_matrix {A} (cols : nat) (m : list (list A)) : bool :=
  forallb (λ r, Nat.eqb (length r) cols) m.

Definition sum_list (l : list R) : R := foldr Rplus 0%R l.

Definition dot (u v : list R) : R := sum_list (zip_with Rmult u v).

Definition column (j : nat) (m : list (list R)) : list R :=
  fmap (M:=list) (λ r, nth j r 0%R) m.

(** [tf.matmul]: both arguments of rank 2, inner dimensions equal. *)
Definition matmul (s t : tensor R) : option (tensor R) :=
  match s, t with
  | Mat k a, Mat n b =>
      if decide (k = length b) then
        if is_matrix k a && is_matrix n b then
          Some (Mat n (fmap (M:=list)
                         (λ row, fmap (M:=list) (λ j, dot row (column j b)) (seq 0 n))
                         a))
        else None
      else None
  | _, _ => None
  end.

(** Broadcasting of one dimension: equal lengths pair up, a length of one
    is stretched, anything else is an error. *)
Definition bcast {A B C} (f : A → B → option C)
    (a : list A) (b : list B) : option (list C) :=
  if decide (length a = length b) then mapM (λ p, f p.1 p.2) (zip a b)
  else match a, b with
       | [x], _ => mapM (f x) b
       | _, [y] => mapM (λ x, f x y) a
       | _, _ => None
       end.

Definition bdim (c1 c2 : nat) : option nat :=
  if decide (c1 = c2) then Some c1
  else if decide (c1 = 1) then Some c2
  else if decide (c2 = 1) then Some c1
  else None.

Definition lift2 {A B C} (f : A → B → C) : A → B → option C :=
  λ a b, Some (f a b).

(** Element-wise binary operations ([+], [*], [tf.add], [tf.equal]). *)
Definition broadcast {A B C} (f : A → B → C)
    (s : tensor A) (t : tensor B) : option (tensor C) :=
  match s, t with
  | Scalar a, Scalar b => Some (Scalar (f a b))
  | Scalar a, Vec v => Some (Vec (fmap (M:=list) (f a) v))
  | Vec u, Scalar b => Some (Vec (fmap (M:=list) (λ a, f a b) u))
  | Vec u, Vec v => Vec <$> bcast (lift2 f) u v
  | Scalar a, Mat c m =>
      Some (Mat c (fmap (M:=list) (fmap (M:=list) (f a)) m))
  | Mat c m, Scalar b =>
      Some (Mat c (fmap (M:=list) (fmap (M:=list) (λ a, f a b)) m))
  | Mat c m, Vec v =>
      c' ← bdim c (length v);
      Mat c' <$> mapM (λ r, bcast (lift2 f) r v) m
  | Vec u, Mat c m =>
      c' ← bdim (length u) c;
      Mat c' <$> mapM (λ r, bcast (lift2 f) u r) m
  | Mat c1 m1, Mat c2 m2 =>
      c' ← bdim c1 c2;
      Mat c' <$> bcast (bcast (lift2 f)) m1 m2
  end.

Definition add : tensor R → tensor R → option (tensor R) := broadcast Rplus.
Definition mul : tensor R → tensor R → option (tensor R) := broadcast Rmult.

(** [tf.sigmoid]: [1 / (1 + exp (-x))], element by element, in exact
    reals; [Float32.sigmoid] is the same operation in the arithmetic of
    the framework. *)
Definition sigmoid_fn (z : R) : R := (1 / (1 + exp (- z)))%R.
Definition sigmoid (t : tensor R) : tensor R := tmap sigmoid_fn t.

(** [tf.log]: the natural logarithm; at an element that is not positive
    the result is infinite or not a number. *)
Definition log (t : tensor R) : option (tensor R) :=
  if decide (Forall (λ x, (0 < x)%R) (elements t)) then Some (tmap ln t)
  else None.

Definition neg (t : tensor R) : tensor R := tmap Ropp t.

(** [tf.reduce_sum] and [tf.reduce_mean] without an axis reduce all
    dimensions to a scalar; the mean of no elements is not a number. *)
Definition reduce_sum (t : tensor R) : tensor R :=
  Scalar (sum_list (elements t)).

Definition reduce_mean (t : tensor R) : option (tensor R) :=
  match elements t with
  | [] => None
  | l => Some (Scalar (sum_list l / INR (length l))%R)
  end.

(** [tf.argmax]: index of the first largest element. *)
Fixpoint argmax_from (best : R) (ibest i : nat) (l : list R) : nat :=
  match l with
  | [] => ibest
  | x :: l' =>
      if decide (best < x)%R then argmax_from x i (S i) l'
      else argmax_from best ibest (S i) l'
  end.

Definition argmax_row (r : list R) : option Z :=
  match r with
  | [] => None
  | x :: l => Some (Z.of_nat (argmax_from x 0 1 l))
  end.

(** Only the reduction along dimension 1 of a matrix, the one the
    notebook asks for, is modelled. *)
Definition argmax (t : tensor R) (axis : nat) : option (tensor Z) :=
  match t, axis with
  | Mat _ m, 1 => Vec <$> mapM argmax_row m
  | _, _ => None
  end.

Definition equal (s t : tensor Z) : option (tensor bool) :=
  broadcast (λ a b, bool_decide (a = b)) s t.

(** [tf.cast] of a boolean tensor to [float32]. *)
Definition cast_float (t : tensor bool) : tensor R :=
  tmap (λ b : bool, if b then 1%R else 0%R) t.

End Op.

(** * Data frames

    A frame is kept column by column, as pandas keeps it: a row index and
    an ordered list of labelled columns (labels may repeat).  A cell that
    pandas holds as NaN is [None].  The table is read "as string objects"
    and converted by [pd.to_numeric]; the parser is a parameter of the
    development and the numbers are integers, as the codes and amounts of
    the data set are. *)

Module Pandas.

(** The column labels of the notebook: a header string, a missing header
    (NaN), or the label [prefix_level] that [get_dummies] gives to an
    indicator column. *)
Inductive label : Type :=
  | Name (s : string)
  | Missing
  | Dummy (prefix : string) (level : Z).

#[global] Instance label_eq_dec : EqDecision label.
Proof. solve_decision. Defined.

Record DataFrame (A : Type) : Type := mkFrame {
  index : list (option string);
  columns : list (label * list A)
}.
Arguments mkFrame {A} index columns.
Arguments index {A} d.
Arguments columns {A} d.

(** A numpy array of rank 2. *)
Record ndarray (A : Type) : Type := mkArray {
  shape : nat * nat;
  data : list (list A)
}.
Arguments mkArray {A} shape data.
Arguments shape {A} n.
Arguments data {A} n.

Definition cell : Type := option Z.

Definition labels {A} (df : DataFrame A) : list label := (columns df).*1.

(** Every column is as long as the index. *)
Definition well_formed {A} (df : DataFrame A) : Prop :=
  Forall (λ c, length c.2 = length (index df)) (columns df).

(** [df.iloc[0]]: the first row, by position. *)
Definition iloc0 {A} (df : DataFrame A) : outcome (list A) :=
  match index df with
  | [] => Raise IndexError
  | _ :: _ => or_raise IndexError (mapM (λ c, head c.2) (columns df))
  end.

(** [df[1:]]: all rows but the first. *)
Definition drop_first_row {A} (df : DataFrame A) : DataFrame A :=
  mkFrame (tail (index df)) ((λ c, (c.1, tail c.2)) <$> columns df).

Definition as_label (c : option string) : label :=
  match c with Some s => Name s | None => Missing end.

(** [df.rename(columns = mapper)] with a series as the mapper, indexed by
    the old labels: a new frame; [df] itself is left as it is. *)
Definition rename {A} (df : DataFrame A) (mapper : list (label * label))
    : DataFrame A :=
  mkFrame (index df)
    ((λ c, (default c.1 ((λ r, r.2.2) <$> list_find (λ m, m.1 = c.1) mapper),
            c.2))
       <$> columns df).

(** [l[-1] = x] on a Python list. *)
Definition set_last {A} (x : A) (l : list A) : outcome (list A) :=
  match l with
  | [] => Raise IndexError
  | _ :: _ => Ok (<[pred (length l) := x]> l)
  end.

(** [df.columns = new_labels]. *)
Definition set_columns {A} (new_labels : list label) (df : DataFrame A)
    : outcome (DataFrame A) :=
  if decide (length new_labels = length (columns df)) then
    Ok (mkFrame (index df) (zip new_labels (columns df).*2))
  else Raise ValueError.

(** Attribute and key access to a column, [df.NAME].  With a label that
    occurs more than once pandas hands back a sub-frame; the notebook's
    next step on it raises, and so does the model, at once. *)
Definition column_of {A} (e : exn) (name : string) (df : DataFrame A)
    : outcome (list A) :=
  match filter (λ c, c.1 = Name name) (columns df) with
  | [] => Raise e
  | [c] => Ok c.2
  | _ :: _ :: _ => Raise ValueError
  end.

(** Selection of the positions where the mask holds. *)
Fixpoint compress {A} (mask : list bool) (l : list A) : list A :=
  match mask, l with
  | b :: mask', x :: l' =>
      if b then x :: compress mask' l' else compress mask' l'
  | _, _ => []
  end.

(** [df[mask]] with a boolean series. *)
Definition select_rows {A} (mask : list bool) (df : DataFrame A)
    : DataFrame A :=
  mkFrame (compress mask (index df))
          ((λ c, (c.1, compress mask c.2)) <$> columns df).

(** The distinct values of a column in increasing order, NaN left out. *)
Fixpoint insert_level (v : Z) (l : list Z) : list Z :=
  match l with
  | [] => [v]
  | u :: l' =>
      if decide (v < u)%Z then v :: l
      else if decide (v = u) then l
      else u :: insert_level v l'
  end.

Definition levels (col : list cell) : list Z :=
  foldr (λ c acc, match c with Some v => insert_level v acc | None => acc end)
        [] col.

Definition indicator (v : Z) (c : cell) : cell :=
  if decide (c = Some v) then Some 1%Z else Some 0%Z.

Definition dummy_columns (prefix : string) (col : list cell)
    : list (label * list cell) :=
  (λ v, (Dummy prefix v, indicator v <$> col)) <$> levels col.

(** Reading the labels back: a label that is not of an indicator column,
    and the level of an indicator column of a given prefix. *)
Definition not_dummy (l : label) : Prop :=
  match l with Dummy _ _ => False | _ => True end.

Definition dummy_of (prefix : string) (l : label) : option Z :=
  match l with
  | Dummy p v => if decide (p = prefix) then Some v else None
  | _ => None
  end.

(** The cells of row [i] under the indicator columns of a prefix. *)
Definition dummy_cell (prefix : string) (i : nat) (c : label * list cell)
    : option cell :=
  _ ← dummy_of prefix c.1; c.2 !! i.

Definition dummy_cells (prefix : string) (df : DataFrame cell) (i : nat)
    : list cell :=
  omap (dummy_cell prefix i) (columns df).

(** [pd.get_dummies(df, columns = names, prefix = prefixes)]: the listed
    columns are taken out and one block of indicator columns per listed
    column is put after the columns that stay (no [dummy_na]: a NaN gets
    no column and a row of zeros). *)
Definition get_dummies (df : DataFrame cell) (names prefixes : list string)
    : outcome (DataFrame cell) :=
  if decide (length prefixes = length names) then
    encoded ← mapM (λ np, col ← column_of KeyError np.1 df; Ok (np.2, col))
                   (zip names prefixes);
    let kept := filter (λ c, c.1 ∉ Name <$> names) (columns df) in
    Ok (mkFrame (index df)
          (kept ++ (encoded ≫= λ pc, dummy_columns pc.1 pc.2)))
  else Raise ValueError.

(** [df.drop(name, axis=1)]. *)
Definition drop {A} (name : string) (df : DataFrame A)
    : outcome (DataFrame A) :=
  if decide (Name name ∈ labels df) then
    Ok (mkFrame (index df) (filter (λ c, c.1 ≠ Name name) (columns df)))
  else Raise KeyError.

(** The rows of a frame: the first [n] rows of a list of columns. *)
Fixpoint rows_of {A} `{Inhabited A} (n : nat) (cols : list (list A))
    : list (list A) :=
  match n with
  | 0 => []
  | S n' => ((λ c, c !!! 0) <$> cols) :: rows_of n' (tail <$> cols)
  end.

Definition rows {A} `{Inhabited A} (df : DataFrame A) : list (list A) :=
  rows_of (length (index df)) (columns df).*2.

(** [df.NAME.values]: a vector for a single column; for a repeated label
    the values of the sub-frame, row after row. *)
Definition values_of (name : string) (df : DataFrame cell)
    : outcome (list cell) :=
  match filter (λ c, c.1 = Name name) (columns df) with
  | [] => Raise AttributeError
  | [c] => Ok c.2
  | cs => Ok (concat (rows (mkFrame (index df) cs)))
  end.

(** [a.reshape(r, 1)]. *)
Definition reshape_column {A} (r : nat) (a : list A) : outcome (ndarray A) :=
  if decide (length a = r) then Ok (mkArray (r, 1) ((λ v, [v]) <$> a))
  else Raise ValueError.

(** [df.as_matrix()]. *)
Definition as_matrix {A} `{Inhabited A} (df : DataFrame A) : ndarray A :=
  mkArray (length (index df), length (columns df)) (rows df).

Section Preprocessing.

(** [pd.to_numeric] on one string; [None] when it raises. *)
Variable to_numeric : string → option Z.

Definition to_numeric_cell (c : option string) : outcome cell :=
  match c with
  | None => Ok None
  | Some s => Some <$> or_raise ValueError (to_numeric s)
  end.

(** [df.apply(pd.to_numeric)]. *)
Definition apply_to_numeric (df : DataFrame (option string))
    : outcome (DataFrame cell) :=
  cols ← mapM (λ c, col ← mapM to_numeric_cell c.2; Ok (c.1, col))
              (columns df);
  Ok (mkFrame (index df) cols).

Definition categorical : list string :=
  ["SEX"; "EDUCATION"; "MARRIAGE"; "PAY_0"; "PAY_2"; "PAY_3"; "PAY_4";
   "PAY_5"; "PAY_6"].

Definition prefixes : list string :=
  ["SEX"; "EDU"; "MARRY"; "PAY_0"; "PAY_2"; "PAY_3"; "PAY_4"; "PAY_5";
   "PAY_6"].

(** The cleaning steps up to the removal of the invalid education
    values; the argument is the frame [from_csv] returns. *)
Definition clean (csv : DataFrame (option string))
    : outcome (DataFrame cell) :=
  let defaults_df := csv in
  new_header ← iloc0 defaults_df;
  let defaults_df := drop_first_row defaults_df in
  let _ := rename defaults_df
             (zip (labels defaults_df) (as_label <$> new_header)) in
  let new_header := as_label <$> new_header in
  new_header ← set_last (Name "Y") new_header;
  defaults_df ← set_columns new_header defaults_df;
  defaults_df ← apply_to_numeric defaults_df;
  education ← column_of AttributeError "EDUCATION" defaults_df;
  Ok (select_rows ((λ c, bool_decide (c ≠ Some 0%Z)) <$> education)
                  defaults_df).

Definition one_hot (defaults_df : DataFrame cell)
    : outcome (DataFrame cell) :=
  get_dummies defaults_df categorical prefixes.

(** The whole first code cell: the globals it leaves behind. *)
Definition preprocess (csv : DataFrame (option string))
    : outcome (DataFrame cell * DataFrame cell * DataFrame cell
               * ndarray cell) :=
  defaults_df ← clean csv;
  clf_df ← one_hot defaults_df;
  X ← drop "Y" clf_df;
  Y ← values_of "Y" clf_df;
  Y ← reshape_column 29986 Y;
  Ok (defaults_df, clf_df, X, Y).

End Preprocessing.

End Pandas.

(** * The notebook state and the graph-building calls *)

Module TF.
Import Pandas.

(** ** Graphs *)

(** What [tf.Variable] is initialised from; the two shapes the notebook
    asks for are [[rows, cols]] and [[n]]. *)
Inductive initializer : Type :=
  | TruncatedNormal (rows cols : nat) (stddev : Q)
  | Zeros (n : nat).

Inductive op_type : Type :=
  | Placeholder (shape : list (option nat))
  | InitialValue (init : initializer)
  | VariableOp
  | MatMul | Add | Sigmoid | Log | Mul | Neg | Sum | Mean
  | ArgMax (axis : nat) | Equal | Cast
  | GradientDescent (learning_rate : Q)
  | InitAll
  | HistogramSummary (tag : string)
  | ScalarSummary (tag : string)
  | MergeSummary.

(** A node: its operation, the [name=] argument if one was given, the
    name scopes it was created under (innermost first), and the nodes it
    consumes.  Nodes are identified by their position in the graph. *)
Record node : Type := mkNode {
  op : op_type;
  name : option string;
  scope : list string;
  inputs : list nat
}.

Definition graph : Type := list node.

(** What a session needs to evaluate a node: the fed placeholders and the
    current values of the variables, both by node. *)
Record env : Type := mkEnv {
  feed_dict : gmap nat (tensor R);
  variables : gmap nat (tensor R)
}.

(** The Python object a graph-building call returns. *)
Record Tensor (A : Type) : Type := mkTensor {
  t_id : nat;
  t_eval : env → option (tensor A)
}.
Arguments mkTensor {A} t_id t_eval.
Arguments t_id {A} t.
Arguments t_eval {A} t e.

Record train_op : Type := mkTrain {
  train_id : nat;
  train_rate : Q;
  train_cost : Tensor R;
  train_vars : list nat
}.

Record init_op : Type := mkInit {
  init_id : nat;
  init_vars : list (nat * initializer)
}.

Record session : Type := mkSession {
  sess_graph : nat;
  sess_vars : gmap nat (tensor R)
}.

Record file_writer : Type := mkWriter { logdir : string }.

(** One call of [sess.run]. *)
Record run : Type := mkRun {
  run_graph : nat;
  run_fetch : nat;
  run_feed : gmap nat (ndarray cell)
}.

(** What a cell does beyond binding names and building nodes: it opens a
    session on a graph, runs a node, or writes a graph to a log directory. *)
Inductive event : Type :=
  | SessionOpened (g : nat)
  | Ran (r : run)
  | GraphWritten (dir : string) (gr : graph).

(** ** State

    The Python globals that one cell leaves for another, the graph
    objects, the open name scopes (innermost first) and the events so far
    (newest first).  [default_graph] is the content of the current default
    graph object and [default_id] its identity; [graphs] holds the graph
    objects that were the default before. *)
Record state : Type := mkState {
  g_defaults_df : option (DataFrame cell);
  g_clf_df : option (DataFrame cell);
  g_X : option (DataFrame cell);
  g_Y : option (ndarray cell);
  g_learning_rate : option Q;
  g_epochs : option nat;
  graphs : gmap nat graph;
  default_id : nat;
  default_graph : graph;
  name_scope : list string;
  trace : list event;
  rng_calls : nat
}.

Definition M (A : Type) : Type := state → outcome (A * state).

#[global] Instance M_ret : MRet M := λ A a st, Ok (a, st).
#[global] Instance M_bind : MBind M := λ A B f m st,
  match m st with
  | Ok (a, st') => f a st'
  | Raise e => Raise e
  end.

Definition raise {A} (e : exn) : M A := λ _, Raise e.
Definition get : M state := λ st, Ok (st, st).
Definition gets {A} (f : state → A) : M A := λ st, Ok (f st, st).
Definition modify (f : state → state) : M unit := λ st, Ok (tt, f st).

(** Reading a global that may not be bound yet. *)
Definition global {A} (f : state → option A) : M A := λ st,
  match f st with Some a => Ok (a, st) | None => Raise NameError end.

Definition set_X (v : DataFrame cell) (st : state) : state :=
  mkState (g_defaults_df st) (g_clf_df st) (Some v) (g_Y st)
    (g_learning_rate st) (g_epochs st) (graphs st) (default_id st)
    (default_graph st)
    (name_scope st) (trace st) (rng_calls st).
Definition set_Y (v : ndarray cell) (st : state) : state :=
  mkState (g_defaults_df st) (g_clf_df st) (g_X st) (Some v)
    (g_learning_rate st) (g_epochs st) (graphs st) (default_id st)
    (default_graph st)
    (name_scope st) (trace st) (rng_calls st).
Definition set_frames (d c : DataFrame cell) (st : state) : state :=
  mkState (Some d) (Some c) (g_X st) (g_Y st)
    (g_learning_rate st) (g_epochs st) (graphs st) (default_id st)
    (default_graph st)
    (name_scope st) (trace st) (rng_calls st).
Definition set_learning_rate (v : Q) (st : state) : state :=
  mkState (g_defaults_df st) (g_clf_df st) (g_X st) (g_Y st)
    (Some v) (g_epochs st) (graphs st) (default_id st) (default_graph st)
    (name_scope st) (trace st) (rng_calls st).
Definition set_epochs (v : nat) (st : state) : state :=
  mkState (g_defaults_df st) (g_clf_df st) (g_X st) (g_Y st)
    (g_learning_rate st) (Some v) (graphs st) (default_id st)
    (default_graph st)
    (name_scope st) (trace st) (rng_calls st).
Definition set_graphs (gs : gmap nat graph) (k : nat) (g : graph) (st : state)
    : state :=
  mkState (g_defaults_df st) (g_clf_df st) (g_X st) (g_Y st)
    (g_learning_rate st) (g_epochs st) gs k g
    (name_scope st) (trace st) (rng_calls st).
Definition set_name_scope (s : list string) (st : state) : state :=
  mkState (g_defaults_df st) (g_clf_df st) (g_X st) (g_Y st)
    (g_learning_rate st) (g_epochs st) (graphs st) (default_id st)
    (default_graph st)
    s (trace st) (rng_calls st).
Definition set_trace (l : list event) (st : state) : state :=
  mkState (g_defaults_df st) (g_clf_df st) (g_X st) (g_Y st)
    (g_learning_rate st) (g_epochs st) (graphs st) (default_id st)
    (default_graph st)
    (name_scope st) l (rng_calls st).
Definition set_rng_calls (n : nat) (st : state) : state :=
  mkState (g_defaults_df st) (g_clf_df st) (g_X st) (g_Y st)
    (g_learning_rate st) (g_epochs st) (graphs st) (default_id st)
    (default_graph st)
    (name_scope st) (trace st) n.

Definition emit (ev : event) : M unit :=
  modify (λ st, set_trace (ev :: trace st) st).

(** The graph object with a given identity. *)
Definition graph_of (st : state) (g : nat) : option graph :=
  if decide (g = default_id st) then Some (default_graph st)
  else graphs st !! g.

(** [tf.reset_default_graph()]: a new, empty graph object becomes the
    default one. *)
Definition reset_default_graph : M unit :=
  modify (λ st, set_graphs (<[default_id st := default_graph st]> (graphs st))
                  (S (default_id st)) [] st).

(** The number of nodes of a graph, which is the identifier of the next
    node. *)
Fixpoint node_count (g : graph) : nat :=
  match g with
  | [] => 0
  | _ :: g' => S (node_count g')
  end.

(** Every graph-building call appends its node to the default graph. *)
Definition add_node (o : op_type) (nm : option string) (ins : list nat)
    : M nat := λ st,
  Ok (node_count (default_graph st),
      set_graphs (graphs st) (default_id st)
        (default_graph st ++ [mkNode o nm (name_scope st) ins]) st).

(** [with tf.name_scope(s): body]. *)
Definition with_name_scope {A} (s : string) (body : M A) : M A :=
  outer ← gets name_scope;
  modify (set_name_scope (s :: outer));;
  a ← body;
  modify (set_name_scope outer);;
  mret a.

(** ** Graph-building calls *)

Definition dim_fits (d : option nat) (n : nat) : bool :=
  match d with None => true | Some k => Nat.eqb k n end.

Definition has_shape {A} (shape : list (option nat)) (t : tensor A) : bool :=
  match shape, t with
  | [], Scalar _ => true
  | [d], Vec v => dim_fits d (length v)
  | [d1; d2], Mat c m =>
      dim_fits d1 (length m) && dim_fits d2 c && Op.is_matrix c m
  | _, _ => false
  end.

(** What the nodes evaluate to. *)
Definition eval_placeholder (shape : list (option nat)) (i : nat)
    : env → option (tensor R) := λ e,
  t ← feed_dict e !! i;
  if has_shape shape t then Some t else None.

Definition eval_variable (i : nat) : env → option (tensor R) := λ e,
  variables e !! i.

Definition eval_unary {A B} (f : tensor A → option (tensor B))
    (a : env → option (tensor A)) : env → option (tensor B) := λ e,
  a e ≫= f.

Definition eval_binary {A B C} (f : tensor A → tensor B → option (tensor C))
    (a : env → option (tensor A)) (b : env → option (tensor B))
    : env → option (tensor C) := λ e,
  x ← a e; y ← b e; f x y.

(** [tf.placeholder(tf.float32, shape, name)]: evaluates to what is fed,
    which has to fit the shape. *)
Definition placeholder (shape : list (option nat)) (nm : option string)
    : M (Tensor R) :=
  i ← add_node (Placeholder shape) nm [];
  mret (mkTensor i (eval_placeholder shape i)).

(** [tf.truncated_normal] and [tf.zeros]: the node of an initial value. *)
Definition initial_value (init : initializer) : M (nat * initializer) :=
  i ← add_node (InitialValue init) None [];
  mret (i, init).

(** [tf.Variable(initial_value, name)]: evaluates to the value the
    session holds for it. *)
Definition tf_Variable (init : nat * initializer) (nm : option string)
    : M (Tensor R) :=
  i ← add_node VariableOp nm [init.1];
  mret (mkTensor i (eval_variable i)).

Definition unary {A B} (o : op_type) (f : tensor A → option (tensor B))
    (a : Tensor A) (nm : option string) : M (Tensor B) :=
  i ← add_node o nm [t_id a];
  mret (mkTensor i (eval_unary f (t_eval a))).

Definition binary {A B C} (o : op_type)
    (f : tensor A → tensor B → option (tensor C))
    (a : Tensor A) (b : Tensor B) (nm : option string) : M (Tensor C) :=
  i ← add_node o nm [t_id a; t_id b];
  mret (mkTensor i (eval_binary f (t_eval a) (t_eval b))).

Definition matmul := binary MatMul Op.matmul.
Definition add := binary Add Op.add.
Definition mul := binary Mul Op.mul.
Definition sigmoid := unary Sigmoid (λ t, Some (Op.sigmoid t)).
Definition log := unary Log Op.log.
Definition neg := unary Neg (λ t, Some (Op.neg t)).
Definition reduce_sum := unary Sum (λ t, Some (Op.reduce_sum t)).
Definition reduce_mean := unary Mean Op.reduce_mean.
Definition argmax (a : Tensor R) (axis : nat) :=
  unary (ArgMax axis) (λ t, Op.argmax t axis) a.
Definition equal := binary Equal Op.equal.
Definition cast_float := unary Cast (λ t, Some (Op.cast_float t)).

(** [tf.cast(t, tf.float32)] on a tensor that is [float32] already hands
    back the tensor itself. *)
Definition cast_same (t : Tensor R) : M (Tensor R) := mret t.

Definition is_variable (n : node) : bool :=
  match op n with VariableOp => true | _ => false end.

(** The variables of a graph (all of them are trainable). *)
Definition variable_ids (g : graph) : list nat :=
  (filter (λ p, is_variable p.2) (imap pair g)).*1.

(** [tf.train.GradientDescentOptimizer(rate).minimize(cost)]. *)
Definition minimize (rate : Q) (cost : Tensor R) : M train_op :=
  g ← gets default_graph;
  i ← add_node (GradientDescent rate) None [t_id cost];
  mret (mkTrain i rate cost (variable_ids g)).

Definition summary_histogram (tag : string) (t : Tensor R) : M nat :=
  add_node (HistogramSummary tag) None [t_id t].
Definition summary_scalar (tag : string) (t : Tensor R) : M nat :=
  add_node (ScalarSummary tag) None [t_id t].

Definition is_summary (n : node) : bool :=
  match op n with
  | HistogramSummary _ | ScalarSummary _ => true
  | _ => false
  end.

(** [tf.summary.merge_all()]. *)
Definition summary_merge_all : M nat :=
  g ← gets default_graph;
  add_node MergeSummary None
    (filter (λ p, is_summary p.2) (imap pair g)).*1.

Definition initializer_of (g : graph) (v : nat) : option (nat * initializer) :=
  n ← g !! v;
  i ← head (inputs n);
  n' ← g !! i;
  match op n' with InitialValue init => Some (v, init) | _ => None end.

(** [tf.global_variables_initializer()]. *)
Definition global_variables_initializer : M init_op :=
  g ← gets default_graph;
  i ← add_node InitAll None (variable_ids g);
  mret (mkInit i (omap (initializer_of g) (variable_ids g))).

(** ** Sessions *)

(** [tf.Session()] is bound to the graph that is the default one when it
    is opened. *)
Definition Session : M session :=
  st ← get;
  emit (SessionOpened (default_id st));;
  mret (mkSession (default_id st) ∅).

Definition fits_placeholder (g : graph) (p : nat * ndarray cell) : bool :=
  match op <$> g !! p.1 with
  | Some (Placeholder [d1; d2]) =>
      dim_fits d1 (shape p.2).1 && dim_fits d2 (shape p.2).2
  | _ => false
  end.

Section Framework.

(** The pseudo-random draw of [tf.truncated_normal], by the number of
    draws made so far. *)
Variable truncated_normal : nat → nat → nat → Q → tensor R.

(** One step of the optimizer, which the framework derives from the
    cost: from the learning rate, the cost node, the trainable
    variables, what is fed and the current values of the variables to
    their new values. *)
Variable apply_gradient_descent :
  Q → Tensor R → list nat → gmap nat (ndarray cell) →
  gmap nat (tensor R) → gmap nat (tensor R).

Definition draw (init : initializer) : M (tensor R) :=
  match init with
  | Zeros n => mret (Vec (replicate n 0%R))
  | TruncatedNormal r c sd =>
      k ← gets rng_calls;
      modify (set_rng_calls (S k));;
      mret (truncated_normal k r c sd)
  end.

Fixpoint assign_all (vs : list (nat * initializer))
    (store : gmap nat (tensor R)) : M (gmap nat (tensor R)) :=
  match vs with
  | [] => mret store
  | (v, init) :: vs' =>
      t ← draw init;
      assign_all vs' (<[v := t]> store)
  end.

(** [sess.run(init)]. *)
Definition run_init (sess : session) (init : init_op) : M session :=
  emit (Ran (mkRun (sess_graph sess) (init_id init) ∅));;
  store ← assign_all (init_vars init) (sess_vars sess);
  mret (mkSession (sess_graph sess) store).

(** [sess.run(optimizer, feed_dict)]: what is fed has to fit the
    placeholders; then the variables take their new values.  The step
    itself is the framework's and is not looked into: that the fed arrays
    have to agree in their number of rows is not checked here, and is a
    hypothesis where a run of the optimizer is shown to end. *)
Definition run_train (sess : session) (t : train_op)
    (feed : gmap nat (ndarray cell)) : M session :=
  st ← get;
  g ← (match graph_of st (sess_graph sess) with
       | Some g => mret g
       | None => raise ValueError
       end);
  if forallb (fits_placeholder g) (map_to_list feed) then
    emit (Ran (mkRun (sess_graph sess) (train_id t) feed));;
    mret (mkSession (sess_graph sess)
            (apply_gradient_descent (train_rate t) (train_cost t)
               (train_vars t) feed (sess_vars sess)))
  else raise ValueError.

End Framework.

(** [tf.summary.FileWriter(logdir, graph)] and [writer.add_graph(graph)]
    write the graph, as it is at that moment, to the log directory. *)
Definition write_graph (dir : string) (g : nat) : M unit :=
  st ← get;
  match graph_of st g with
  | Some gr => emit (GraphWritten dir gr)
  | None => raise ValueError
  end.

Definition FileWriter (dir : string) (g : nat) : M file_writer :=
  write_graph dir g;;
  mret (mkWriter dir).

Definition add_graph (w : file_writer) (g : nat) : M unit :=
  write_graph (logdir w) g.

(** ** Reading a graph and a trace *)

(** The operation of a node without its attributes. *)
Inductive kind : Type :=
  | KPlaceholder | KInitialValue | KVariable | KMatMul | KAdd | KSigmoid
  | KLog | KMul | KNeg | KSum | KMean | KArgMax | KEqual | KCast
  | KGradientDescent | KInitAll | KSummary | KMergeSummary.

#[global] Instance kind_eq_dec : EqDecision kind.
Proof. solve_decision. Defined.

Definition kind_of (o : op_type) : kind :=
  match o with
  | Placeholder _ => KPlaceholder
  | InitialValue _ => KInitialValue
  | VariableOp => KVariable
  | MatMul => KMatMul
  | Add => KAdd
  | Sigmoid => KSigmoid
  | Log => KLog
  | Mul => KMul
  | Neg => KNeg
  | Sum => KSum
  | Mean => KMean
  | ArgMax _ => KArgMax
  | Equal => KEqual
  | Cast => KCast
  | GradientDescent _ => KGradientDescent
  | InitAll => KInitAll
  | HistogramSummary _ | ScalarSummary _ => KSummary
  | MergeSummary => KMergeSummary
  end.

(** [ends_path g ks i]: node [i] has the kind at the head of [ks], one of
    its inputs the next kind, and so on: a path of the graph read from its
    end. *)
Fixpoint ends_path (g : graph) (ks : list kind) (i : nat) : bool :=
  match ks with
  | [] => true
  | k :: ks' =>
      match g !! i with
      | Some n =>
          bool_decide (kind_of (op n) = k)
          && match ks' with
             | [] => true
             | _ :: _ => existsb (ends_path g ks') (inputs n)
             end
      | None => false
      end
  end.

(** The graph has a path through nodes of these kinds, in this order. *)
Definition has_path (g : graph) (ks : list kind) : bool :=
  existsb (ends_path g (rev ks)) (seq 0 (length g)).

(** placeholder, matmul, add bias, sigmoid, cost, gradient-descent step;
    weights into the product and a bias into the sum. *)
Definition builds_model (g : graph) : bool :=
  has_path g [KPlaceholder; KMatMul; KAdd; KSigmoid; KLog; KMul; KSum; KNeg;
              KMean; KGradientDescent]
  && has_path g [KVariable; KMatMul]
  && has_path g [KVariable; KAdd; KSigmoid]
  && has_path g [KPlaceholder; KMul].

(** The accuracy node on top of the model output. *)
Definition builds_accuracy (g : graph) : bool :=
  has_path g [KPlaceholder; KMatMul; KAdd; KSigmoid; KArgMax; KEqual; KCast;
              KMean].

Definition has_kind (g : graph) (k : kind) : bool :=
  existsb (λ n, bool_decide (kind_of (op n) = k)) g.

(** The session runs and the graphs written of a trace. *)
Definition runs_of (tr : list event) : list run :=
  omap (λ ev, match ev with Ran r => Some r | _ => None end) tr.

Definition writes_of (tr : list event) : list (string * graph) :=
  omap (λ ev, match ev with GraphWritten d g => Some (d, g) | _ => None end)
       tr.

(** The same Python globals in a process that has built no graph yet. *)
Definition fresh (st : state) : state :=
  mkState (g_defaults_df st) (g_clf_df st) (g_X st) (g_Y st)
    (g_learning_rate st) (g_epochs st) ∅ 0 [] (name_scope st) []
    (rng_calls st).

(** [for x in l: body], the body acting on a value [s] that it updates. *)
Fixpoint for_each {A S} (l : list A) (body : A → S → M S) (s : S) : M S :=
  match l with
  | [] => mret s
  | x :: l' => s' ← body x s; for_each l' body s'
  end.

End TF.

(** * The code cells *)

Module Notebook.
Import Pandas TF.

(** The Python names a graph cell binds. *)
Record model : Type := mkModel {
  x : Tensor R;
  W : Tensor R;
  b : Tensor R;
  logits : Tensor R;
  y_labels : Tensor R;
  cost : Tensor R;
  optimizer : train_op;
  accuracy : option (Tensor R);
  sess : session
}.

(** The optimizer of a model is a gradient-descent step of rate 0.0001 on
    the cost node of the model. *)
Definition optimizer_wired (g : graph) (m : model) : Prop :=
  train_rate (optimizer m) = (1 # 10000)%Q
  ∧ train_cost (optimizer m) = cost m
  ∧ ∃ n, g !! train_id (optimizer m) = Some n
         ∧ op n = GradientDescent (1 # 10000)
         ∧ inputs n = [t_id (cost m)].

Definition initial_state : state :=
  mkState None None None None None None ∅ 0 [] [] [] 0.

Section Cells.

Variable to_numeric : string → option Z.
Variable truncated_normal : nat → nat → nat → Q → tensor R.
Variable apply_gradient_descent :
  Q → Tensor R → list nat → gmap nat (ndarray cell) →
  gmap nat (tensor R) → gmap nat (tensor R).

#[local] Abbreviation run_init := (run_init truncated_normal).
#[local] Abbreviation run_train := (run_train apply_gradient_descent).

(** First code cell: loading and cleaning.  [csv] is the frame that
    [pd.DataFrame.from_csv] returns.  A cell that raises is not
    followed any further. *)
Definition cell_preprocess (csv : DataFrame (option string)) : M unit :=
  λ st,
    '(defaults_df, clf_df, X, Y) ← preprocess to_numeric csv;
    Ok (tt, set_Y Y (set_X X (set_frames defaults_df clf_df st))).

(** Second code cell: [len(list(X))]. *)
Definition cell_num_columns : M nat :=
  X ← global g_X;
  mret (length (columns X)).

(** Third code cell: the graph, node by node. *)
Definition cell_graph1 : M model :=
  reset_default_graph;;
  X ← global g_X;
  let num_features := length (columns X) in
  let num_outputs := 1 in
  x_input ← placeholder [None; Some num_features] (Some "inputs");
  w0 ← initial_value (TruncatedNormal num_features num_outputs (1 # 10));
  W ← tf_Variable w0 (Some "W");
  b0 ← initial_value (Zeros num_outputs);
  b ← tf_Variable b0 (Some "bias");
  product ← matmul x_input W None;
  linear ← add product b None;
  y_output ← sigmoid linear (Some "sigmoid");
  y_labels ← placeholder [None; Some num_outputs] (Some "actual_output");
  log_output ← log y_output None;
  weighted ← mul y_labels log_output None;
  total ← reduce_sum weighted None;
  negated ← neg total None;
  cost ← reduce_mean negated None;
  modify (set_learning_rate (1 # 10000));;
  learning_rate ← global g_learning_rate;
  optimizer ← minimize learning_rate cost;
  predicted ← argmax y_output 1 None;
  actual ← argmax y_labels 1 None;
  correct_prediction ← equal predicted actual None;
  as_float ← cast_float correct_prediction None;
  accuracy ← reduce_mean as_float None;
  sess ← Session;
  init ← global_variables_initializer;
  sess ← run_init sess init;
  file_writer ← FileWriter "./logs/1" (sess_graph sess);
  mret (mkModel x_input W b y_output y_labels cost optimizer
          (Some accuracy) sess).

(** Fourth code cell: the hyperparameter. *)
Definition cell_learning_rate : M unit :=
  modify (set_learning_rate (1 # 10000)).

(** Fifth code cell: the same graph under name scopes. *)
Definition cell_graph2 : M model :=
  reset_default_graph;;
  X ← global g_X;
  let num_features := length (columns X) in
  let num_outputs := 1 in
  x ← placeholder [None; Some num_features] (Some "inputs");
  '(W, b, linear_output) ← with_name_scope "Linear_Output" (
    w0 ← initial_value (TruncatedNormal num_features num_outputs (1 # 10));
    W ← tf_Variable w0 (Some "W");
    b0 ← initial_value (Zeros num_outputs);
    b ← tf_Variable b0 (Some "bias");
    product ← matmul x W (Some "mat_mul");
    linear_output ← add product b (Some "linear_output");
    mret (W, b, linear_output));
  logits ← with_name_scope "Logits" (
    sigmoid linear_output (Some "logit"));
  y_labels ← placeholder [None; Some num_outputs] (Some "actual_output");
  cost ← with_name_scope "Cost" (
    log_output ← log logits None;
    weighted ← mul y_labels log_output None;
    total ← reduce_sum weighted None;
    negated ← neg total None;
    reduce_mean negated None);
  optimizer ← with_name_scope "Train" (
    learning_rate ← global g_learning_rate;
    minimize learning_rate cost);
  accuracy ← with_name_scope "Accuracy" (
    predicted ← argmax logits 1 None;
    actual ← argmax y_labels 1 None;
    correct_prediction ← equal predicted actual
                           (Some "correct_prediction");
    as_float ← cast_float correct_prediction None;
    reduce_mean as_float (Some "accuracy"));
  sess ← Session;
  init ← global_variables_initializer;
  sess ← run_init sess init;
  file_writer ← FileWriter "./logs/3" (sess_graph sess);
  mret (mkModel x W b logits y_labels cost optimizer (Some accuracy) sess).

(** Sixth code cell: the hyperparameters. *)
Definition cell_hyperparameters : M unit :=
  modify (set_learning_rate (1 # 10000));;
  modify (set_epochs 1000).

(** The body of the training loop:
    [sess.run(optimizer, feed_dict={x: X.as_matrix(), y_labels: Y})]. *)
Definition train_step (x y_labels : Tensor R) (optimizer : train_op)
    (e : nat) (sess : session) : M session :=
  X ← global g_X;
  Y ← global g_Y;
  run_train sess optimizer
    (<[t_id y_labels := Y]> (<[t_id x := as_matrix X]> ∅)).

(** Seventh code cell: the graph with summaries, without the accuracy
    nodes (they are commented out), and the training loop. *)
Definition cell_graph3 : M model :=
  reset_default_graph;;
  X ← global g_X;
  let num_features := length (columns X) in
  let num_outputs := 1 in
  x ← placeholder [None; Some num_features] (Some "inputs");
  '(W, b, linear_output) ← with_name_scope "Linear_Output" (
    w0 ← initial_value (TruncatedNormal num_features num_outputs (1 # 10));
    W ← tf_Variable w0 (Some "W");
    b0 ← initial_value (Zeros num_outputs);
    b ← tf_Variable b0 (Some "bias");
    W32 ← cast_same W;
    product ← matmul x W32 (Some "mat_mul");
    linear_output ← add product b (Some "linear_output");
    summary_histogram "Weights" W;;
    summary_scalar "Bias" b;;
    mret (W, b, linear_output));
  logits ← with_name_scope "Logits" (
    sigmoid linear_output (Some "logit"));
  y_labels ← placeholder [None; Some num_outputs] (Some "y_labels");
  cost ← with_name_scope "Cost" (
    log_output ← log logits None;
    weighted ← mul y_labels log_output None;
    total ← reduce_sum weighted None;
    negated ← neg total None;
    cost ← reduce_mean negated None;
    summary_scalar "Cost" cost;;
    mret cost);
  optimizer ← with_name_scope "Train" (
    learning_rate ← global g_learning_rate;
    minimize learning_rate cost);
  merged ← summary_merge_all;
  sess ← Session;
  init ← global_variables_initializer;
  sess ← run_init sess init;
  file_writer ← FileWriter "./logs/4" (sess_graph sess);
  add_graph file_writer (sess_graph sess);;
  epochs ← global g_epochs;
  sess ← for_each (seq 0 epochs) (train_step x y_labels optimizer) sess;
  mret (mkModel x W b logits y_labels cost optimizer None sess).

(** Eighth code cell: [Y.shape]. *)
Definition cell_shape : M (nat * nat) :=
  Y ← global g_Y;
  mret (shape Y).

(** The graph cells, in the order of the notebook. *)
Definition graph_cells : list (M model) :=
  [cell_graph1; cell_graph2; cell_graph3].

(** The cells that follow the preprocessing cell. *)
Definition later_cells : M (list model) :=
  cell_num_columns;;
  m1 ← cell_graph1;
  cell_learning_rate;;
  m2 ← cell_graph2;
  cell_hyperparameters;;
  m3 ← cell_graph3;
  cell_shape;;
  mret [m1; m2; m3].

(** The notebook run from top to bottom. *)
Definition run_all (csv : DataFrame (option string)) : M (list model) :=
  cell_preprocess csv;;
  later_cells.

End Cells.

End Notebook.

(** * The nodes of the model in [float32]

    The framework computes in [float32].  Its arithmetic is that of the
    IEEE 754 specification of the Standard Library at 24 bits of
    precision.  The exponential and the logarithm are the library's: their
    values are given here where the correctly rounded value is an
    infinity, a zero, a one or not a number, and are parameters
    elsewhere. *)

Module Float32.
Import Pandas TF.

Definition f32 : Type := spec_float.

Definition prec : Z := 24.
Definition emax : Z := 128.

Definition of_Z (z : Z) : f32 := binary_normalize prec emax z 0 false.
Definition add : f32 → f32 → f32 := SFadd prec emax.
Definition mul : f32 → f32 → f32 := SFmul prec emax.
Definition div : f32 → f32 → f32 := SFdiv prec emax.
Definition neg : f32 → f32 := SFopp.
Definition zero : f32 := S754_zero false.

Definition sum (l : list f32) : f32 := foldl add zero l.

Definition dot (u v : list f32) : f32 := sum (zip_with mul u v).

Definition column (j : nat) (m : list (list f32)) : list f32 :=
  fmap (M:=list) (λ r, nth j r zero) m.

Definition matmul (s t : tensor f32) : option (tensor f32) :=
  match s, t with
  | Mat k a, Mat n b =>
      if decide (k = length b) then
        if Op.is_matrix k a && Op.is_matrix n b then
          Some (Mat n (fmap (M:=list)
                         (λ row, fmap (M:=list) (λ j, dot row (column j b))
                                   (seq 0 n))
                         a))
        else None
      else None
  | _, _ => None
  end.

Definition reduce_mean (t : tensor f32) : tensor f32 :=
  Scalar (div (sum (Op.elements t))
              (of_Z (Z.of_nat (length (Op.elements t))))).

Section Library.

(** The library's exponential and logarithm where their value is finite
    and not zero. *)
Variables (exp_mid log_mid : f32 → f32).

(** [e^89] is above the largest [float32], and [e^(-104)] below half the
    smallest one. *)
Definition exp (a : f32) : f32 :=
  match a with
  | S754_nan => S754_nan
  | S754_infinity false => S754_infinity false
  | S754_infinity true => zero
  | S754_zero _ => of_Z 1
  | S754_finite _ _ _ =>
      if SFleb (of_Z 89) a then S754_infinity false
      else if SFleb a (of_Z (-104)) then zero
      else exp_mid a
  end.

Definition log (a : f32) : f32 :=
  match a with
  | S754_nan => S754_nan
  | S754_infinity false => S754_infinity false
  | S754_infinity true => S754_nan
  | S754_zero _ => S754_infinity true
  | S754_finite true _ _ => S754_nan
  | S754_finite false _ _ => if SFeqb a (of_Z 1) then zero else log_mid a
  end.

(** [tf.sigmoid]: [1 / (1 + exp (-x))]. *)
Definition sigmoid (a : f32) : f32 :=
  div (of_Z 1) (add (of_Z 1) (exp (neg a))).

(** The value of a node from the values of the nodes before it.  The
    nodes of the accuracy, the optimizer, the initializer and the
    summaries are not evaluated. *)
Definition node_value (feed vars : gmap nat (tensor f32))
    (values : list (option (tensor f32))) (i : nat) (n : node)
    : option (tensor f32) :=
  let arg (k : nat) : option (tensor f32) :=
    j ← inputs n !! k; mjoin (values !! j) in
  match op n with
  | Placeholder shape =>
      t ← feed !! i; if has_shape shape t then Some t else None
  | VariableOp => vars !! i
  | MatMul => a ← arg 0; b ← arg 1; matmul a b
  | Add => a ← arg 0; b ← arg 1; Op.broadcast add a b
  | Mul => a ← arg 0; b ← arg 1; Op.broadcast mul a b
  | Sigmoid => a ← arg 0; Some (Op.tmap sigmoid a)
  | Log => a ← arg 0; Some (Op.tmap log a)
  | Neg => a ← arg 0; Some (Op.tmap neg a)
  | Sum => a ← arg 0; Some (Scalar (sum (Op.elements a)))
  | Mean => a ← arg 0; Some (reduce_mean a)
  | _ => None
  end.

(** The values of all nodes of a graph, in the order of the graph. *)
Definition values (g : graph) (feed vars : gmap nat (tensor f32))
    : list (option (tensor f32)) :=
  foldl (λ vs n, vs ++ [node_value feed vars vs (length vs) n]) [] g.

Definition eval (g : graph) (feed vars : gmap nat (tensor f32)) (i : nat)
    : option (tensor f32) :=
  mjoin (values g feed vars !! i).

End Library.

End Float32.

(** * Sample data

    A parser of decimal integers for [pd.to_numeric], an initial draw and
    an optimizer step for the framework, and small and full-size tables. *)

Module Sample.
Import Pandas TF Notebook.

Definition digit (a : Ascii.ascii) : option Z :=
  let n := Ascii.nat_of_ascii a in
  if (48 <=? n)%nat && (n <=? 57)%nat then Some (Z.of_nat (n - 48)) else None.

Fixpoint digits (acc : Z) (s : string) : option Z :=
  match s with
  | EmptyString => Some acc
  | String a s' => d ← digit a; digits (10 * acc + d)%Z s'
  end.

Definition parse_int (s : string) : option Z :=
  match s with
  | EmptyString => None
  | String "-"%char (String a s') => Z.opp <$> digits 0 (String a s')
  | _ => digits 0 s
  end.

(** The second header row of the data set (without the index column). *)
Definition header_row : list string :=
  ["LIMIT_BAL"; "SEX"; "EDUCATION"; "MARRIAGE"; "AGE"; "PAY_0"; "PAY_2";
   "PAY_3"; "PAY_4"; "PAY_5"; "PAY_6"; "default payment next month"].

(** A table as [from_csv] returns it: the header row first, then one
    column of cells under each header, given by the header. *)
Definition table (n : nat) (cells : string → list (option string))
    : DataFrame (option string) :=
  mkFrame (replicate (S n) (Some "ID"))
    ((λ h, (Name "X", Some h :: cells h)) <$> header_row).

(** Three rows: the first has no value for SEX, the second has the
    education value 0. *)
Definition small_csv : DataFrame (option string) :=
  table 3 (λ h,
    if decide (h = "SEX") then [None; Some "1"; Some "2"]
    else if decide (h = "EDUCATION") then [Some "2"; Some "0"; Some "1"]
    else [Some "1"; Some "-1"; Some "3"]).

(** 30000 rows, 14 of them with the education value 0, as in the data
    set. *)
Definition full_csv : DataFrame (option string) :=
  table 30000 (λ h,
    if decide (h = "EDUCATION")
    then replicate 14 (Some "0") ++ replicate 29986 (Some "2")
    else replicate 30000 (Some "1")).

Definition is_ok {A} (o : outcome A) : bool :=
  match o with Ok _ => true | Raise _ => false end.

Definition zero_init : nat → nat → nat → Q → tensor R :=
  λ _ r c _, Mat c (replicate r (replicate c 0%R)).

Definition keep_values :
    Q → Tensor R → list nat → gmap nat (ndarray cell) →
    gmap nat (tensor R) → gmap nat (tensor R) :=
  λ _ _ _ _ store, store.

Definition small_X : DataFrame cell :=
  mkFrame [Some "1"; Some "2"]
    [(Name "AGE", [Some 30%Z; Some 40%Z]);
     (Dummy "SEX" 1, [Some 1%Z; Some 0%Z])].

Definition small_Y : ndarray cell :=
  mkArray (2, 1) [[Some 1%Z]; [Some 0%Z]].

Definition small_state : state :=
  set_Y small_Y (set_X small_X initial_state).

End Sample.

Import Pandas TF Notebook Sample.

(** * Properties of the graph operations *)

Section OpFacts.
Import Op.
Local Open Scope R_scope.

Lemma sigmoid_fn_bounds (z : R) : 0 < sigmoid_fn z < 1.
Proof.
  unfold sigmoid_fn.
  pose proof (exp_pos (- z)) as Hexp.
  split.
  - apply Rdiv_lt_0_compat; lra.
  - apply (Rmult_lt_reg_r (1 + exp (- z))); [lra|].
    unfold Rdiv. rewrite Rmult_assoc, Rinv_l by lra. lra.
Qed.

Lemma mapM_total {A B} (f : A → B) (l : list A) :
  mapM (λ a, Some (f a)) l = Some (f <$> l).
Proof. induction l as [|a l IH]; [done|]. cbn. by rewrite IH. Qed.

Lemma mapM_ext_in {A B} (f g : A → option B) (l : list A) :
  Forall (λ a, f a = g a) l → mapM f l = mapM g l.
Proof. induction 1 as [|a l Ha _ IH]; [done|]. cbn. by rewrite Ha, IH. Qed.

Lemma bcast_same {A B C} (f : A → B → option C) (a : list A) (b : list B) :
  length a = length b → bcast f a b = mapM (λ p, f p.1 p.2) (zip a b).
Proof. intros H. unfold bcast. by rewrite decide_True. Qed.

Lemma bcast_lift2_same {A B C} (f : A → B → C) (a : list A) (b : list B) :
  length a = length b → bcast (lift2 f) a b = Some (zip_with f a b).
Proof.
  intros H. rewrite bcast_same by done. unfold lift2.
  rewrite (mapM_total (λ p, f p.1 p.2)). f_equal.
  clear H. revert b. induction a as [|x a IH]; intros [|y b]; cbn; f_equal; auto.
Qed.

Lemma is_matrix_spec {A} (c : nat) (m : list (list A)) :
  is_matrix c m = true ↔ Forall (λ r, length r = c) m.
Proof.
  unfold is_matrix. rewrite forallb_forall, Forall_forall.
  split; intros H r Hr.
  - apply Nat.eqb_eq, H. by apply list_elem_of_In.
  - apply Nat.eqb_eq, H. by apply list_elem_of_In.
Qed.

Lemma is_matrix_column {A} (l : list A) : is_matrix 1 ((λ v, [v]) <$> l) = true.
Proof. apply is_matrix_spec, Forall_fmap, Forall_forall. done. Qed.

Lemma column_0_singletons (w : list R) : column 0 ((λ v, [v]) <$> w) = w.
Proof.
  unfold column. rewrite <- list_fmap_compose.
  induction w as [|v w IH]; cbn; [done|]. by f_equal.
Qed.

(** The linear part and the model output on a batch. *)
Lemma matmul_column (nf : nat) (xs : list (list R)) (w : list R) :
  Forall (λ r, length r = nf) xs → length w = nf →
  matmul (Mat nf xs) (Mat 1 ((λ v, [v]) <$> w))
  = Some (Mat 1 ((λ row, [dot row w]) <$> xs)).
Proof.
  intros Hxs Hw. unfold matmul.
  rewrite decide_True by (by rewrite length_fmap).
  apply is_matrix_spec in Hxs. rewrite Hxs, is_matrix_column. cbn.
  by rewrite column_0_singletons.
Qed.

Lemma bdim_same (c : nat) : bdim c c = Some c.
Proof. unfold bdim. by rewrite decide_True. Qed.

Lemma add_bias (m : list R) (b0 : R) :
  add (Mat 1 ((λ d, [d]) <$> m)) (Vec [b0])
  = Some (Mat 1 ((λ d, [d + b0]) <$> m)).
Proof.
  unfold add, broadcast. cbn [length]. rewrite bdim_same. cbn.
  erewrite mapM_ext_in.
  - rewrite (mapM_total (λ r, zip_with Rplus r [b0])).
    cbn. do 2 f_equal. rewrite <- list_fmap_compose. done.
  - apply Forall_fmap, Forall_forall. intros d _. cbn.
    by rewrite bcast_lift2_same.
Qed.

Lemma sum_list_app (l k : list R) : sum_list (l ++ k) = sum_list l + sum_list k.
Proof. unfold sum_list. induction l as [|a l IH]; cbn; [lra|]. rewrite IH. lra. Qed.

Lemma sum_list_singletons (l : list R) :
  sum_list (concat ((λ v, [v]) <$> l)) = sum_list l.
Proof. induction l as [|a l IH]; cbn; [done|]. unfold sum_list in *. cbn. by rewrite IH. Qed.

Lemma log_positive (t : tensor R) :
  Forall (λ v, 0 < v) (elements t) → log t = Some (tmap ln t).
Proof. intros H. unfold log. by rewrite decide_True. Qed.

Lemma log_sigmoid (t : tensor R) : log (sigmoid t) = Some (tmap ln (sigmoid t)).
Proof.
  apply log_positive. unfold sigmoid.
  destruct t as [a|v|c m]; cbn.
  - repeat constructor. apply sigmoid_fn_bounds.
  - apply Forall_fmap, Forall_forall. intros ??. apply sigmoid_fn_bounds.
  - apply Forall_concat, Forall_fmap, Forall_forall. intros r _.
    apply Forall_fmap, Forall_forall. intros ??. apply sigmoid_fn_bounds.
Qed.

Lemma mul_columns (ys ls : list R) :
  length ys = length ls →
  mul (Mat 1 ((λ v, [v]) <$> ys)) (Mat 1 ((λ v, [v]) <$> ls))
  = Some (Mat 1 ((λ v, [v]) <$> zip_with Rmult ys ls)).
Proof.
  intros Hlen. unfold mul, broadcast. rewrite bdim_same. cbn.
  rewrite bcast_same by (by rewrite !length_fmap).
  erewrite mapM_ext_in.
  - rewrite (mapM_total (λ p, zip_with Rmult p.1 p.2)). cbn. do 2 f_equal.
    clear Hlen. revert ls. induction ys as [|y ys IH]; intros [|l ls]; cbn; f_equal; auto.
  - apply Forall_forall. intros [r1 r2] Hin. cbn.
    apply bcast_lift2_same.
    apply elem_of_zip_l in Hin as H1. apply elem_of_zip_r in Hin as H2. cbn in *.
    apply list_elem_of_fmap in H1 as (?&->&_). apply list_elem_of_fmap in H2 as (?&->&_). done.
Qed.

Lemma reduce_mean_scalar (s : R) : reduce_mean (Scalar s) = Some (Scalar s).
Proof. unfold reduce_mean, sum_list. cbn. do 2 f_equal. lra. Qed.






End OpFacts.


(** * Running a graph cell on a symbolic state *)

Section CellFacts.

Lemma graph_of_default d c X Y lr ep gs k g ns tr r :
  graph_of (mkState d c X Y lr ep gs k g ns tr r) k = Some g.
Proof. unfold graph_of. cbn. by rewrite decide_True. Qed.

(** What the nodes of the model evaluate to when a batch [xs] and labels
    [ys] are fed and the variables hold a weight column [w] and a bias. *)
Section Evaluation.
Variables (e : env) (nf ix iW ib iy : nat).
Variables (xs : list (list R)) (w : list R) (b0 : R) (ys : list R).
Hypothesis Hx : feed_dict e !! ix = Some (Mat nf xs).
Hypothesis HW : variables e !! iW = Some (Mat 1 ((λ v, [v]) <$> w)).
Hypothesis Hb : variables e !! ib = Some (Vec [b0]).
Hypothesis Hxs : Forall (λ row, length row = nf) xs.
Hypothesis Hw : length w = nf.

Let linear : env → option (tensor R) :=
  eval_binary Op.add
    (eval_binary Op.matmul (eval_placeholder [None; Some nf] ix)
       (eval_variable iW))
    (eval_variable ib).
Let output : env → option (tensor R) :=
  eval_unary (λ t, Some (Op.sigmoid t)) linear.

Lemma eval_input : eval_placeholder [None; Some nf] ix e = Some (Mat nf xs).
Proof.
  unfold eval_placeholder. rewrite Hx. cbn.
  rewrite Nat.eqb_refl. cbn.
  by rewrite (proj2 (is_matrix_spec nf xs) Hxs).
Qed.

Lemma eval_linear :
  linear e = Some (Mat 1 ((λ row, [(Op.dot row w + b0)%R]) <$> xs)).
Proof.
  unfold linear, eval_binary, eval_variable.
  rewrite eval_input, HW, Hb. cbn [mbind option_bind].
  rewrite matmul_column by done. cbn [mbind option_bind].
  rewrite (list_fmap_compose (λ row, Op.dot row w) (λ d, [d])).
  rewrite add_bias. by rewrite <- list_fmap_compose.
Qed.

Lemma eval_output :
  output e
  = Some (Mat 1 ((λ row, [Op.sigmoid_fn (Op.dot row w + b0)]) <$> xs)).
Proof.
  unfold output, eval_unary. rewrite eval_linear. cbn.
  by rewrite <- list_fmap_compose.
Qed.

Hypothesis Hy : feed_dict e !! iy = Some (Mat 1 ((λ v, [v]) <$> ys)).
Hypothesis Hys : length ys = length xs.

Lemma eval_labels :
  eval_placeholder [None; Some 1] iy e = Some (Mat 1 ((λ v, [v]) <$> ys)).
Proof.
  unfold eval_placeholder. rewrite Hy. cbn [mbind option_bind has_shape dim_fits].
  by rewrite is_matrix_column.
Qed.

Lemma eval_cost :
  eval_unary Op.reduce_mean
    (eval_unary (λ t, Some (Op.neg t))
       (eval_unary (λ t, Some (Op.reduce_sum t))
          (eval_binary Op.mul (eval_placeholder [None; Some 1] iy)
             (eval_unary Op.log output)))) e
  = Some (Scalar (- Op.sum_list
                      (zip_with (λ y row,
                         y * ln (Op.sigmoid_fn (Op.dot row w + b0)))
                         ys xs))%R).
Proof.
  unfold eval_unary at 1 2 3. unfold eval_binary, eval_unary.
  rewrite eval_labels, eval_output. cbn [mbind option_bind].
  rewrite (list_fmap_compose (λ row, Op.sigmoid_fn (Op.dot row w + b0))
             (λ v, [v])).
  rewrite log_positive; cycle 1.
  { cbn. apply Forall_concat, Forall_fmap, Forall_fmap, Forall_forall.
    intros row _. cbn. repeat constructor. apply sigmoid_fn_bounds. }
  cbn [mbind option_bind Op.tmap].
  rewrite <- !list_fmap_compose.
  rewrite (list_fmap_compose
             (λ row, ln (Op.sigmoid_fn (Op.dot row w + b0))) (λ v, [v])).
  rewrite mul_columns by (by rewrite length_fmap).
  cbn [mbind option_bind]. unfold Op.reduce_sum, Op.neg. cbn [Op.elements Op.tmap].
  rewrite sum_list_singletons, reduce_mean_scalar.
  by rewrite zip_with_fmap_r.
Qed.

End Evaluation.

End CellFacts.

(** The normal form of a cell applied to a state; the evaluators of the
    nodes, the training loop and the sizes of the tables are left as they
    are. *)
Ltac norm_in H :=
  lazy -[Op.matmul Op.add Op.mul Op.sigmoid Op.log Op.neg Op.reduce_sum
         Op.reduce_mean Op.argmax Op.equal Op.cast_float IZR
         eval_placeholder eval_variable eval_unary eval_binary
         insert map_insert gmap_partial_alter empty gmap_empty Nat.eq_dec
         nat_countable for_each train_step seq graph_of map_to_list
         length columns as_matrix Nat.iter replicate] in H.

Ltac run_in H :=
  norm_in H; repeat (rewrite graph_of_default in H; norm_in H).

Section Loop.
Variable gd :
  Q → Tensor R → list nat → gmap nat (ndarray cell) →
  gmap nat (tensor R) → gmap nat (tensor R).

Lemma iter_cons_replicate {A} (n : nat) (a : A) (l : list A) :
  Nat.iter n (cons a) l = replicate n a ++ l.
Proof. induction n as [|n IH]; [done|]. rewrite Nat.iter_succ, IH. done. Qed.

Lemma train_loop (x y : Tensor R) (opt : train_op) (X : DataFrame cell)
    (Y : ndarray cell) (g : graph) (l : list nat) (sess : session) (st : state) :
  g_X st = Some X → g_Y st = Some Y →
  graph_of st (sess_graph sess) = Some g →
  forallb (fits_placeholder g)
    (map_to_list (<[t_id y := Y]> (<[t_id x := as_matrix X]> ∅))) = true →
  for_each l (train_step gd x y opt) sess st
  = Ok (mkSession (sess_graph sess)
          (Nat.iter (length l)
             (gd (train_rate opt) (train_cost opt) (train_vars opt)
                (<[t_id y := Y]> (<[t_id x := as_matrix X]> ∅)))
             (sess_vars sess)),
        set_trace
          (Nat.iter (length l)
             (cons (Ran (mkRun (sess_graph sess) (train_id opt)
                           (<[t_id y := Y]> (<[t_id x := as_matrix X]> ∅)))))
             (trace st)) st).
Proof.
  intros HX HY Hg Hfits.
  revert sess st HX HY Hg.
  induction l as [|a l IH]; intros sess st HX HY Hg.
  - destruct sess, st. done.
  - cbn [for_each length]. 
    unfold mbind at 1, M_bind at 1.
    assert (Hstep : train_step gd x y opt a sess st
      = Ok (mkSession (sess_graph sess)
              (gd (train_rate opt) (train_cost opt) (train_vars opt)
                (<[t_id y := Y]> (<[t_id x := as_matrix X]> ∅)) (sess_vars sess)),
            set_trace (Ran (mkRun (sess_graph sess) (train_id opt)
                     (<[t_id y := Y]> (<[t_id x := as_matrix X]> ∅))) :: trace st) st)).
    { unfold train_step, global, mbind, M_bind. rewrite HX, HY.
      unfold run_train, mbind, M_bind, get. rewrite Hg. cbn [mret M_ret].
      rewrite Hfits. done. }
    rewrite Hstep. rewrite IH; [| by destruct st | by destruct st | by destruct st].
    cbn [sess_graph sess_vars]. rewrite !Nat.iter_succ_r.
    by destruct st.
Qed.
End Loop.

Lemma fits_feed (g : graph) (ix iy : nat) (X : DataFrame cell)
    (Y : ndarray cell) :
  ix ≠ iy →
  op <$> g !! ix = Some (Placeholder [None; Some (length (columns X))]) →
  op <$> g !! iy = Some (Placeholder [None; Some 1]) →
  (shape Y).2 = 1 →
  forallb (fits_placeholder g)
    (map_to_list (<[iy := Y]> (<[ix := as_matrix X]> ∅))) = true.
Proof.
  intros Hne Hx Hy HY.
  apply Is_true_true, forallb_True.
  rewrite map_to_list_insert by (by rewrite lookup_insert_ne, lookup_empty).
  rewrite map_to_list_insert by apply lookup_empty.
  rewrite map_to_list_empty.
  repeat constructor; unfold fits_placeholder; cbn [fst snd].
  - rewrite Hy. cbn. rewrite HY. done.
  - rewrite Hx. cbn. by rewrite Nat.eqb_refl.
Qed.

Lemma Ok_pair_inv {A S} (a a' : A) (s s' : S) :
  Ok (a, s) = Ok (a', s') → a = a' ∧ s = s'.
Proof. by intros [= -> ->]. Qed.

Ltac run_loop Hshape H :=
  erewrite train_loop in H;
  [ | reflexivity | reflexivity | apply graph_of_default
    | apply fits_feed; [cbn; lia|reflexivity|reflexivity|exact Hshape] ];
  rewrite length_seq in H; run_in H.

Lemma bind_run {A B} (m : M A) (f : A → M B) (st st1 : state) (a : A)
    (r : outcome (B * state)) :
  m st = Ok (a, st1) → f a st1 = r → (m ≫= f) st = r.
Proof. intros Hm <-. unfold mbind, M_bind. by rewrite Hm. Qed.

(** The run of one cell on an explicit state, as a goal. *)
Ltac run_cell Hshape :=
  match goal with
  | |- ?c ?st = _ =>
      let H := fresh "Hcell" in
      destruct (c st) as [[? ?]|?] eqn:H;
      run_in H; try run_loop Hshape H;
      [ apply Ok_pair_inv in H as [<- <-]; reflexivity | discriminate H ]
  end.

(** One cell after the other. *)
Ltac run_cells Hshape :=
  repeat (eapply bind_run; [ run_cell Hshape | cbv beta ]);
  reflexivity.

(** A run of one graph cell, given as a hypothesis, yields the names the
    cell binds. *)
Ltac split_in H :=
  repeat (match type of H with
          | context [match ?v with _ => _ end] =>
              first [ is_var v; destruct v | destruct v eqn:? ]
          end; try discriminate H; run_in H).

Ltac invert_run Hcell Hrun :=
  repeat (apply elem_of_cons in Hcell as [->|Hcell]);
  [ .. | by apply elem_of_nil in Hcell ];
  run_in Hrun; split_in Hrun;
  apply Ok_pair_inv in Hrun as [<- <-].

(** A cell on a closed state, in the goal. *)
Ltac compute_cell :=
  lazy -[Op.matmul Op.add Op.mul Op.sigmoid Op.log Op.neg Op.reduce_sum
         Op.reduce_mean Op.argmax Op.equal Op.cast_float IZR
         eval_placeholder eval_variable eval_unary eval_binary
         insert map_insert gmap_partial_alter empty gmap_empty
         nat_countable seq map_to_list].


Section TrainState.
Variable gd :
  Q → Tensor R → list nat → gmap nat (ndarray cell) →
  gmap nat (tensor R) → gmap nat (tensor R).

(** A run of the optimizer adds an event and leaves the rest of the state,
    the graphs among it, as it is. *)
Lemma train_step_state (x y : Tensor R) (opt : train_op) (e : nat)
    (s s' : session) (st st' : state) :
  train_step gd x y opt e s st = Ok (s', st') →
  ∃ ev, st' = set_trace (ev :: trace st) st.
Proof.
  unfold train_step, global, mbind, M_bind.
  destruct (g_X st) as [X|]; [|done]. destruct (g_Y st) as [Y|]; [|done].
  unfold run_train, mbind, M_bind, get.
  destruct (graph_of st (sess_graph s)) as [g|]; [|done].
  cbn [mret M_ret].
  destruct (forallb _ _); [|done].
  unfold emit, modify. intros [= _ <-]. by eexists.
Qed.

Lemma for_each_train_graph (x y : Tensor R) (opt : train_op) (l : list nat)
    (s s' : session) (st st' : state) :
  for_each l (train_step gd x y opt) s st = Ok (s', st') →
  default_graph st' = default_graph st.
Proof.
  revert s st. induction l as [|e l IH]; intros s st.
  - by intros [= _ <-].
  - cbn [for_each]. unfold mbind at 1, M_bind at 1.
    destruct (train_step gd x y opt e s st) as [[s1 st1]|] eqn:Hstep; [|done].
    intros Hrest. apply IH in Hrest. apply train_step_state in Hstep as [ev ->].
    rewrite Hrest. by destruct st.
Qed.
End TrainState.

Ltac invert_cell Hcell Hrun :=
  repeat (apply elem_of_cons in Hcell as [->|Hcell]);
  [ .. | by apply elem_of_nil in Hcell ];
  run_in Hrun; try discriminate Hrun; split_in Hrun;
  apply Ok_pair_inv in Hrun as [<- <-].

(** * Evaluation of a graph in [float32] *)

Section Float32Facts.
Import Float32.
Variables (exp_mid log_mid : f32 → f32).
Variables (feed vars : gmap nat (tensor f32)).

Local Notation values := (Float32.values exp_mid log_mid).
Local Notation eval := (Float32.eval exp_mid log_mid).
Local Notation node_value := (Float32.node_value exp_mid log_mid).

Lemma values_snoc (g : graph) (n : node) :
  values (g ++ [n]) feed vars
  = values g feed vars
      ++ [node_value feed vars (values g feed vars)
            (length (values g feed vars)) n].
Proof. unfold Float32.values. by rewrite foldl_app. Qed.

Lemma length_values (g : graph) : length (values g feed vars) = length g.
Proof.
  induction g as [|n g IH] using rev_ind; [done|].
  by rewrite values_snoc, !length_app, IH.
Qed.

Lemma values_prefix (g h : graph) :
  values g feed vars `prefix_of` values (g ++ h) feed vars.
Proof.
  induction h as [|n h IH] using rev_ind.
  - by rewrite app_nil_r.
  - rewrite app_assoc, values_snoc. by apply prefix_app_r.
Qed.

Lemma eval_prefix (g h : graph) (i : nat) :
  i < length g → eval (g ++ h) feed vars i = eval g feed vars i.
Proof.
  intros Hi. unfold Float32.eval. destruct (values_prefix g h) as [k ->].
  by rewrite lookup_app_l by (by rewrite length_values).
Qed.

(** The value of a node is computed from the values of the nodes before
    it. *)
Lemma eval_node (g : graph) (i : nat) (n : node) :
  g !! i = Some n →
  eval g feed vars i
  = node_value feed vars (values (take i g) feed vars) i n.
Proof.
  intros Hn. pose proof (lookup_lt_Some _ _ _ Hn) as Hi.
  rewrite <- (take_drop_middle g i n Hn) at 1.
  rewrite cons_middle, (assoc_L (++) (take i g) [n]).
  rewrite eval_prefix by (rewrite length_app, length_take; cbn; lia).
  unfold Float32.eval. rewrite values_snoc, length_values.
  rewrite lookup_app_r by (rewrite length_values, length_take; lia).
  rewrite length_values, length_take, Nat.min_l, Nat.sub_diag by lia.
  done.
Qed.

Lemma eval_before (g : graph) (i j : nat) :
  i ≤ length g → j < i →
  mjoin (values (take i g) feed vars !! j) = eval g feed vars j.
Proof.
  intros Hi Hj. rewrite <- (take_drop i g) at 2.
  rewrite eval_prefix by (rewrite length_take; lia). done.
Qed.

End Float32Facts.

Section Float32Ops.
Import Float32.

Lemma column_0_singletons32 (w : list f32) :
  column 0 ((λ v, [v]) <$> w) = w.
Proof.
  unfold column. rewrite <- list_fmap_compose.
  induction w as [|v w IH]; cbn; [done|]. by f_equal.
Qed.

Lemma matmul_column32 (nf : nat) (xs : list (list f32)) (w : list f32) :
  Forall (λ r, length r = nf) xs → length w = nf →
  matmul (Mat nf xs) (Mat 1 ((λ v, [v]) <$> w))
  = Some (Mat 1 ((λ row, [dot row w]) <$> xs)).
Proof.
  intros Hxs Hw. unfold matmul.
  rewrite decide_True by (by rewrite length_fmap).
  apply is_matrix_spec in Hxs. rewrite Hxs, is_matrix_column. cbn.
  by rewrite column_0_singletons32.
Qed.

Lemma add_bias32 (m : list f32) (b0 : f32) :
  Op.broadcast add (Mat 1 ((λ d, [d]) <$> m)) (Vec [b0])
  = Some (Mat 1 ((λ d, [add d b0]) <$> m)).
Proof.
  unfold Op.broadcast. cbn [length]. rewrite bdim_same. cbn.
  erewrite mapM_ext_in.
  - rewrite (mapM_total (λ r, zip_with add r [b0])).
    cbn. do 2 f_equal. rewrite <- list_fmap_compose. done.
  - apply Forall_fmap, Forall_forall. intros d _. cbn.
    by rewrite bcast_lift2_same.
Qed.



End Float32Ops.

Section Output32.
Import Float32.
Variables (exp_mid log_mid : f32 → f32).
Variables (feed vars : gmap nat (tensor f32)) (g : graph).

Local Notation eval := (Float32.eval exp_mid log_mid).
Local Notation exp := (Float32.exp exp_mid).
Local Notation log := (Float32.log log_mid).
Local Notation sigmoid := (Float32.sigmoid exp_mid).
Variables (nf ix iW ib product linear out : nat).
Variables (xs : list (list f32)) (w : list f32) (b0 : f32).
Hypothesis Hout :
  (λ nd, (op nd, inputs nd)) <$> g !! out = Some (Sigmoid, [linear]).
Hypothesis Hlinear :
  (λ nd, (op nd, inputs nd)) <$> g !! linear = Some (Add, [product; ib]).
Hypothesis Hproduct :
  (λ nd, (op nd, inputs nd)) <$> g !! product = Some (MatMul, [ix; iW]).
Hypothesis Hix : op <$> g !! ix = Some (Placeholder [None; Some nf]).
Hypothesis HiW : op <$> g !! iW = Some VariableOp.
Hypothesis Hib : op <$> g !! ib = Some VariableOp.
Hypothesis Horder :
  ix < product ∧ iW < product ∧ product < linear ∧ ib < linear
  ∧ linear < out.
Hypothesis Hx : feed !! ix = Some (Mat nf xs).
Hypothesis HW : vars !! iW = Some (Mat 1 ((λ v, [v]) <$> w)).
Hypothesis Hb : vars !! ib = Some (Vec [b0]).
Hypothesis Hxs : Forall (λ row, length row = nf) xs.
Hypothesis Hw : length w = nf.

Lemma eval_input32 : eval g feed vars ix = Some (Mat nf xs).
Proof.
  apply fmap_Some in Hix as (n & Hn & Hop).
  rewrite (eval_node _ _ _ _ _ _ _ Hn). unfold Float32.node_value. rewrite <- Hop.
  rewrite Hx. cbn. rewrite Nat.eqb_refl. cbn.
  by rewrite (proj2 (is_matrix_spec nf xs) Hxs).
Qed.

Lemma eval_weights32 :
  eval g feed vars iW = Some (Mat 1 ((λ v, [v]) <$> w)).
Proof.
  apply fmap_Some in HiW as (n & Hn & Hop).
  rewrite (eval_node _ _ _ _ _ _ _ Hn). unfold Float32.node_value. by rewrite <- Hop.
Qed.

Lemma eval_bias32 : eval g feed vars ib = Some (Vec [b0]).
Proof.
  apply fmap_Some in Hib as (n & Hn & Hop).
  rewrite (eval_node _ _ _ _ _ _ _ Hn). unfold Float32.node_value. by rewrite <- Hop.
Qed.

Lemma eval_product32 :
  eval g feed vars product = Some (Mat 1 ((λ row, [dot row w]) <$> xs)).
Proof.
  apply fmap_Some in Hproduct as (n & Hn & [= Hop Hin]).
  pose proof (lookup_lt_Some _ _ _ Hn) as Hlt.
  rewrite (eval_node _ _ _ _ _ _ _ Hn). unfold Float32.node_value.
  rewrite <- Hop, <- Hin. cbn [lookup list_lookup mbind option_bind].
  rewrite !eval_before by lia.
  rewrite eval_input32, eval_weights32. cbn [mbind option_bind].
  by apply matmul_column32.
Qed.

Lemma eval_linear32 :
  eval g feed vars linear
  = Some (Mat 1 ((λ row, [add (dot row w) b0]) <$> xs)).
Proof.
  apply fmap_Some in Hlinear as (n & Hn & [= Hop Hin]).
  pose proof (lookup_lt_Some _ _ _ Hn) as Hlt.
  rewrite (eval_node _ _ _ _ _ _ _ Hn). unfold Float32.node_value.
  rewrite <- Hop, <- Hin. cbn [lookup list_lookup mbind option_bind].
  rewrite !eval_before by lia.
  rewrite eval_product32, eval_bias32. cbn [mbind option_bind].
  rewrite (list_fmap_compose (λ row, dot row w) (λ d, [d])).
  rewrite add_bias32. by rewrite <- list_fmap_compose.
Qed.

(** The output node: a row of the output holds [1 / (1 + e)], where [e]
    is the exponential of the negated linear part of the row. *)
Lemma eval_output32 :
  eval g feed vars out
  = Some (Mat 1 ((λ row,
            [div (of_Z 1) (add (of_Z 1) (exp (neg (add (dot row w) b0))))])
            <$> xs)).
Proof.
  apply fmap_Some in Hout as (n & Hn & [= Hop Hin]).
  pose proof (lookup_lt_Some _ _ _ Hn) as Hlt.
  rewrite (eval_node _ _ _ _ _ _ _ Hn). unfold Float32.node_value.
  rewrite <- Hop, <- Hin. cbn [lookup list_lookup mbind option_bind].
  rewrite !eval_before by lia.
  rewrite eval_linear32. cbn [mbind option_bind Op.tmap].
  by rewrite <- list_fmap_compose.
Qed.

Variables (iy logs products total negated cost : nat) (ys : list f32).
Hypothesis Hcost :
  (λ nd, (op nd, inputs nd)) <$> g !! cost = Some (Mean, [negated]).
Hypothesis Hnegated :
  (λ nd, (op nd, inputs nd)) <$> g !! negated = Some (Neg, [total]).
Hypothesis Htotal :
  (λ nd, (op nd, inputs nd)) <$> g !! total = Some (Sum, [products]).
Hypothesis Hproducts :
  (λ nd, (op nd, inputs nd)) <$> g !! products = Some (Mul, [iy; logs]).
Hypothesis Hlogs :
  (λ nd, (op nd, inputs nd)) <$> g !! logs = Some (Log, [out]).
Hypothesis Hiy : op <$> g !! iy = Some (Placeholder [None; Some 1]).
Hypothesis Horder' :
  out < logs ∧ iy < products ∧ logs < products ∧ products < total
  ∧ total < negated ∧ negated < cost.
Hypothesis Hy : feed !! iy = Some (Mat 1 ((λ v, [v]) <$> ys)).
Hypothesis Hys : length ys = length xs.



End Output32.

(** C1.  In each of the three graph cells the model output is the
    sigmoid of the linear model.  In the graph of the cell the output is
    the sigmoid node of the sum of a matrix product and the bias, the
    product that of the placeholder of the inputs, of the width of [X],
    and the weights.  Fed a batch [xs] of rows, with the weights holding a
    column [w] and the bias [b0], the output node evaluates, row by row,
    to [1 / (1 + exp (- (x . w + b0)))], the product [x . w] being the sum
    of the products of the entries: so it is in exact reals, and so it is
    in [float32], with the sum taken from left to right, whatever the
    values of the library's exponential in its finite range. *)
Theorem C1_output_is_sigmoid_of_linear_model
    tn gd (cell : M model) st m st' X xs w b0 feed vars
    exp_mid log_mid xs32 w32 b32 feed32 vars32 :
  cell ∈ graph_cells tn gd →
  cell st = Ok (m, st') →
  g_X st = Some X →
  Forall (λ row, length row = length (columns X)) xs →
  length w = length (columns X) →
  feed !! t_id (x m) = Some (Mat (length (columns X)) xs) →
  vars !! t_id (W m) = Some (Mat 1 ((λ v, [v]) <$> w)) →
  vars !! t_id (b m) = Some (Vec [b0]) →
  Forall (λ row, length row = length (columns X)) xs32 →
  length w32 = length (columns X) →
  feed32 !! t_id (x m) = Some (Mat (length (columns X)) xs32) →
  vars32 !! t_id (W m) = Some (Mat 1 ((λ v, [v]) <$> w32)) →
  vars32 !! t_id (b m) = Some (Vec [b32]) →
  (∃ product linear,
     (λ nd, (op nd, inputs nd)) <$> default_graph st' !! t_id (logits m)
     = Some (Sigmoid, [linear])
     ∧ (λ nd, (op nd, inputs nd)) <$> default_graph st' !! linear
       = Some (Add, [product; t_id (b m)])
     ∧ (λ nd, (op nd, inputs nd)) <$> default_graph st' !! product
       = Some (MatMul, [t_id (x m); t_id (W m)])
     ∧ op <$> default_graph st' !! t_id (x m)
       = Some (Placeholder [None; Some (length (columns X))])
     ∧ op <$> default_graph st' !! t_id (W m) = Some VariableOp
     ∧ op <$> default_graph st' !! t_id (b m) = Some VariableOp)
  ∧ t_eval (logits m) (mkEnv feed vars)
    = Some (Mat 1 ((λ row,
              [(1 / (1 + exp (- (foldr Rplus 0 (zip_with Rmult row w)
                                 + b0))))%R]) <$> xs))
  ∧ Float32.eval exp_mid log_mid (default_graph st') feed32 vars32
      (t_id (logits m))
    = Some (Mat 1 ((λ row,
              [SFdiv 24 128 (Float32.of_Z 1)
                 (SFadd 24 128 (Float32.of_Z 1)
                    (Float32.exp exp_mid
                       (SFopp
                          (SFadd 24 128
                             (foldl (SFadd 24 128) (S754_zero false)
                                (zip_with (SFmul 24 128) row w32))
                             b32))))]) <$> xs32)).
Proof.
  intros Hcell Hrun HX Hxs Hw Hfx HvW Hvb Hxs32 Hw32 Hfx32 HvW32 Hvb32.
  destruct st as [d c X' Y lr ep gs k g ns tr r]. cbn [g_X] in HX. subst X'.
  unfold graph_cells in Hcell.
  destruct lr as [lr|], ep as [n|].
  all: invert_cell Hcell Hrun; cbn [t_id x W b logits t_eval] in *.
  all: try match goal with
           | H : for_each _ _ _ _ = Ok _ |- _ =>
               rewrite (for_each_train_graph _ _ _ _ _ _ _ _ _ H)
           end.
  all: (split; [eexists _, _; repeat split; reflexivity|]).
  all: (split; [by eapply eval_output|]).
  all: eapply eval_output32
         with (xs := xs32) (w := w32) (b0 := b32) (nf := length (columns X));
    [ reflexivity | reflexivity | reflexivity | reflexivity | reflexivity
    | reflexivity | repeat split; lia | eassumption .. ].
Qed.

Lemma C1_witness :
  ∃ m st',
    cell_graph1 zero_init small_state = Ok (m, st')
    ∧ t_eval (logits m)
        (mkEnv {[0 := Mat 2 [[1; 2]; [3; 4]]%R]}
           (<[2 := Mat 1 [[1]; [1]]%R]> {[4 := Vec [0%R]]}))
      = Some (Mat 1 [[(1 / (1 + exp (- 3)))%R]; [(1 / (1 + exp (- 7)))%R]])
    ∧ ∀ exp_mid log_mid,
        Float32.eval exp_mid log_mid (default_graph st')
          {[0 := Mat 2 [[Float32.of_Z 1; Float32.of_Z 0];
                        [Float32.of_Z (-1); Float32.of_Z 0]]]}
          (<[2 := Mat 1 [[Float32.of_Z (-200)]; [Float32.of_Z 0]]]>
             {[4 := Vec [Float32.of_Z 0]]})
          (t_id (logits m))
        = Some (Mat 1 [[Float32.of_Z 0]; [Float32.of_Z 1]]).
Proof.
  eexists _, _. split; [compute_cell; reflexivity|].
  split.
  - edestruct (C1_output_is_sigmoid_of_linear_model zero_init keep_values
                 (cell_graph1 zero_init) small_state)
      with (X := small_X) (xs := [[1; 2]; [3; 4]]%R) (w := [1; 1]%R)
           (b0 := 0%R) (exp_mid := λ a : Float32.f32, a)
           (log_mid := λ a : Float32.f32, a)
           (xs32 := [[Float32.of_Z 1; Float32.of_Z 0]])
           (w32 := [Float32.of_Z 0; Float32.of_Z 0])
           (b32 := Float32.of_Z 0)
           (feed32 := ({[0 := Mat 2 [[Float32.of_Z 1; Float32.of_Z 0]]]}
                       : gmap nat (tensor Float32.f32)))
           (vars32 := (<[2 := Mat 1 [[Float32.of_Z 0]; [Float32.of_Z 0]]]>
                         {[4 := Vec [Float32.of_Z 0]]}
                       : gmap nat (tensor Float32.f32)))
      as (_ & Heval & _);
      [ apply list_elem_of_here | compute_cell; reflexivity | reflexivity
      | repeat constructor | reflexivity | | | | repeat constructor
      | reflexivity | | | | ].
    7:{ cbn [t_id x W b logits] in Heval.
        rewrite Heval. do 2 f_equal. cbn. repeat f_equal; lra. }
    all: reflexivity.
  - intros exp_mid log_mid.
    edestruct (C1_output_is_sigmoid_of_linear_model zero_init keep_values
                 (cell_graph1 zero_init) small_state)
      with (X := small_X) (xs := [[1; 2]; [3; 4]]%R) (w := [1; 1]%R)
           (b0 := 0%R) (exp_mid := exp_mid) (log_mid := log_mid)
           (xs32 := [[Float32.of_Z 1; Float32.of_Z 0];
                     [Float32.of_Z (-1); Float32.of_Z 0]])
           (w32 := [Float32.of_Z (-200); Float32.of_Z 0])
           (b32 := Float32.of_Z 0)
           (feed := ({[0 := Mat 2 [[1; 2]; [3; 4]]%R]}
                     : gmap nat (tensor R)))
           (vars := (<[2 := Mat 1 [[1]; [1]]%R]> {[4 := Vec [0%R]]}
                     : gmap nat (tensor R)))
      as (_ & _ & Heval32);
      [ apply list_elem_of_here | compute_cell; reflexivity | reflexivity
      | repeat constructor | reflexivity | | | | repeat constructor
      | reflexivity | | | | ].
    7:{ cbn [t_id x W b logits] in Heval32. rewrite Heval32. reflexivity. }
    all: reflexivity.
Defined.









(** C10. The sigmoid lies strictly between 0 and 1, so in each of the
    three graph cells the output node holds values strictly between 0 and
    1 for every batch, weight column and bias, the logarithm of the cost is
    defined on it, and the cost node evaluates to a real number. *)
Theorem C10_log_argument_is_positive
    tn gd (cell : M model) st m st' X xs ys w b0 feed vars :
  cell ∈ graph_cells tn gd →
  cell st = Ok (m, st') →
  g_X st = Some X →
  Forall (λ row, length row = length (columns X)) xs →
  length w = length (columns X) →
  length ys = length xs →
  feed !! t_id (x m) = Some (Mat (length (columns X)) xs) →
  feed !! t_id (y_labels m) = Some (Mat 1 ((λ v, [v]) <$> ys)) →
  vars !! t_id (W m) = Some (Mat 1 ((λ v, [v]) <$> w)) →
  vars !! t_id (b m) = Some (Vec [b0]) →
  (∀ z : R, (0 < 1 / (1 + exp (- z)) < 1)%R)
  ∧ (∃ out, t_eval (logits m) (mkEnv feed vars) = Some out
            ∧ Forall (λ p, (0 < p < 1)%R) (Op.elements out)
            ∧ Op.log out = Some (Op.tmap ln out))
  ∧ is_Some (t_eval (cost m) (mkEnv feed vars)).
Proof.
  intros Hcell Hrun HX Hxs Hw Hys Hfx Hfy HvW Hvb.
  split; [exact sigmoid_fn_bounds|].
  destruct st as [d c X' Y lr ep gs k g ns tr r]. cbn [g_X] in HX. subst X'.
  unfold graph_cells in Hcell.
  assert (Hout : ∀ rows : list (list R),
            Forall (λ p, (0 < p < 1)%R)
              (Op.elements (Mat 1 ((λ row, [Op.sigmoid_fn (Op.dot row w + b0)])
                                     <$> rows)))).
  { intros rows. cbn. apply Forall_concat, Forall_fmap, Forall_forall.
    intros row _. cbn. repeat constructor; apply sigmoid_fn_bounds. }
  invert_run Hcell Hrun; cbn [t_id x W b y_labels cost logits t_eval] in *.
  all: split; [|by erewrite eval_cost].
  all: eexists; split; [by eapply eval_output|].
  all: split; [apply Hout|].
  all: apply log_positive; eapply Forall_impl; [apply Hout|].
  all: cbn; intros; lra.
Qed.

Lemma C10_witness :
  ∃ m st',
    cell_graph1 zero_init small_state = Ok (m, st') ∧
    is_Some (t_eval (cost m)
      (mkEnv (<[0 := Mat 2 [[1; 2]; [3; 4]]%R]> {[8 := Mat 1 [[1]; [0]]%R]})
             (<[2 := Mat 1 [[1]; [1]]%R]> {[4 := Vec [0%R]]}))).
Proof.
  eexists _, _. split; [compute_cell; reflexivity|].
  eapply (C10_log_argument_is_positive zero_init keep_values
            (cell_graph1 zero_init) small_state _ _ small_X
            [[1; 2]; [3; 4]]%R [1; 0]%R [1; 1]%R 0%R);
    [ apply list_elem_of_here | compute_cell; reflexivity | reflexivity
    | repeat constructor | reflexivity | reflexivity | reflexivity
    | reflexivity | reflexivity | reflexivity ].
Defined.

(** * The cells after the preprocessing cell, run in order *)

(** The cells that follow the preprocessing cell never raise once [X] and
    [Y] are bound and [Y] has one column; the run is evaluated cell by
    cell. *)
Ltac open_state st HX HY :=
  destruct st as [d c X' Y' lr ep gs k g ns tr r];
  cbn [g_X g_Y] in HX, HY; subst X' Y'.

Ltac run_later Hshape := unfold later_cells; run_cells Hshape.

Lemma graph_of_older d c X Y lr ep gs k g ns tr r j :
  j ≠ k →
  graph_of (mkState d c X Y lr ep gs k g ns tr r) j = gs !! j.
Proof. intros H. unfold graph_of. cbn. by rewrite decide_False. Qed.

Lemma runs_of_replicate_app (n : nat) (r : run) (tr : list event) :
  runs_of (replicate n (Ran r) ++ tr) = replicate n r ++ runs_of tr.
Proof. induction n as [|n IH]; [done|]. cbn. by rewrite <- IH. Qed.

Lemma writes_of_replicate_app (n : nat) (r : run) (tr : list event) :
  writes_of (replicate n (Ran r) ++ tr) = writes_of tr.
Proof. induction n as [|n IH]; [done|]. cbn. by rewrite <- IH. Qed.

(** Row [i] of the rows of a frame holds cell [i] of each column. *)
Lemma rows_of_lookup {A} `{Inhabited A} (n i : nat) (cols : list (list A)) :
  i < n → rows_of n cols !! i = Some ((λ c, c !!! i) <$> cols).
Proof.
  revert i cols. induction n as [|n IH]; intros i cols Hi; [lia|].
  destruct i as [|i]; [done|]. cbn [rows_of lookup list_lookup].
  rewrite IH by lia. f_equal. rewrite <- list_fmap_compose.
  apply list_fmap_ext. intros _ c _. cbn. by destruct c.
Qed.

Lemma as_matrix_rows (X : DataFrame cell) (i : nat) :
  i < length (index X) →
  data (as_matrix X) !! i = Some ((λ c, c.2 !!! i) <$> columns X).
Proof.
  intros Hi. unfold as_matrix, rows. cbn [data].
  rewrite rows_of_lookup by done. by rewrite <- list_fmap_compose.
Qed.

Section Later.
Variable tn : nat → nat → nat → Q → tensor R.
Variable gd :
  Q → Tensor R → list nat → gmap nat (ndarray cell) →
  gmap nat (tensor R) → gmap nat (tensor R).

(** C2, as the code has it.  The cells, run on [X] and [Y] as the first
    cell leaves them ([Y] of one column and as many rows as [X]), build
    three graphs, not four.  Each of the three has the chain placeholder,
    matmul, add bias, sigmoid, cost, gradient-descent step; the first two
    also have the accuracy node on top of the model output, the third has
    no node of the accuracy computation at all. *)
Theorem C2_three_graphs_two_with_accuracy st X Y :
  g_X st = Some X → g_Y st = Some Y → (shape Y).2 = 1 →
  (shape Y).1 = length (index X) →
  ∃ m1 m2 m3 st' g1 g2 g3,
    later_cells tn gd st = Ok ([m1; m2; m3], st')
    ∧ default_id st' = 3 + default_id st
    ∧ graph_of st' (sess_graph (sess m1)) = Some g1
    ∧ graph_of st' (sess_graph (sess m2)) = Some g2
    ∧ graph_of st' (sess_graph (sess m3)) = Some g3
    ∧ builds_model g1 = true ∧ builds_model g2 = true
    ∧ builds_model g3 = true
    ∧ builds_accuracy g1 = true ∧ builds_accuracy g2 = true
    ∧ builds_accuracy g3 = false
    ∧ has_kind g3 KArgMax = false ∧ has_kind g3 KEqual = false
    ∧ has_kind g3 KCast = false
    ∧ accuracy m3 = None.
Proof.
  intros HX HY Hshape Hrows.
  open_state st HX HY.
  eexists _, _, _, _, _, _, _. split; [run_later Hshape|].
  split; [reflexivity|].
  split.
  { cbn [sess sess_graph]. rewrite graph_of_older by lia.
    rewrite lookup_insert_ne by lia. apply lookup_insert_eq. }
  split.
  { cbn [sess sess_graph]. rewrite graph_of_older by lia.
    apply lookup_insert_eq. }
  split; [apply graph_of_default|].
  repeat split; vm_compute; reflexivity.
Qed.

(** C5.  Each of the three graphs has a gradient-descent step of rate
    0.0001 on its cost node.  With as many rows in [Y] as in [X], the run
    of the cells ends, and the session runs it has added are the three
    initializer runs, one per graph, and after them exactly 1000 runs of
    the optimizer of the third graph, each fed [Y] itself and the matrix
    of [X]: a matrix of as many rows as [X] has, row [i] of it holding
    cell [i] of every column of [X]. *)
Theorem C5_optimizer_runs_1000_times_on_all_rows st X Y :
  g_X st = Some X → g_Y st = Some Y → (shape Y).2 = 1 →
  (shape Y).1 = length (index X) →
  ∃ m1 m2 m3 st' g1 g2 g3 i1 i2 i3,
    later_cells tn gd st = Ok ([m1; m2; m3], st')
    ∧ graph_of st' (sess_graph (sess m1)) = Some g1
    ∧ graph_of st' (sess_graph (sess m2)) = Some g2
    ∧ graph_of st' (sess_graph (sess m3)) = Some g3
    ∧ optimizer_wired g1 m1 ∧ optimizer_wired g2 m2 ∧ optimizer_wired g3 m3
    ∧ g_epochs st' = Some 1000
    ∧ runs_of (trace st')
      = replicate 1000
          (mkRun (sess_graph (sess m3)) (train_id (optimizer m3))
             (<[t_id (y_labels m3) := Y]> (<[t_id (x m3) := as_matrix X]> ∅)))
        ++ [i3; i2; i1] ++ runs_of (trace st)
    ∧ Forall (λ i, run_feed i = ∅) [i1; i2; i3]
    ∧ shape (as_matrix X) = (length (index X), length (columns X))
    ∧ length (data (as_matrix X)) = length (index X)
    ∧ ∀ i, i < length (index X) →
        data (as_matrix X) !! i = Some ((λ c, c.2 !!! i) <$> columns X).
Proof.
  intros HX HY Hshape Hrows.
  open_state st HX HY.
  eexists _, _, _, _, _, _, _, _, _, _. split; [run_later Hshape|].
  split.
  { cbn [sess sess_graph]. rewrite graph_of_older by lia.
    rewrite lookup_insert_ne by lia. apply lookup_insert_eq. }
  split.
  { cbn [sess sess_graph]. rewrite graph_of_older by lia.
    apply lookup_insert_eq. }
  split; [apply graph_of_default|].
  do 3 (split; [unfold optimizer_wired; split; [reflexivity|];
                split; [reflexivity|]; eexists; split; [reflexivity|];
                split; reflexivity|]).
  split; [reflexivity|].
  split.
  { cbn [trace]. by rewrite iter_cons_replicate, runs_of_replicate_app. }
  split; [by repeat constructor|].
  split; [reflexivity|].
  split; [|intros i Hi; by apply as_matrix_rows].
  clear Hrows. unfold as_matrix, rows. cbn [data].
  generalize (columns X).*2.
  induction (length (index X)) as [|n IH]; intros cols; [done|].
  cbn [rows_of length]. by rewrite IH.
Qed.

(** C9.  The variables are written by the initializer run and by the
    optimizer step and by nothing else: with [Y] of one column and as many
    rows as [X], at the end of the first two graph cells the session holds
    the initial values of [W] and [b], and at the end of the third it
    holds what 1000 optimizer steps make of the initial values, whatever
    the step of the framework is. *)
Theorem C9_variables_written_by_init_and_optimizer_only st X Y :
  g_X st = Some X → g_Y st = Some Y → (shape Y).2 = 1 →
  (shape Y).1 = length (index X) →
  ∃ m1 m2 m3 st',
    later_cells tn gd st = Ok ([m1; m2; m3], st')
    ∧ sess_vars (sess m1)
      = <[t_id (b m1) := Vec [0%R]]>
          (<[t_id (W m1)
             := tn (rng_calls st) (length (columns X)) 1 (1 # 10)%Q]> ∅)
    ∧ sess_vars (sess m2)
      = <[t_id (b m2) := Vec [0%R]]>
          (<[t_id (W m2)
             := tn (S (rng_calls st)) (length (columns X)) 1 (1 # 10)%Q]> ∅)
    ∧ sess_vars (sess m3)
      = Nat.iter 1000
          (gd (1 # 10000)%Q (cost m3) [t_id (W m3); t_id (b m3)]
             (<[t_id (y_labels m3) := Y]> (<[t_id (x m3) := as_matrix X]> ∅)))
          (<[t_id (b m3) := Vec [0%R]]>
             (<[t_id (W m3)
                := tn (S (S (rng_calls st))) (length (columns X)) 1
                     (1 # 10)%Q]> ∅))
    ∧ Forall (λ m, train_vars (optimizer m) = [t_id (W m); t_id (b m)])
        [m1; m2; m3].
Proof.
  intros HX HY Hshape Hrows.
  open_state st HX HY.
  eexists _, _, _, _. split; [run_later Hshape|].
  repeat split; repeat constructor.
Qed.

(** C7.  With [Y] of one column and as many rows as [X], each graph
    cell opens a session on its graph, runs the initializer, which gives
    the weights and the bias their initial values, and then writes the
    graph, to "./logs/1", "./logs/3" and "./logs/4" (the last one twice);
    the training runs come after and leave in the session what 1000
    optimizer steps make of the initial values.  What is written is the
    graph of the session, with the initializer node in it, and it is what
    the cell writes when it runs alone in a process that has built nothing
    before: the graph of the cell and no node of an earlier one. *)
Theorem C7_each_graph_written_to_its_log_directory st X Y :
  g_X st = Some X → g_Y st = Some Y → (shape Y).2 = 1 →
  (shape Y).1 = length (index X) →
  let alone := fresh (set_epochs 1000 (set_learning_rate (1 # 10000) st)) in
  ∃ m1 m2 m3 st' g1 g2 g3 i1 i2 i3 r,
    later_cells tn gd st = Ok ([m1; m2; m3], st')
    ∧ trace st'
      = replicate 1000 (Ran r)
        ++ [GraphWritten "./logs/4" g3; GraphWritten "./logs/4" g3; Ran i3;
            SessionOpened (sess_graph (sess m3));
            GraphWritten "./logs/3" g2; Ran i2;
            SessionOpened (sess_graph (sess m2));
            GraphWritten "./logs/1" g1; Ran i1;
            SessionOpened (sess_graph (sess m1))]
        ++ trace st
    ∧ graph_of st' (sess_graph (sess m1)) = Some g1
    ∧ graph_of st' (sess_graph (sess m2)) = Some g2
    ∧ graph_of st' (sess_graph (sess m3)) = Some g3
    ∧ op <$> g1 !! run_fetch i1 = Some InitAll
    ∧ op <$> g2 !! run_fetch i2 = Some InitAll
    ∧ op <$> g3 !! run_fetch i3 = Some InitAll
    ∧ sess_vars (sess m1)
      = <[t_id (b m1) := Vec [0%R]]>
          (<[t_id (W m1)
             := tn (rng_calls st) (length (columns X)) 1 (1 # 10)%Q]> ∅)
    ∧ sess_vars (sess m2)
      = <[t_id (b m2) := Vec [0%R]]>
          (<[t_id (W m2)
             := tn (S (rng_calls st)) (length (columns X)) 1 (1 # 10)%Q]> ∅)
    ∧ sess_vars (sess m3)
      = Nat.iter 1000
          (gd (1 # 10000)%Q (cost m3) [t_id (W m3); t_id (b m3)]
             (<[t_id (y_labels m3) := Y]> (<[t_id (x m3) := as_matrix X]> ∅)))
          (<[t_id (b m3) := Vec [0%R]]>
             (<[t_id (W m3)
                := tn (S (S (rng_calls st))) (length (columns X)) 1
                     (1 # 10)%Q]> ∅))
    ∧ (∃ m s, cell_graph1 tn alone = Ok (m, s)
              ∧ writes_of (trace s) = [("./logs/1", g1)])
    ∧ (∃ m s, cell_graph2 tn alone = Ok (m, s)
              ∧ writes_of (trace s) = [("./logs/3", g2)])
    ∧ (∃ m s, cell_graph3 tn gd alone = Ok (m, s)
              ∧ writes_of (trace s) = [("./logs/4", g3); ("./logs/4", g3)]).
Proof.
  intros HX HY Hshape Hrows alone.
  assert (Halone : ∃ d c ns r, alone
            = mkState d c (Some X) (Some Y) (Some (1 # 10000)%Q) (Some 1000)
                ∅ 0 [] ns [] r ∧ ns = name_scope st).
  { destruct st. cbn in HX, HY. subst. by eexists _, _, _, _. }
  destruct Halone as (d0 & c0 & ns0 & r0 & Halone & Hns). clearbody alone.
  subst alone.
  open_state st HX HY. cbn [name_scope] in Hns. subst ns0.
  eexists _, _, _, _, _, _, _, _, _, _, _. split; [run_later Hshape|].
  split; [cbn [trace]; by rewrite iter_cons_replicate|].
  split.
  { cbn [sess sess_graph]. rewrite graph_of_older by lia.
    rewrite lookup_insert_ne by lia. apply lookup_insert_eq. }
  split.
  { cbn [sess sess_graph]. rewrite graph_of_older by lia.
    apply lookup_insert_eq. }
  split; [apply graph_of_default|].
  do 6 (split; [reflexivity|]).
  split; [|split].
  - eexists _, _. split; [run_cell Hshape|]. reflexivity.
  - eexists _, _. split; [run_cell Hshape|]. reflexivity.
  - eexists _, _. split; [run_cell Hshape|].
    cbn [trace]. by rewrite iter_cons_replicate, writes_of_replicate_app.
Qed.
End Later.


Lemma C2_witness :
  ∃ m1 m2 m3 st',
    later_cells zero_init keep_values small_state = Ok ([m1; m2; m3], st')
    ∧ default_id st' = 3 ∧ accuracy m3 = None.
Proof.
  destruct (C2_three_graphs_two_with_accuracy zero_init keep_values
              small_state small_X small_Y eq_refl eq_refl eq_refl
              eq_refl)
    as (m1 & m2 & m3 & st' & g1 & g2 & g3 & Hrun & Hid & H).
  exists m1, m2, m3, st'. split; [exact Hrun|]. split; [exact Hid|].
  apply H.
Defined.

Lemma third_graph_lacks_accuracy st X Y :
  g_X st = Some X → g_Y st = Some Y → (shape Y).2 = 1 →
  (shape Y).1 = length (index X) →
  ∃ m1 m2 m3 st' g3,
    later_cells zero_init keep_values st = Ok ([m1; m2; m3], st')
    ∧ graph_of st' (sess_graph (sess m3)) = Some g3
    ∧ builds_accuracy g3 = false.
Proof.
  intros HX HY Hshape Hrows.
  open_state st HX HY.
  eexists _, _, _, _, _. split; [run_later Hshape|].
  split; [apply graph_of_default|]. vm_compute. reflexivity.
Qed.

(** C2, as it was stated, fails: run on a small table the cells build
    three graphs, and the third has no accuracy node. *)
Lemma C2_counterexample :
  ∃ ms st',
    later_cells zero_init keep_values small_state = Ok (ms, st')
    ∧ length ms = 3
    ∧ (∃ m g, last ms = Some m
              ∧ graph_of st' (sess_graph (sess m)) = Some g
              ∧ builds_accuracy g = false)
    ∧ ¬ (length ms = 4
         ∧ Forall (λ m, ∃ g, graph_of st' (sess_graph (sess m)) = Some g
                            ∧ builds_model g = true
                            ∧ builds_accuracy g = true) ms).
Proof.
  destruct (third_graph_lacks_accuracy small_state small_X small_Y)
    as (m1 & m2 & m3 & st' & g3 & Hrun & Hg3 & Hacc); [reflexivity..|].
  exists [m1; m2; m3], st'.
  split; [exact Hrun|]. split; [reflexivity|].
  split; [exists m3, g3; split; [reflexivity|]; split; assumption|].
  intros [Hfour _]. discriminate Hfour.
Qed.

Lemma C5_witness :
  ∃ ms st',
    later_cells zero_init keep_values small_state = Ok (ms, st')
    ∧ length (runs_of (trace st')) = 1003.
Proof.
  destruct (C5_optimizer_runs_1000_times_on_all_rows zero_init keep_values
              small_state small_X small_Y eq_refl eq_refl eq_refl
              eq_refl)
    as (m1 & m2 & m3 & st' & g1 & g2 & g3 & i1 & i2 & i3 & Hrun & _ & _ & _
        & _ & _ & _ & _ & Hruns & _).
  exists [m1; m2; m3], st'. split; [exact Hrun|].
  rewrite Hruns, length_app, length_replicate. reflexivity.
Defined.

Lemma C7_witness :
  ∃ ms st',
    later_cells zero_init keep_values small_state = Ok (ms, st')
    ∧ (writes_of (trace st')).*1
      = ["./logs/4"; "./logs/4"; "./logs/3"; "./logs/1"]%string.
Proof.
  destruct (C7_each_graph_written_to_its_log_directory zero_init keep_values
              small_state small_X small_Y eq_refl eq_refl eq_refl
              eq_refl)
    as (m1 & m2 & m3 & st' & g1 & g2 & g3 & i1 & i2 & i3 & r & Hrun & Htr & _).
  exists [m1; m2; m3], st'. split; [exact Hrun|].
  rewrite Htr, writes_of_replicate_app. reflexivity.
Defined.

Lemma C9_witness :
  ∃ m1 m2 m3 st',
    later_cells zero_init keep_values small_state = Ok ([m1; m2; m3], st')
    ∧ sess_vars (sess m1)
      = <[t_id (b m1) := Vec [0%R]]>
          (<[t_id (W m1) := Mat 1 [[0]; [0]]%R]> ∅).
Proof.
  destruct (C9_variables_written_by_init_and_optimizer_only zero_init
              keep_values small_state small_X small_Y eq_refl eq_refl eq_refl
              eq_refl)
    as (m1 & m2 & m3 & st' & Hrun & H1 & _).
  exists m1, m2, m3, st'. split; [exact Hrun|]. exact H1.
Defined.

(** * Properties of the preprocessing cell *)

Lemma bind_Ok {A B} (m : outcome A) (f : A → outcome B) (b : B) :
  m ≫= f = Ok b → ∃ a, m = Ok a ∧ f a = Ok b.
Proof. destruct m as [a|e]; [by exists a|done]. Qed.

Lemma mapM_Ok {A B} (f : A → outcome B) (l : list A) (k : list B) :
  mapM f l = Ok k → Forall2 (λ x y, f x = Ok y) l k.
Proof.
  revert k. induction l as [|x l IH]; intros k H.
  - injection H as <-. constructor.
  - cbn in H. apply bind_Ok in H as (y & Hy & H).
    apply bind_Ok in H as (k' & Hk' & H). injection H as <-.
    constructor; [done|by apply IH].
Qed.

Lemma mapM_Ok_2 {A B} (f : A → outcome B) (l : list A) (k : list B) :
  Forall2 (λ x y, f x = Ok y) l k → mapM f l = Ok k.
Proof.
  induction 1 as [|x y l k Hxy _ IH]; [done|].
  cbn. rewrite Hxy. cbn. by rewrite IH.
Qed.

(** ** Selecting rows *)

Lemma compress_mask {A} (P : A → Prop) `{∀ a, Decision (P a)} (l : list A) :
  Forall P (compress ((λ a, bool_decide (P a)) <$> l) l).
Proof.
  induction l as [|a l IH]; [constructor|].
  cbn. case_bool_decide; [by constructor|done].
Qed.

Lemma Forall_compress {A} (P : A → Prop) (mask : list bool) (l : list A) :
  Forall P l → Forall P (compress mask l).
Proof.
  intros H. revert mask. induction H as [|a l Ha _ IH]; intros [|b mask];
    cbn; try constructor.
  destruct b; [by constructor|done].
Qed.

Lemma compress_length_same {A B} (mask : list bool) (l : list A) (k : list B) :
  length l = length k → length (compress mask l) = length (compress mask k).
Proof.
  revert l k. induction mask as [|b mask IH]; intros [|a l] [|c k] Hlen;
    cbn in *; try done.
  destruct b; cbn; auto.
Qed.

Lemma column_of_Ok {A} (e : exn) (name : string) (df : DataFrame A)
    (col : list A) :
  column_of e name df = Ok col →
  filter (λ c, c.1 = Name name) (columns df) = [(Name name, col)].
Proof.
  unfold column_of. intros H.
  destruct (filter _ (columns df)) as [|[l c] [|??]] eqn:Hf; try done.
  cbn in H. injection H as ->.
  assert (Hin : (l, col) ∈ filter (λ c, c.1 = Name name) (columns df))
    by (rewrite Hf; left).
  apply list_elem_of_filter in Hin as [Hl _]. cbn in Hl. by subst.
Qed.

Lemma column_of_elem {A} (e : exn) (name : string) (df : DataFrame A)
    (col : list A) :
  column_of e name df = Ok col → (Name name, col) ∈ columns df.
Proof.
  intros H. apply column_of_Ok in H.
  assert (Hin : (Name name, col) ∈ filter (λ c, c.1 = Name name) (columns df))
    by (rewrite H; left).
  by apply list_elem_of_filter in Hin as [_ ?].
Qed.

Lemma column_of_unique {A} (e : exn) (name : string) (df : DataFrame A)
    (col col' : list A) :
  column_of e name df = Ok col → (Name name, col') ∈ columns df → col' = col.
Proof.
  intros H Hin. apply column_of_Ok in H.
  assert (Hf : (Name name, col') ∈ filter (λ c, c.1 = Name name) (columns df))
    by (by apply list_elem_of_filter).
  rewrite H in Hf. apply list_elem_of_singleton in Hf. by injection Hf.
Qed.

Lemma filter_label_fmap {A} (f : list A → list A) (l : label)
    (cols : list (label * list A)) :
  filter (λ c, c.1 = l) ((λ c, (c.1, f c.2)) <$> cols)
  = (λ c, (c.1, f c.2)) <$> filter (λ c, c.1 = l) cols.
Proof.
  induction cols as [|c cols IH]; [done|].
  rewrite fmap_cons, !filter_cons. cbn [fst].
  destruct (decide (c.1 = l)); [rewrite fmap_cons|]; by rewrite IH.
Qed.

Lemma column_of_select_rows {A} (e : exn) (name : string) (mask : list bool)
    (df : DataFrame A) (col : list A) :
  column_of e name df = Ok col →
  column_of e name (select_rows mask df) = Ok (compress mask col).
Proof.
  intros H. apply column_of_Ok in H. unfold column_of, select_rows.
  cbn [columns].
  by rewrite filter_label_fmap, H.
Qed.

(** ** The cleaning steps *)

Section Cleaning.
Variable to_numeric : string → option Z.

Lemma labels_select_rows {A} (mask : list bool) (df : DataFrame A) :
  labels (select_rows mask df) = labels df.
Proof.
  unfold labels, select_rows. cbn [columns].
  rewrite <- list_fmap_compose. done.
Qed.

Lemma apply_to_numeric_Ok (df : DataFrame (option string)) (d : DataFrame cell) :
  apply_to_numeric to_numeric df = Ok d →
  index d = index df
  ∧ Forall2 (λ c c', c'.1 = c.1
                     ∧ Forall2 (λ raw v, to_numeric_cell to_numeric raw = Ok v)
                         c.2 c'.2)
      (columns df) (columns d).
Proof.
  unfold apply_to_numeric. intros H.
  apply bind_Ok in H as (cols & Hcols & H). injection H as <-.
  split; [done|]. cbn [columns].
  apply mapM_Ok in Hcols. eapply Forall2_impl; [exact Hcols|].
  intros c c' Hc. cbn in Hc. apply bind_Ok in Hc as (col & Hcol & Hc).
  injection Hc as <-. split; [done|]. by apply mapM_Ok.
Qed.

Lemma clean_Ok (csv : DataFrame (option string)) (d : DataFrame cell) :
  clean to_numeric csv = Ok d →
  ∃ header new_header df1 df2 education,
    iloc0 csv = Ok header
    ∧ set_last (Name "Y") (as_label <$> header) = Ok new_header
    ∧ set_columns new_header (drop_first_row csv) = Ok df1
    ∧ apply_to_numeric to_numeric df1 = Ok df2
    ∧ column_of AttributeError "EDUCATION" df2 = Ok education
    ∧ d = select_rows ((λ c, bool_decide (c ≠ Some 0%Z)) <$> education) df2.
Proof.
  unfold clean. intros H.
  apply bind_Ok in H as (header & Hh & H).
  apply bind_Ok in H as (new_header & Hn & H).
  apply bind_Ok in H as (df1 & H1 & H).
  apply bind_Ok in H as (df2 & H2 & H).
  apply bind_Ok in H as (education & He & H).
  injection H as <-. by exists header, new_header, df1, df2, education.
Qed.

Lemma set_last_Forall {A} (P : A → Prop) (x : A) (l k : list A) :
  set_last x l = Ok k → Forall P l → P x → Forall P k.
Proof.
  unfold set_last. destruct l as [|a l]; [done|].
  intros [= <-] Hl Hx. by apply Forall_insert.
Qed.

Lemma set_last_last {A} (x : A) (l k : list A) :
  set_last x l = Ok k → last k = Some x ∧ length k = length l.
Proof.
  unfold set_last. destruct l as [|a l]; [done|].
  intros [= <-]. rewrite length_insert. split; [|done].
  rewrite last_lookup, length_insert.
  apply list_lookup_insert_eq. cbn. lia.
Qed.

Lemma set_columns_Ok {A} (new_labels : list label) (df d : DataFrame A) :
  set_columns new_labels df = Ok d →
  labels d = new_labels ∧ (columns d).*2 = (columns df).*2
  ∧ index d = index df.
Proof.
  unfold set_columns. case_decide as Hlen; [|done]. intros [= <-].
  unfold labels. cbn [columns index].
  rewrite fst_zip, snd_zip; [done| |]; rewrite length_fmap; lia.
Qed.

Lemma labels_apply_to_numeric (df : DataFrame (option string))
    (d : DataFrame cell) :
  apply_to_numeric to_numeric df = Ok d → labels d = labels df.
Proof.
  intros H. apply apply_to_numeric_Ok in H as [_ H]. unfold labels.
  induction H as [|c c' cs cs' [Hc _] _ IH]; [done|].
  cbn. by rewrite Hc, IH.
Qed.

(** After the cleaning steps the labels are those of the first row, with
    [Y] for the last: none is the label of an indicator column. *)
Lemma clean_labels (csv : DataFrame (option string)) (d : DataFrame cell) :
  clean to_numeric csv = Ok d →
  Forall not_dummy (labels d) ∧ last (labels d) = Some (Name "Y")
  ∧ length (columns d) = length (columns csv).
Proof.
  intros H.
  apply clean_Ok in H
    as (header & new_header & df1 & df2 & education & Hh & Hn & H1 & H2 & He
        & ->).
  rewrite labels_select_rows, (labels_apply_to_numeric _ _ H2).
  apply set_columns_Ok in H1 as (Hl & Hc & _). rewrite Hl.
  split; [|split].
  - eapply set_last_Forall; [exact Hn| |done].
    apply Forall_fmap, Forall_forall. by intros [s|] _.
  - by apply set_last_last in Hn as [? _].
  - unfold select_rows. cbn [columns]. rewrite length_fmap.
    apply apply_to_numeric_Ok in H2 as [_ H2].
    rewrite <- (Forall2_length _ _ _ H2).
    rewrite <- (length_fmap snd (columns df1)), Hc, length_fmap.
    unfold drop_first_row. cbn [columns]. by rewrite length_fmap.
Qed.

(** No retained row has the education value 0, and every cell is what
    [pd.to_numeric] made of a cell of the table. *)
Lemma clean_cells (csv : DataFrame (option string)) (d : DataFrame cell) :
  clean to_numeric csv = Ok d →
  (∃ education, column_of AttributeError "EDUCATION" d = Ok education
                ∧ Forall (λ c, c ≠ Some 0%Z) education)
  ∧ Forall (λ col, Forall (λ c, ∃ raw, to_numeric_cell to_numeric raw = Ok c)
                     col.2) (columns d).
Proof.
  intros H.
  apply clean_Ok in H
    as (header & new_header & df1 & df2 & education & Hh & Hn & H1 & H2 & He
        & ->).
  split.
  - eexists. split; [by apply column_of_select_rows|].
    apply (compress_mask (λ c : cell, c ≠ Some 0%Z)).
  - unfold select_rows. cbn [columns].
    apply Forall_fmap, Forall_forall. intros c' Hc'. cbn.
    apply Forall_compress.
    apply apply_to_numeric_Ok in H2 as [_ H2].
    apply list_elem_of_lookup in Hc' as [i Hi].
    destruct (Forall2_lookup_r _ _ _ _ _ H2 Hi) as (c & _ & _ & Hcells).
    clear -Hcells. induction Hcells as [|raw v ? ? Hv _ IH]; constructor; eauto.
Qed.

(** ** The target vector *)

Lemma reshape_column_Ok {A} (r : nat) (a : list A) (Y : ndarray A) :
  reshape_column r a = Ok Y →
  shape Y = (r, 1) ∧ length (data Y) = r ∧ Forall (λ row, length row = 1) (data Y)
  ∧ concat (data Y) = a.
Proof.
  unfold reshape_column. case_decide as Hlen; [|done]. intros [= <-].
  cbn [shape data]. rewrite length_fmap. repeat split; [done| |].
  - apply Forall_fmap, Forall_forall. done.
  - clear. induction a as [|x a IH]; [done|]. cbn. by rewrite IH.
Qed.

Lemma preprocess_Ok (csv : DataFrame (option string))
    (d c X : DataFrame cell) (Y : ndarray cell) :
  preprocess to_numeric csv = Ok (d, c, X, Y) →
  ∃ values,
    clean to_numeric csv = Ok d ∧ one_hot d = Ok c ∧ drop "Y" c = Ok X
    ∧ values_of "Y" c = Ok values ∧ reshape_column 29986 values = Ok Y.
Proof.
  unfold preprocess. intros H.
  apply bind_Ok in H as (d' & Hd & H).
  apply bind_Ok in H as (c' & Hc & H).
  apply bind_Ok in H as (X' & HX & H).
  apply bind_Ok in H as (v & Hv & H).
  apply bind_Ok in H as (Y' & HY & H).
  injection H as <- <- <- <-. by exists v.
Qed.

End Cleaning.

(** ** One-hot encoding *)

Lemma insert_level_elem (u v : Z) (l : list Z) :
  u ∈ insert_level v l ↔ u = v ∨ u ∈ l.
Proof.
  induction l as [|w l IH]; cbn.
  - rewrite list_elem_of_singleton. set_solver.
  - repeat case_decide; subst; rewrite ?elem_of_cons, ?IH; naive_solver.
Qed.

Lemma insert_level_sorted (v : Z) (l : list Z) :
  StronglySorted Z.lt l → StronglySorted Z.lt (insert_level v l).
Proof.
  induction 1 as [|w l Hl IH Hw]; cbn.
  - repeat constructor.
  - repeat case_decide; subst.
    + constructor; [by constructor|].
      constructor; [done|]. eapply Forall_impl; [exact Hw|]. cbn. lia.
    + by constructor.
    + constructor; [done|].
      apply Forall_forall. intros u Hu. apply insert_level_elem in Hu as [->|Hu].
      * lia.
      * by eapply Forall_forall in Hw.
Qed.

Lemma levels_sorted (col : list cell) : StronglySorted Z.lt (levels col).
Proof.
  induction col as [|[v|] col IH]; cbn; [constructor| |done].
  by apply insert_level_sorted.
Qed.

Lemma levels_elem (v : Z) (col : list cell) : v ∈ levels col ↔ Some v ∈ col.
Proof.
  induction col as [|[w|] col IH]; cbn.
  - by rewrite !elem_of_nil.
  - rewrite insert_level_elem, elem_of_cons, IH. naive_solver.
  - rewrite elem_of_cons, IH. naive_solver.
Qed.

Lemma levels_NoDup (col : list cell) : NoDup (levels col).
Proof.
  pose proof (levels_sorted col) as H.
  induction H as [|w l _ IH Hw]; constructor; [|done].
  intros Hin. eapply Forall_forall in Hw; [|exact Hin]. lia.
Qed.

Lemma get_dummies_Ok (df clf : DataFrame cell) (names prefixes : list string) :
  get_dummies df names prefixes = Ok clf →
  ∃ encoded : list (string * list cell),
    length prefixes = length names
    ∧ Forall2 (λ np pc, pc.1 = np.2 ∧ column_of KeyError np.1 df = Ok pc.2)
        (zip names prefixes) encoded
    ∧ index clf = index df
    ∧ columns clf
      = filter (λ c, c.1 ∉ Name <$> names) (columns df)
        ++ (encoded ≫= λ pc, dummy_columns pc.1 pc.2).
Proof.
  unfold get_dummies. case_decide as Hlen; [|done]. intros H.
  apply bind_Ok in H as (encoded & Henc & H). injection H as <-.
  exists encoded. split; [done|]. split; [|done].
  apply mapM_Ok in Henc. eapply Forall2_impl; [exact Henc|].
  intros np pc Hpc. cbn in Hpc. apply bind_Ok in Hpc as (col & Hcol & Hpc).
  by injection Hpc as <-.
Qed.

Lemma dummy_columns_elem (p : string) (col : list cell) (l : label)
    (c : list cell) :
  (l, c) ∈ dummy_columns p col ↔
  ∃ v, v ∈ levels col ∧ l = Dummy p v ∧ c = indicator v <$> col.
Proof.
  unfold dummy_columns. rewrite list_elem_of_fmap. naive_solver.
Qed.

Lemma dummy_of_block (p q : string) (col : list cell) :
  omap (dummy_of p) (dummy_columns q col).*1
  = if decide (q = p) then levels col else [].
Proof.
  unfold dummy_columns. rewrite <- list_fmap_compose.
  induction (levels col) as [|v l IH]; [by case_decide|].
  cbn. case_decide; cbn; by rewrite IH.
Qed.

Lemma dummy_of_not_dummy (p : string) (ls : list label) :
  Forall not_dummy ls → omap (dummy_of p) ls = [].
Proof. induction 1 as [|[] ls Hl _ IH]; cbn; done. Qed.

Lemma dummy_of_blocks (p : string) (col : list cell)
    (encoded : list (string * list cell)) :
  NoDup encoded.*1 → (p, col) ∈ encoded →
  omap (dummy_of p) (encoded ≫= λ pc, dummy_columns pc.1 pc.2).*1
  = levels col.
Proof.
  induction encoded as [|[q c] encoded IH]; intros Hnd Hin.
  - by apply elem_of_nil in Hin.
  - rewrite fmap_cons in Hnd. apply NoDup_cons in Hnd as [Hq Hnd].
    cbn [fst] in Hq.
    rewrite bind_cons, fmap_app, omap_app. cbn [fst snd].
    rewrite dummy_of_block.
    apply elem_of_cons in Hin as [[= <- <-]|Hin].
    + rewrite decide_True by done.
      replace (omap _ _) with (@nil Z); [by rewrite app_nil_r|].
      clear -Hq. induction encoded as [|[q c] encoded IH]; [done|].
      rewrite fmap_cons in Hq. cbn [fst] in Hq.
      apply not_elem_of_cons in Hq as [Hne Hq].
      rewrite bind_cons, fmap_app, omap_app. cbn [fst snd].
      rewrite dummy_of_block, decide_False by done. by apply IH.
    + rewrite decide_False; [by apply IH|].
      intros ->. apply Hq. apply list_elem_of_fmap. by exists (p, col).
Qed.

(** The indicator cells of one row: one per level, 1 at the level of the
    row and 0 elsewhere; for a NaN all 0. *)
Lemma indicator_lookup (v : Z) (col : list cell) (i : nat) (c : cell) :
  col !! i = Some c → (indicator v <$> col) !! i = Some (indicator v c).
Proof. intros H. by rewrite list_lookup_fmap, H. Qed.

Lemma dummy_cell_block (p q : string) (col : list cell) (i : nat) (c : cell) :
  col !! i = Some c →
  omap (dummy_cell p i) (dummy_columns q col)
  = if decide (q = p) then (λ u, indicator u c) <$> levels col else [].
Proof.
  intros Hi. unfold dummy_columns.
  induction (levels col) as [|v l IH]; [by case_decide|].
  rewrite !fmap_cons. cbn [omap list_omap]. unfold dummy_cell at 1.
  cbn [fst snd dummy_of]. rewrite (indicator_lookup _ _ _ _ Hi), IH.
  by case_decide.
Qed.

Lemma dummy_cell_not_dummy (p : string) (i : nat)
    (cols : list (label * list cell)) :
  Forall (λ c, not_dummy c.1) cols → omap (dummy_cell p i) cols = [].
Proof.
  induction 1 as [|[[] ?] cols Hl _ IH]; cbn; done.
Qed.

Lemma dummy_cell_blocks (p : string) (col : list cell) (i : nat) (c : cell)
    (encoded : list (string * list cell)) :
  NoDup encoded.*1 → (p, col) ∈ encoded → col !! i = Some c →
  omap (dummy_cell p i) (encoded ≫= λ pc, dummy_columns pc.1 pc.2)
  = (λ u, indicator u c) <$> levels col.
Proof.
  intros Hnd Hin Hi.
  induction encoded as [|[q k] encoded IH].
  - by apply elem_of_nil in Hin.
  - rewrite fmap_cons in Hnd. apply NoDup_cons in Hnd as [Hq Hnd].
    cbn [fst] in Hq.
    rewrite bind_cons, omap_app. cbn [fst snd].
    apply elem_of_cons in Hin as [[= <- <-]|Hin].
    + rewrite (dummy_cell_block _ _ _ _ _ Hi), decide_True by done.
      replace (omap _ _) with (@nil cell); [by rewrite app_nil_r|].
      clear -Hq. induction encoded as [|[q k] encoded IH]; [done|].
      rewrite fmap_cons in Hq. cbn [fst] in Hq.
      apply not_elem_of_cons in Hq as [Hne Hq].
      rewrite bind_cons, omap_app. cbn [fst snd].
      rewrite <- IH by done. rewrite app_nil_r.
      unfold dummy_columns. induction (levels k) as [|v l IHl]; [done|].
      rewrite fmap_cons. cbn [omap list_omap]. unfold dummy_cell at 1.
      cbn [fst dummy_of]. by rewrite decide_False.
    + rewrite IH by done.
      replace (omap _ (dummy_columns q k)) with (@nil cell); [done|].
      assert (q ≠ p) as Hne.
      { intros ->. apply Hq. apply list_elem_of_fmap. by exists (p, col). }
      unfold dummy_columns. induction (levels k) as [|v l IHl]; [done|].
      rewrite fmap_cons. cbn [omap list_omap]. unfold dummy_cell at 1.
      cbn [fst dummy_of]. by rewrite decide_False.
Qed.

Lemma indicator_some (u v : Z) :
  indicator u (Some v) = Some (if decide (u = v) then 1 else 0)%Z.
Proof. unfold indicator. repeat case_decide; naive_solver. Qed.

Lemma one_indicator (v : Z) (l : list Z) :
  NoDup l → v ∈ l →
  length (filter (λ x, x = Some 1%Z) ((λ u, indicator u (Some v)) <$> l)) = 1.
Proof.
  induction 1 as [|w l Hw Hnd IH]; intros Hin.
  - by apply elem_of_nil in Hin.
  - rewrite fmap_cons, filter_cons, indicator_some.
    apply elem_of_cons in Hin as [->|Hin].
    + rewrite (decide_True (P := w = w)) by done.
      rewrite decide_True by done. cbn [length]. f_equal.
      clear IH Hnd. induction l as [|u l IH]; [done|].
      apply not_elem_of_cons in Hw as [Hne Hw].
      rewrite fmap_cons, filter_cons, indicator_some.
      rewrite (decide_False (P := u = w)) by done.
      rewrite decide_False by done. by apply IH.
    + rewrite (decide_False (P := w = v)) by (intros ->; done).
      rewrite decide_False by done. by apply IH.
Qed.

Lemma categorical_prefixes_NoDup : NoDup prefixes ∧ NoDup categorical.
Proof. split; apply (bool_decide_unpack _); by vm_compute. Qed.

(** C6, as the code has it.  Each of the nine listed columns is taken
    out of the frame and replaced by one indicator column per distinct
    value, in increasing order of the values; the other columns and the
    rows stay.  In a row whose value in the original column is not missing
    exactly one of these indicator columns holds 1 and the others hold 0;
    in a row whose value is missing (NaN) all of them hold 0. *)
Theorem C6_one_hot_encoding
    (to_numeric : string → option Z) (csv : DataFrame (option string))
    (d clf : DataFrame cell) (name prefix : string) :
  clean to_numeric csv = Ok d →
  one_hot d = Ok clf →
  (name, prefix) ∈ zip categorical prefixes →
  ∃ col,
    column_of KeyError name d = Ok col
    ∧ (Name name ∉ labels clf)
    ∧ omap (dummy_of prefix) (labels clf) = levels col
    ∧ NoDup (levels col)
    ∧ (∀ v, v ∈ levels col ↔ Some v ∈ col)
    ∧ index clf = index d
    ∧ (∀ c, c ∈ columns d → c.1 ∉ Name <$> categorical → c ∈ columns clf)
    ∧ ∀ i c, col !! i = Some c →
        dummy_cells prefix clf i = (λ u, indicator u c) <$> levels col
        ∧ match c with
          | Some v =>
              (length (filter (λ x, x = Some 1%Z) (dummy_cells prefix clf i))
               = 1)
              ∧ Forall (λ x, x = Some 1%Z ∨ x = Some 0%Z)
                  (dummy_cells prefix clf i)
          | None => Forall (λ x, x = Some 0%Z) (dummy_cells prefix clf i)
          end.
Proof.
  intros Hclean Hhot Hnp.
  apply clean_labels in Hclean as (Hnd & _ & _).
  apply get_dummies_Ok in Hhot as (encoded & Hlen & Henc & Hidx & Hcols).
  destruct categorical_prefixes_NoDup as [Hpre Hcat].
  assert (Hfst : encoded.*1 = prefixes).
  { rewrite <- (snd_zip categorical prefixes) by (rewrite Hlen; done).
    clear -Henc. induction Henc as [|np pc ? ? [Hp _] _ IH]; [done|].
    cbn. by rewrite Hp, IH. }
  apply list_elem_of_lookup in Hnp as [j Hj].
  destruct (Forall2_lookup_l _ _ _ _ _ Henc Hj) as (pc & Hpc & Hp & Hcol).
  cbn [fst snd] in Hp, Hcol. destruct pc as [p col]. cbn [fst snd] in *.
  subst p.
  assert (Hin : (prefix, col) ∈ encoded) by (by eapply list_elem_of_lookup_2).
  assert (Hname : name ∈ categorical).
  { eapply elem_of_zip_l, list_elem_of_lookup. eauto. }
  assert (Hkept : Forall (λ c, not_dummy c.1)
            (filter (λ c, c.1 ∉ Name <$> categorical) (columns d))).
  { apply Forall_forall. intros c Hc. apply list_elem_of_filter in Hc as [_ Hc].
    eapply Forall_forall in Hnd; [exact Hnd|].
    unfold labels. apply list_elem_of_fmap. by exists c. }
  exists col. split; [done|]. split; [|split; [|split; [|split; [|split; [|split]]]]].
  - unfold labels. rewrite Hcols, fmap_app, elem_of_app. intros [Hk|Hb].
    + apply list_elem_of_fmap in Hk as (c & Hc1 & Hc).
      apply list_elem_of_filter in Hc as [Hc _]. apply Hc.
      rewrite <- Hc1. apply list_elem_of_fmap. by exists name.
    + apply list_elem_of_fmap in Hb as ([l k] & Hc1 & Hc).
      apply list_elem_of_bind in Hc as (pc & Hc & _).
      apply dummy_columns_elem in Hc as (v & _ & Hl & _).
      cbn in *. congruence.
  - unfold labels. rewrite Hcols, fmap_app, omap_app.
    rewrite dummy_of_not_dummy by (by apply Forall_fmap).
    apply dummy_of_blocks; [by rewrite Hfst|done].
  - apply levels_NoDup.
  - intros v. apply levels_elem.
  - done.
  - intros c Hc Hl. rewrite Hcols, elem_of_app. left.
    by apply list_elem_of_filter.
  - intros i c Hi.
    assert (Hcells : dummy_cells prefix clf i
                     = (λ u, indicator u c) <$> levels col).
    { unfold dummy_cells. rewrite Hcols, omap_app.
      rewrite dummy_cell_not_dummy by done.
      apply dummy_cell_blocks; [by rewrite Hfst|done..]. }
    split; [done|]. rewrite Hcells. destruct c as [v|].
    + split.
      * apply one_indicator; [apply levels_NoDup|].
        apply levels_elem, list_elem_of_lookup. eauto.
      * apply Forall_fmap, Forall_forall. intros u _. cbn.
        rewrite indicator_some. case_decide; auto.
    + apply Forall_fmap, Forall_forall. intros u _. done.
Qed.

Lemma C6_witness :
  ∃ d clf col,
    clean parse_int small_csv = Ok d ∧ one_hot d = Ok clf
    ∧ column_of KeyError "SEX" d = Ok col
    ∧ col !! 1 = Some (Some 2%Z)
    ∧ length (filter (λ x, x = Some 1%Z) (dummy_cells "SEX" clf 1)) = 1.
Proof.
  destruct (clean parse_int small_csv) as [d|e] eqn:Hd;
    [|by vm_compute in Hd].
  destruct (one_hot d) as [clf|e] eqn:Hc;
    [|revert Hc; injection Hd as <-; by vm_compute].
  destruct (C6_one_hot_encoding parse_int small_csv d clf "SEX" "SEX" Hd Hc)
    as (col & Hcol & _ & _ & _ & _ & _ & _ & Hrow).
  { apply (bool_decide_unpack _). by vm_compute. }
  exists d, clf, col. split; [done|]. split; [done|]. split; [done|].
  assert (Hi : col !! 1 = Some (Some 2%Z)).
  { revert Hcol. injection Hd as <-. vm_compute. by intros [= <-]. }
  split; [exact Hi|]. apply (Hrow 1 (Some 2%Z) Hi).
Defined.

(** C6, as it was stated, fails on a row with a missing value: the first
    retained row of the small table has no value for SEX, and none of the
    indicator columns of SEX holds 1 in it. *)
Lemma C6_counterexample :
  ∃ d clf,
    clean parse_int small_csv = Ok d ∧ one_hot d = Ok clf
    ∧ length (index clf) = 2
    ∧ dummy_cells "SEX" clf 0 = [Some 0%Z]
    ∧ length (filter (λ x, x = Some 1%Z) (dummy_cells "SEX" clf 0)) ≠ 1.
Proof.
  eexists _, _. split; [by vm_compute|]. split; [by vm_compute|].
  split; [done|]. split; [done|]. by vm_compute.
Qed.

(** * The whole notebook *)

Lemma bind_Ok_inv {A B} (m : M A) (f : A → M B) (st : state) (r : B * state) :
  (m ≫= f) st = Ok r → ∃ a st1, m st = Ok (a, st1) ∧ f a st1 = Ok r.
Proof.
  unfold mbind, M_bind. destruct (m st) as [[a st1]|e]; [|done].
  intros H. by exists a, st1.
Qed.

Section Whole.
Variable to_numeric : string → option Z.
Variable tn : nat → nat → nat → Q → tensor R.
Variable gd :
  Q → Tensor R → list nat → gmap nat (ndarray cell) →
  gmap nat (tensor R) → gmap nat (tensor R).

Lemma cell_preprocess_Ok csv st u st1 :
  cell_preprocess to_numeric csv st = Ok (u, st1) →
  ∃ d c X Y,
    preprocess to_numeric csv = Ok (d, c, X, Y)
    ∧ st1 = set_Y Y (set_X X (set_frames d c st)).
Proof.
  unfold cell_preprocess.
  destruct (preprocess to_numeric csv) as [[[[d c] X] Y]|e]; [|done].
  intros [= _ <-]. by exists d, c, X, Y.
Qed.

(** The cells after the first one end without an exception and leave the
    frames and arrays of the first cell as they are. *)
Lemma later_cells_keep_data st X Y :
  g_X st = Some X → g_Y st = Some Y → (shape Y).2 = 1 →
  ∃ ms st',
    later_cells tn gd st = Ok (ms, st')
    ∧ g_X st' = Some X ∧ g_Y st' = Some Y
    ∧ g_defaults_df st' = g_defaults_df st ∧ g_clf_df st' = g_clf_df st.
Proof.
  intros HX HY Hshape.
  open_state st HX HY.
  eexists _, _. split; [run_later Hshape|]. done.
Qed.

Lemma preprocess_shape (csv : DataFrame (option string))
    (d c X : DataFrame cell) (Y : ndarray cell) :
  preprocess to_numeric csv = Ok (d, c, X, Y) →
  shape Y = (29986, 1) ∧ length (data Y) = 29986
  ∧ Forall (λ row, length row = 1) (data Y).
Proof.
  intros H. apply preprocess_Ok in H as (v & _ & _ & _ & _ & HY).
  apply reshape_column_Ok in HY as (? & ? & ? & _). done.
Qed.

(** C8.  When the notebook has run, the cleaned frame has no row with
    the education value 0, each of its cells is what [pd.to_numeric] made
    of a cell of the table, [Y] has the shape (29986, 1), and the cells
    after the first one have left the frames, [X] and [Y] as the first
    cell made them. *)
Theorem C8_cleaned_data_is_kept
    (csv : DataFrame (option string)) (st : state) (ms : list model)
    (st' : state) :
  run_all to_numeric tn gd csv st = Ok (ms, st') →
  ∃ defaults_df clf_df X Y education,
    preprocess to_numeric csv = Ok (defaults_df, clf_df, X, Y)
    ∧ column_of AttributeError "EDUCATION" defaults_df = Ok education
    ∧ Forall (λ c, c ≠ Some 0%Z) education
    ∧ Forall (λ col, Forall (λ c, ∃ raw,
                               to_numeric_cell to_numeric raw = Ok c) col.2)
        (columns defaults_df)
    ∧ shape Y = (29986, 1)
    ∧ length (data Y) = 29986
    ∧ Forall (λ row, length row = 1) (data Y)
    ∧ g_defaults_df st' = Some defaults_df
    ∧ g_clf_df st' = Some clf_df
    ∧ g_X st' = Some X
    ∧ g_Y st' = Some Y.
Proof.
  unfold run_all. intros Hrun.
  apply bind_Ok_inv in Hrun as ([] & st1 & Hpre & Hrun).
  apply cell_preprocess_Ok in Hpre as (d & c & X & Y & Hpre & ->).
  pose proof (preprocess_shape _ _ _ _ _ Hpre) as (Hshape & Hlen & Hrows).
  destruct (later_cells_keep_data (set_Y Y (set_X X (set_frames d c st))) X Y)
    as (ms' & st'' & Hlater & HX & HY & Hd & Hc);
    [reflexivity|reflexivity|rewrite Hshape; reflexivity|].
  rewrite Hlater in Hrun. apply Ok_pair_inv in Hrun as [-> ->].
  apply preprocess_Ok in Hpre as Hsteps.
  destruct Hsteps as (v & Hclean & _).
  apply clean_cells in Hclean as ((education & Hedu & Hnz) & Hnum).
  exists d, c, X, Y, education.
  split; [exact Hpre|]. split; [exact Hedu|]. split; [exact Hnz|].
  split; [exact Hnum|]. split; [exact Hshape|]. split; [exact Hlen|].
  split; [exact Hrows|]. split; [exact Hd|]. split; [exact Hc|].
  split; [exact HX|exact HY].
Qed.

End Whole.

Lemma full_csv_preprocessed :
  ∃ d c X Y, preprocess parse_int full_csv = Ok (d, c, X, Y).
Proof.
  assert (Hok : is_ok (preprocess parse_int full_csv) = true)
    by (vm_compute; reflexivity).
  destruct (preprocess parse_int full_csv) as [[[[d c] X] Y]|e];
    [|discriminate Hok].
  by exists d, c, X, Y.
Qed.

Lemma C8_witness :
  ∃ ms st' Y,
    run_all parse_int zero_init keep_values full_csv initial_state
    = Ok (ms, st')
    ∧ g_Y st' = Some Y ∧ shape Y = (29986, 1).
Proof.
  destruct full_csv_preprocessed as (d & c & X & Y & Hpre).
  destruct (preprocess_shape _ _ _ _ _ _ Hpre) as (Hshape & _).
  destruct (later_cells_keep_data zero_init keep_values
              (set_Y Y (set_X X (set_frames d c initial_state))) X Y)
    as (ms & st' & Hlater & _);
    [reflexivity|reflexivity|rewrite Hshape; reflexivity|].
  assert (Hrun : run_all parse_int zero_init keep_values full_csv
                   initial_state = Ok (ms, st')).
  { unfold run_all. eapply bind_run; [|exact Hlater].
    unfold cell_preprocess. rewrite Hpre. reflexivity. }
  destruct (C8_cleaned_data_is_kept parse_int zero_init keep_values full_csv
              initial_state ms st' Hrun)
    as (d' & c' & X' & Y' & edu & _ & _ & _ & _ & HshapeY & _ & _ & _ & _ & _
        & HY).
  exists ms, st', Y'. split; [exact Hrun|]. split; [exact HY|exact HshapeY].
Defined.

(** * Further properties of the preprocessing cell *)

Lemma mapM_Raise {A B} (f : A → outcome B) (e : exn) (l : list A) :
  Forall (λ x, (∃ y, f x = Ok y) ∨ f x = Raise e) l →
  Exists (λ x, f x = Raise e) l → mapM f l = Raise e.
Proof.
  induction 1 as [|x l Hx Hl IH]; intros Hex; [by inv Hex|].
  cbn [mapM]. destruct Hx as [[y Hy]| ->]; [|done].
  rewrite Hy. cbn. inv Hex; [congruence|]. by rewrite IH.
Qed.

Lemma mapM_Raise_inv {A B} (f : A → outcome B) (e : exn) (l : list A) :
  mapM f l = Raise e → Exists (λ x, f x = Raise e) l.
Proof.
  induction l as [|x l IH]; [done|]. cbn [mapM].
  destruct (f x) as [y|e'] eqn:Hx; cbn.
  - destruct (mapM f l) as [k|e'']; [done|]. intros [= ->]. right. by apply IH.
  - intros [= ->]. by left.
Qed.

Lemma mapM_Ok_total {A B} (f : A → outcome B) (l : list A) :
  Forall (λ x, ∃ y, f x = Ok y) l → ∃ k, mapM f l = Ok k.
Proof.
  induction 1 as [|x l [y Hy] Hl [k IH]]; [by exists []|].
  exists (y :: k). cbn [mapM]. by rewrite Hy, IH.
Qed.

Lemma iloc0_Ok {A} (df : DataFrame A) :
  well_formed df → index df ≠ [] →
  ∃ header, iloc0 df = Ok header
            ∧ Forall2 (λ c h, c.2 = h :: tail c.2) (columns df) header.
Proof.
  unfold well_formed, iloc0. intros Hwf Hne.
  destruct (index df) as [|i idx]; [done|]. clear Hne.
  induction Hwf as [|c cols Hc Hwf (header & Hh & IH)].
  - by exists [].
  - destruct c as [l [|h t]]; [done|].
    exists (h :: header). split; [|by constructor].
    cbn [mapM]. cbn. destruct (mapM _ cols); [|done].
    injection Hh as ->. done.
Qed.

Lemma iloc0_heads {A} (df : DataFrame A) (header : list A) :
  iloc0 df = Ok header →
  index df ≠ [] ∧ Forall2 (λ c h, head c.2 = Some h) (columns df) header.
Proof.
  unfold iloc0. destruct (index df); [done|]. intros H. split; [done|].
  destruct (mapM _ _) as [k|] eqn:Hk; [|done]. injection H as <-.
  by apply mapM_Some in Hk.
Qed.

Lemma filter_label_nil {A} (l : label) (cols : list (label * list A)) :
  l ∉ cols.*1 → filter (λ c, c.1 = l) cols = [].
Proof.
  intros Hl. destruct (filter _ cols) as [|c k] eqn:Hf; [done|].
  assert (Hc : c ∈ filter (λ c, c.1 = l) cols) by (rewrite Hf; left).
  apply list_elem_of_filter in Hc as [<- Hc]. destruct Hl.
  apply list_elem_of_fmap. by exists c.
Qed.

Lemma set_last_lookup {A} (x : A) (l k : list A) (i : nat) (y : A) :
  set_last x l = Ok k → k !! i = Some y →
  y = x ∨ (l !! i = Some y ∧ S i < length l).
Proof.
  unfold set_last. intros Hk Hi.
  assert (Hk' : k = <[pred (length l) := x]> l) by (destruct l; congruence).
  subst k. destruct (decide (i = pred (length l))) as [->|Hne].
  - left. apply lookup_lt_Some in Hi as Hlt. rewrite length_insert in Hlt.
    rewrite list_lookup_insert_eq in Hi by done. congruence.
  - right. rewrite list_lookup_insert_ne in Hi by done. split; [done|].
    apply lookup_lt_Some in Hi. lia.
Qed.

Lemma filter_label_NoDup {A} (l : label) (cols : list (label * list A)) :
  NoDup cols.*1 → length (filter (λ c, c.1 = l) cols) ≤ 1.
Proof.
  induction cols as [|c cols IH]; [cbn; lia|].
  rewrite fmap_cons, NoDup_cons, filter_cons. intros [Hc Hnd].
  case_decide as Hl; [|by apply IH].
  rewrite filter_label_nil; [done|]. by rewrite <- Hl.
Qed.

Lemma column_of_NoDup {A} (e e' : exn) (name : string) (df : DataFrame A) :
  NoDup (labels df) → column_of e name df = Raise e' → e' = e.
Proof.
  intros Hnd. pose proof (filter_label_NoDup (Name name) _ Hnd) as Hlen.
  unfold column_of. destruct (filter _ _) as [|c [|c' cs]]; [|done|].
  - congruence.
  - cbn in Hlen. lia.
Qed.

Section MoreCleaning.
Variable to_numeric : string → option Z.

Lemma clean_steps (csv : DataFrame (option string)) header new_header df1 :
  iloc0 csv = Ok header →
  set_last (Name "Y") (as_label <$> header) = Ok new_header →
  set_columns new_header (drop_first_row csv) = Ok df1 →
  clean to_numeric csv
  = (df2 ← apply_to_numeric to_numeric df1;
     education ← column_of AttributeError "EDUCATION" df2;
     Ok (select_rows ((λ c, bool_decide (c ≠ Some 0%Z)) <$> education) df2)).
Proof.
  intros H1 H2 H3. unfold clean. rewrite H1. cbn [mbind outcome_bind].
  rewrite H2. cbn [mbind outcome_bind]. by rewrite H3.
Qed.

(** The steps of the cell up to the new column labels go through on a
    rectangular table with a row and a column. *)
Lemma clean_header (csv : DataFrame (option string)) :
  well_formed csv → index csv ≠ [] → columns csv ≠ [] →
  ∃ header new_header df1,
    iloc0 csv = Ok header
    ∧ Forall2 (λ c h, c.2 = h :: tail c.2) (columns csv) header
    ∧ set_last (Name "Y") (as_label <$> header) = Ok new_header
    ∧ set_columns new_header (drop_first_row csv) = Ok df1
    ∧ labels df1 = new_header
    ∧ (columns df1).*2 = tail <$> (columns csv).*2
    ∧ index df1 = tail (index csv).
Proof.
  intros Hwf Hi Hc.
  destruct (iloc0_Ok csv Hwf Hi) as (header & Hh & Hheads).
  pose proof (Forall2_length _ _ _ Hheads) as Hlen.
  destruct (set_last (Name "Y") (as_label <$> header)) as [new_header|e]
    eqn:Hnew.
  2:{ destruct header; [|done]. by destruct (columns csv). }
  pose proof (set_last_last _ _ _ Hnew) as [_ Hlen'].
  rewrite length_fmap in Hlen'.
  assert (Hset : set_columns new_header (drop_first_row csv)
                 = Ok (mkFrame (tail (index csv))
                         (zip new_header
                            ((λ c, (c.1, tail c.2)) <$> columns csv).*2))).
  { unfold set_columns. cbn [columns drop_first_row index].
    rewrite decide_True; [done|]. rewrite length_fmap. lia. }
  eexists header, new_header, _. split; [done|]. split; [done|].
  split; [done|]. split; [exact Hset|].
  assert (Hl2 : ((λ c : label * list (option string), (c.1, tail c.2))
                   <$> columns csv).*2 = tail <$> (columns csv).*2).
  { rewrite <- !list_fmap_compose. done. }
  rewrite Hl2. unfold labels. cbn [columns index].
  split; [apply fst_zip; rewrite !length_fmap; lia|].
  split; [apply snd_zip; rewrite !length_fmap; lia|done].
Qed.

Lemma apply_to_numeric_Raise (df : DataFrame (option string)) (e : exn) :
  apply_to_numeric to_numeric df = Raise e → e = ValueError.
Proof.
  unfold apply_to_numeric. intros H.
  destruct (mapM _ (columns df)) as [cols|e1] eqn:Hcols; [done|].
  injection H as ->. apply mapM_Raise_inv, Exists_exists in Hcols.
  destruct Hcols as (c & _ & Hc).
  destruct (mapM (to_numeric_cell to_numeric) c.2) as [col|e2] eqn:Hcol;
    [done|].
  injection Hc as ->. apply mapM_Raise_inv, Exists_exists in Hcol.
  destruct Hcol as ([s|] & _ & Hs); [|done].
  unfold to_numeric_cell in Hs. destruct (to_numeric s); cbn in Hs; congruence.
Qed.

Lemma column_of_Raise {A} (e e' : exn) (name : string) (df : DataFrame A) :
  column_of e name df = Raise e' → e' = e ∨ e' = ValueError.
Proof.
  unfold column_of. destruct (filter _ _) as [|c [|c' cs]]; [|done|].
  - intros [= <-]. by left.
  - intros [= <-]. by right.
Qed.

Lemma clean_Raise (csv : DataFrame (option string)) (e : exn) :
  well_formed csv → index csv ≠ [] → columns csv ≠ [] →
  clean to_numeric csv = Raise e → e = ValueError ∨ e = AttributeError.
Proof.
  intros Hwf Hi Hc.
  destruct (clean_header csv Hwf Hi Hc)
    as (header & new_header & df1 & H1 & _ & H2 & H3 & _).
  rewrite (clean_steps _ _ _ _ H1 H2 H3).
  destruct (apply_to_numeric to_numeric df1) as [df2|e1] eqn:Hnum.
  - cbn [mbind outcome_bind].
    destruct (column_of AttributeError "EDUCATION" df2) as [edu|e2] eqn:Hedu;
      [done|].
    intros [= <-]. apply column_of_Raise in Hedu as [->| ->]; auto.
  - intros [= <-]. left. by eapply apply_to_numeric_Raise.
Qed.

Lemma preprocess_Raise (csv : DataFrame (option string)) (d : DataFrame cell)
    (e : exn) :
  clean to_numeric csv = Ok d → preprocess to_numeric csv = Raise e →
  e = KeyError ∨ e = ValueError ∨ e = AttributeError.
Proof.
  intros Hd. unfold preprocess. rewrite Hd. cbn [mbind outcome_bind].
  destruct (one_hot d) as [c|e1] eqn:Hc.
  - cbn [mbind outcome_bind]. unfold drop, values_of, reshape_column.
    case_decide; cbn [mbind outcome_bind]; [|intros [= <-]; auto].
    destruct (filter (λ c0, c0.1 = Name "Y") (columns c)) as [|c1 [|c2 cs]];
      cbn [mbind outcome_bind]; [intros [= <-]; auto| |].
    all: case_decide; cbn [mbind outcome_bind]; [done|intros [= <-]; auto].
  - intros [= <-]. unfold one_hot, get_dummies in Hc.
    case_decide; [|injection Hc as <-; auto].
    destruct (mapM _ _) as [enc|e2] eqn:Henc; [done|]. injection Hc as <-.
    apply mapM_Raise_inv, Exists_exists in Henc as (np & _ & Hnp).
    destruct (column_of KeyError np.1 d) as [col|e3] eqn:Hcol; [done|].
    injection Hnp as <-. apply column_of_Raise in Hcol as [->| ->]; auto.
Qed.

(** X1.  On a rectangular table the first cell stops with an
    [IndexError] exactly when the table has no row or no column:
    [iloc[0]] has no row to take, or [new_header[-1] = 'Y'] no position to
    assign to. *)
Theorem X1_IndexError_iff_empty_table (csv : DataFrame (option string)) :
  well_formed csv →
  preprocess to_numeric csv = Raise IndexError
  ↔ index csv = [] ∨ columns csv = [].
Proof.
  intros Hwf. split.
  - intros Hraise.
    destruct (decide (index csv = [])) as [|Hi]; [by left|].
    destruct (decide (columns csv = [])) as [|Hc]; [by right|].
    exfalso.
    destruct (clean to_numeric csv) as [d|e] eqn:Hd.
    + by destruct (preprocess_Raise csv d IndexError Hd Hraise) as [|[|]].
    + unfold preprocess in Hraise. rewrite Hd in Hraise.
      injection Hraise as ->.
      by destruct (clean_Raise csv IndexError Hwf Hi Hc Hd).
  - intros Hempty. unfold preprocess, clean, iloc0.
    destruct (index csv) as [|i idx]; [done|].
    destruct Hempty as [Hi | Hc]; [done|]. by rewrite Hc.
Qed.

Lemma apply_to_numeric_total (df : DataFrame (option string)) :
  (∀ c s, c ∈ columns df → Some s ∈ c.2 → is_Some (to_numeric s)) →
  ∃ d, apply_to_numeric to_numeric df = Ok d.
Proof.
  intros Hparse. unfold apply_to_numeric.
  destruct (mapM_Ok_total
              (λ c : label * list (option string),
                 col ← mapM (to_numeric_cell to_numeric) c.2; Ok (c.1, col))
              (columns df)) as [cols Hcols].
  - apply Forall_forall. intros c Hc.
    destruct (mapM_Ok_total (to_numeric_cell to_numeric) c.2) as [col Hcol].
    + apply Forall_forall. intros [s|] Hs; [|by exists None].
      destruct (Hparse c s Hc Hs) as [z Hz]. exists (Some z).
      unfold to_numeric_cell. by rewrite Hz.
    + exists (c.1, col). by rewrite Hcol.
  - rewrite Hcols. by eexists.
Qed.

(** X2.  A cell below the header row that [pd.to_numeric] cannot read
    stops the first cell with a [ValueError], whatever else the table
    holds. *)
Theorem X2_unreadable_cell_raises_ValueError
    (csv : DataFrame (option string)) (c : label * list (option string))
    (s : string) :
  well_formed csv → index csv ≠ [] →
  c ∈ columns csv → Some s ∈ tail c.2 → to_numeric s = None →
  preprocess to_numeric csv = Raise ValueError.
Proof.
  intros Hwf Hi Hc Hs Hnone.
  assert (Hcols : columns csv ≠ []) by (intros Hnil; rewrite Hnil in Hc; inv Hc).
  destruct (clean_header csv Hwf Hi Hcols)
    as (header & new_header & df1 & H1 & _ & H2 & H3 & _ & Hcells & _).
  unfold preprocess. rewrite (clean_steps _ _ _ _ H1 H2 H3).
  destruct (apply_to_numeric to_numeric df1) as [df2|e] eqn:Hnum.
  - exfalso. apply apply_to_numeric_Ok in Hnum as [_ Hnum].
    assert (Hin : tail c.2 ∈ (columns df1).*2).
    { rewrite Hcells, <- list_fmap_compose. apply list_elem_of_fmap.
      by exists c. }
    apply list_elem_of_fmap in Hin as (c1 & Hc1 & Hin).
    apply list_elem_of_lookup in Hin as [i Hi1].
    destruct (Forall2_lookup_l _ _ _ _ _ Hnum Hi1) as (c2 & _ & _ & Hconv).
    rewrite <- Hc1 in Hconv.
    apply list_elem_of_lookup in Hs as [j Hj].
    destruct (Forall2_lookup_l _ _ _ _ _ Hconv Hj) as (v & _ & Hv).
    unfold to_numeric_cell in Hv. by rewrite Hnone in Hv.
  - apply apply_to_numeric_Raise in Hnum as ->. done.
Qed.

(** X3.  When every cell below the header row can be read and no column
    but the last is headed EDUCATION, the first cell stops with an
    [AttributeError] at [defaults_df.EDUCATION]; the header of the last
    column does not count, it is overwritten by Y. *)
Theorem X3_no_EDUCATION_column_raises_AttributeError
    (csv : DataFrame (option string)) :
  well_formed csv → index csv ≠ [] → columns csv ≠ [] →
  (∀ c s, c ∈ columns csv → Some s ∈ tail c.2 → is_Some (to_numeric s)) →
  (∀ i c, columns csv !! i = Some c → S i < length (columns csv) →
          head c.2 ≠ Some (Some "EDUCATION")) →
  preprocess to_numeric csv = Raise AttributeError.
Proof.
  intros Hwf Hi Hcols Hparse Hedu.
  destruct (clean_header csv Hwf Hi Hcols)
    as (header & new_header & df1 & H1 & Hheads & H2 & H3 & Hlabels & Hcells
        & _).
  unfold preprocess. rewrite (clean_steps _ _ _ _ H1 H2 H3).
  destruct (apply_to_numeric_total df1) as [df2 Hnum].
  { intros c1 s Hc1 Hs.
    assert (Hin : c1.2 ∈ tail <$> (columns csv).*2).
    { rewrite <- Hcells. apply list_elem_of_fmap. by exists c1. }
    rewrite <- list_fmap_compose in Hin.
    apply list_elem_of_fmap in Hin as (c & Hc & Hin). cbn in Hc.
    apply (Hparse c s Hin). by rewrite <- Hc. }
  rewrite Hnum. cbn [mbind outcome_bind].
  assert (Hnone : Name "EDUCATION" ∉ labels df2).
  { rewrite (labels_apply_to_numeric _ _ _ Hnum), Hlabels.
    intros Hin. apply list_elem_of_lookup in Hin as [i Hin].
    pose proof (Forall2_length _ _ _ Hheads) as Hlen.
    destruct (set_last_lookup _ _ _ _ _ H2 Hin) as [|[Hin' Hlt]]; [done|].
    rewrite length_fmap in Hlt. rewrite list_lookup_fmap in Hin'.
    destruct (header !! i) as [h|] eqn:Hh; [|done].
    destruct (Forall2_lookup_r _ _ _ _ _ Hheads Hh) as (c & Hc & Hhead).
    apply (Hedu i c Hc); [lia|].
    rewrite Hhead. cbn. destruct h as [s|]; [|done].
    cbn in Hin'. by injection Hin' as ->. }
  unfold column_of. by rewrite filter_label_nil.
Qed.

(** X4.  When the cleaned frame, with no label twice, lacks one of the
    nine columns that are to be encoded, the first cell stops with a
    [KeyError] at [pd.get_dummies]. *)
Theorem X4_missing_categorical_column_raises_KeyError
    (csv : DataFrame (option string)) (d : DataFrame cell) (name : string) :
  clean to_numeric csv = Ok d → NoDup (labels d) →
  name ∈ categorical → Name name ∉ labels d →
  preprocess to_numeric csv = Raise KeyError.
Proof.
  intros Hd Hnd Hname Hnone.
  unfold preprocess, one_hot, get_dummies. rewrite Hd.
  cbn [mbind outcome_bind]. rewrite decide_True by done.
  rewrite (mapM_Raise _ KeyError); [done| |].
  - apply Forall_forall. intros np _.
    destruct (column_of KeyError np.1 d) as [col|e] eqn:Hcol.
    + left. by eexists.
    + right. by apply column_of_NoDup in Hcol as ->.
  - apply Exists_exists.
    apply list_elem_of_lookup in Hname as [i Hi].
    destruct (lookup_lt_is_Some_2 prefixes i) as [p Hp].
    { apply lookup_lt_Some in Hi. exact Hi. }
    exists (name, p). split.
    + apply list_elem_of_lookup. exists i. apply lookup_zip_with_Some.
      by exists name, p.
    + unfold column_of. cbn [fst]. by rewrite filter_label_nil.
Qed.

End MoreCleaning.

Lemma X1_witness :
  preprocess parse_int (mkFrame [Some "ID"] []) = Raise IndexError
  ↔ index (mkFrame (A:=option string) [Some "ID"] []) = []
    ∨ columns (mkFrame (A:=option string) [Some "ID"] []) = [].
Proof.
  apply (X1_IndexError_iff_empty_table parse_int (mkFrame [Some "ID"] [])).
  constructor.
Defined.

Lemma X2_witness :
  preprocess parse_int
    (mkFrame [Some "ID"; Some "1"]
       [(Name "X1", [Some "EDUCATION"; Some "2"]);
        (Name "X2", [Some "AGE"; Some "thirty"])])
  = Raise ValueError.
Proof.
  apply (X2_unreadable_cell_raises_ValueError parse_int _
           (Name "X2", [Some "AGE"; Some "thirty"]) "thirty").
  - by repeat constructor.
  - done.
  - apply list_elem_of_further, list_elem_of_here.
  - apply list_elem_of_here.
  - reflexivity.
Defined.

Lemma X3_witness :
  preprocess parse_int
    (mkFrame [Some "ID"; Some "1"]
       [(Name "X1", [Some "AGE"; Some "30"]);
        (Name "X2", [Some "EDUCATION"; Some "2"])])
  = Raise AttributeError.
Proof.
  apply X3_no_EDUCATION_column_raises_AttributeError.
  - by repeat constructor.
  - done.
  - done.
  - intros c s Hc Hs. cbn in Hc.
    apply elem_of_cons in Hc as [->|Hc];
      [|apply elem_of_cons in Hc as [->|Hc]; [|by inv Hc]].
    all: cbn in Hs; apply elem_of_cons in Hs as [[= ->]|Hs]; [|by inv Hs].
    all: apply (bool_decide_unpack _); by vm_compute.
  - intros [|[|i]] c Hc Hlt; cbn in Hc, Hlt; [|lia|lia].
    by injection Hc as <-.
Defined.

Lemma X4_witness :
  preprocess parse_int
    (mkFrame [Some "ID"; Some "1"]
       [(Name "X1", [Some "EDUCATION"; Some "2"]);
        (Name "X2", [Some "default"; Some "1"])])
  = Raise KeyError.
Proof.
  eapply (X4_missing_categorical_column_raises_KeyError parse_int _ _ "SEX").
  - vm_compute. reflexivity.
  - cbn. apply (bool_decide_unpack _). by vm_compute.
  - apply list_elem_of_here.
  - cbn. apply (bool_decide_unpack _). by vm_compute.
Defined.

(** ** The shape of the frames *)

Lemma Forall2_compress {A B} (R : A → B → Prop) (mask : list bool)
    (l : list A) (k : list B) :
  Forall2 R l k → Forall2 R (compress mask l) (compress mask k).
Proof.
  intros H. revert mask. induction H as [|a b l k Hab H IH]; intros mask.
  - destruct mask; constructor.
  - destruct mask as [|[] mask]; cbn; [constructor|by constructor|done].
Qed.

Lemma compress_sublist {A} (mask : list bool) (l : list A) :
  compress mask l `sublist_of` l.
Proof.
  revert l. induction mask as [|b mask IH]; intros [|x l]; cbn;
    try apply sublist_nil_l.
  destruct b; by constructor.
Qed.

Lemma select_rows_well_formed {A} (mask : list bool) (df : DataFrame A) :
  well_formed df → well_formed (select_rows mask df).
Proof.
  unfold well_formed, select_rows. cbn [columns index]. intros Hwf.
  apply Forall_fmap. eapply Forall_impl; [exact Hwf|].
  intros c Hc. cbn. by apply compress_length_same.
Qed.

Lemma one_hot_keeps_column (d c : DataFrame cell) (name : string) :
  one_hot d = Ok c → name ∉ categorical →
  filter (λ c0, c0.1 = Name name) (columns c)
  = filter (λ c0, c0.1 = Name name) (columns d).
Proof.
  intros Hc Hname.
  apply get_dummies_Ok in Hc as (encoded & _ & _ & _ & ->).
  rewrite filter_app, list_filter_filter.
  rewrite (filter_label_nil (Name name) (encoded ≫= _)), app_nil_r.
  - apply list_filter_iff. intros c0. split; [by intros []|].
    intros Hc0. split; [done|]. rewrite Hc0.
    intros Hin. apply list_elem_of_fmap in Hin as (n & [= <-] & Hin). done.
  - intros Hin. apply list_elem_of_fmap in Hin as ([l col] & Hl & Hin).
    apply list_elem_of_bind in Hin as (pc & Hin & _).
    apply dummy_columns_elem in Hin as (v & _ & -> & _). done.
Qed.

Lemma one_hot_well_formed (d c : DataFrame cell) :
  well_formed d → one_hot d = Ok c → well_formed c ∧ index c = index d.
Proof.
  intros Hwf Hc.
  apply get_dummies_Ok in Hc as (encoded & _ & Henc & Hindex & Hcols).
  split; [|done]. unfold well_formed. rewrite Hcols, Hindex.
  apply Forall_app. split.
  - apply Forall_forall. intros c0 Hc0.
    apply list_elem_of_filter in Hc0 as [_ Hc0].
    by apply (proj1 (Forall_forall _ _) Hwf).
  - apply Forall_forall. intros [l col] Hin.
    apply list_elem_of_bind in Hin as (pc & Hin & Hpc).
    apply dummy_columns_elem in Hin as (v & _ & _ & ->).
    cbn. rewrite length_fmap.
    apply list_elem_of_lookup in Hpc as [i Hi].
    destruct (Forall2_lookup_r _ _ _ _ _ Henc Hi) as (np & _ & _ & Hcol).
    apply column_of_elem in Hcol.
    by apply (proj1 (Forall_forall _ _) Hwf _ Hcol).
Qed.

Lemma length_rows_of {A} `{Inhabited A} (n : nat) (cols : list (list A)) :
  length (rows_of n cols) = n
  ∧ Forall (λ row, length row = length cols) (rows_of n cols).
Proof.
  revert cols. induction n as [|n IH]; intros cols; [by split|].
  cbn [rows_of]. destruct (IH (tail <$> cols)) as [Hlen Hrows].
  split; [cbn; by rewrite Hlen|].
  constructor; [by rewrite length_fmap|]. by rewrite length_fmap in Hrows.
Qed.

Section Shapes.
Variable to_numeric : string → option Z.

Lemma apply_to_numeric_well_formed (df : DataFrame (option string))
    (d : DataFrame cell) :
  well_formed df → apply_to_numeric to_numeric df = Ok d → well_formed d.
Proof.
  intros Hwf Hd. apply apply_to_numeric_Ok in Hd as [Hindex Hcols].
  unfold well_formed. rewrite Hindex. apply Forall_forall. intros c' Hc'.
  apply list_elem_of_lookup in Hc' as [i Hi].
  destruct (Forall2_lookup_r _ _ _ _ _ Hcols Hi) as (c & Hc & _ & Hcells).
  rewrite <- (Forall2_length _ _ _ Hcells).
  apply (proj1 (Forall_forall _ _) Hwf). by eapply list_elem_of_lookup_2.
Qed.

Lemma clean_well_formed (csv : DataFrame (option string))
    (d : DataFrame cell) :
  well_formed csv → clean to_numeric csv = Ok d →
  well_formed d ∧ index d `sublist_of` tail (index csv).
Proof.
  intros Hwf Hd.
  apply clean_Ok in Hd
    as (header & new_header & df1 & df2 & education & Hh & Hn & H1 & H2 & He
        & ->).
  apply set_columns_Ok in H1 as Hdf1. destruct Hdf1 as (_ & Hcells & Hindex).
  assert (Hwf1 : well_formed df1).
  { unfold well_formed. rewrite Hindex.
    apply (Forall_fmap snd (λ col, length col = _)).
    rewrite Hcells. cbn [drop_first_row columns index].
    rewrite <- list_fmap_compose. apply Forall_fmap.
    eapply Forall_impl; [exact Hwf|]. intros [l col] Hc. cbn in *.
    destruct col, (index csv); cbn in *; lia. }
  pose proof (apply_to_numeric_well_formed _ _ Hwf1 H2) as Hwf2.
  split; [by apply select_rows_well_formed|].
  apply apply_to_numeric_Ok in H2 as [Hindex2 _].
  cbn [select_rows index]. rewrite Hindex2, Hindex.
  apply compress_sublist.
Qed.

Lemma clean_rows_below_header (csv : DataFrame (option string))
    (d : DataFrame cell) :
  clean to_numeric csv = Ok d →
  ∃ mask,
    index d = compress mask (tail (index csv))
    ∧ Forall2
        (λ c c',
           Forall2 (λ r v, to_numeric_cell to_numeric r = Ok v)
             (compress mask (tail c.2)) c'.2)
        (columns csv) (columns d).
Proof.
  intros Hd.
  apply clean_Ok in Hd
    as (header & new_header & df1 & df2 & education & Hh & Hn & H1 & H2 & He
        & ->).
  exists ((λ c, bool_decide (c ≠ Some 0%Z)) <$> education).
  apply set_columns_Ok in H1 as (_ & Hcells & Hindex).
  cbn [drop_first_row columns index] in Hcells, Hindex.
  rewrite <- list_fmap_compose in Hcells.
  apply apply_to_numeric_Ok in H2 as [Hindex2 Hnum].
  split; [cbn [select_rows index]; by rewrite Hindex2, Hindex|].
  cbn [select_rows columns]. apply Forall2_fmap_r.
  apply Forall2_same_length_lookup_2.
  { apply Forall2_length in Hnum. rewrite <- Hnum.
    apply (f_equal length) in Hcells. by rewrite !length_fmap in Hcells. }
  intros j c0 c2 Hc0 Hc2. cbn [snd].
  destruct (Forall2_lookup_r _ _ _ _ _ Hnum Hc2) as (c1 & Hc1 & _ & Hconv).
  assert (Hraw : (columns df1).*2 !! j = Some c1.2).
  { by rewrite list_lookup_fmap, Hc1. }
  rewrite Hcells, list_lookup_fmap, Hc0 in Hraw.
  cbn in Hraw. injection Hraw as Hraw.
  rewrite Hraw. by apply Forall2_compress.
Qed.

(** X5.  Cleaning keeps the table rectangular, keeps its columns, and
    keeps rows only from below the header row, in their order: the frame
    has fewer rows than the table, and there is one selection of the rows
    below the header row such that the row labels of the frame are the
    selected ones of the labels below the first, and every column of the
    frame holds what [pd.to_numeric] makes of the selected ones of the
    cells below the header cell of the same column of the table. *)
Theorem X5_cleaning_keeps_columns_and_drops_the_header_row
    (csv : DataFrame (option string)) (d : DataFrame cell) :
  well_formed csv → clean to_numeric csv = Ok d →
  well_formed d
  ∧ index d `sublist_of` tail (index csv)
  ∧ length (index d) < length (index csv)
  ∧ length (columns d) = length (columns csv)
  ∧ ∃ mask,
      index d = compress mask (tail (index csv))
      ∧ Forall2
          (λ c c',
             Forall2 (λ r v, to_numeric_cell to_numeric r = Ok v)
               (compress mask (tail c.2)) c'.2)
          (columns csv) (columns d).
Proof.
  intros Hwf Hd.
  destruct (clean_well_formed csv d Hwf Hd) as [Hwfd Hsub].
  split; [done|]. split; [done|]. split; [|split].
  - apply sublist_length in Hsub.
    apply clean_Ok in Hd as (header & _ & _ & _ & _ & Hh & _).
    apply iloc0_heads in Hh as [Hne _].
    destruct (index csv); [done|]. cbn in *. lia.
  - by apply clean_labels in Hd as (_ & _ & Hlen).
  - by apply clean_rows_below_header.
Qed.

(** X6.  The frames after the encoding are rectangular and have the
    rows of the cleaned frame, and [X.as_matrix()] is a matrix with one
    row for each of them and [len(list(X))] columns, the width that the
    graph cells give to the placeholder of the inputs. *)
Theorem X6_features_matrix_has_the_width_of_X
    (csv : DataFrame (option string)) (d c X : DataFrame cell) :
  well_formed csv → clean to_numeric csv = Ok d → one_hot d = Ok c →
  drop "Y" c = Ok X →
  well_formed c ∧ well_formed X
  ∧ index c = index d ∧ index X = index d
  ∧ shape (as_matrix X) = (length (index d), length (columns X))
  ∧ length (data (as_matrix X)) = length (index d)
  ∧ Forall (λ row, length row = length (columns X)) (data (as_matrix X)).
Proof.
  intros Hwf Hd Hc HX.
  destruct (clean_well_formed csv d Hwf Hd) as [Hwfd _].
  destruct (one_hot_well_formed d c Hwfd Hc) as [Hwfc Hic].
  unfold drop in HX. case_decide; [|done]. injection HX as <-.
  unfold as_matrix, rows. cbn [index columns shape data].
  destruct (length_rows_of (length (index c))
              (filter (λ c0, c0.1 ≠ Name "Y") (columns c)).*2)
    as [Hlen Hrows].
  rewrite length_fmap in Hrows.
  split; [done|]. split.
  { unfold well_formed. cbn [index columns].
    apply Forall_forall. intros c0 Hc0.
    apply list_elem_of_filter in Hc0 as [_ Hc0].
    by apply (proj1 (Forall_forall _ _) Hwfc). }
  split; [exact Hic|]. split; [exact Hic|]. split; [by rewrite Hic|].
  split; [by rewrite Hlen, Hic|exact Hrows].
Qed.

(** X7.  The row count 29986 is written into the cell: with one column
    labelled Y, the cell ends without an exception when the cleaned frame
    has exactly 29986 rows, and stops with a [ValueError] at the reshape
    when it has any other number of rows. *)
Theorem X7_reshape_needs_29986_rows
    (csv : DataFrame (option string)) (d c : DataFrame cell)
    (ycol : list cell) :
  well_formed csv → clean to_numeric csv = Ok d → one_hot d = Ok c →
  column_of KeyError "Y" d = Ok ycol →
  (length (index d) = 29986 →
   ∃ X Y, preprocess to_numeric csv = Ok (d, c, X, Y)
          ∧ shape Y = (29986, 1))
  ∧ (length (index d) ≠ 29986 →
     preprocess to_numeric csv = Raise ValueError).
Proof.
  intros Hwf Hd Hc HY.
  destruct (clean_well_formed csv d Hwf Hd) as [Hwfd _].
  assert (Hfilter : filter (λ c0, c0.1 = Name "Y") (columns c)
                    = [(Name "Y", ycol)]).
  { rewrite (one_hot_keeps_column d c "Y" Hc).
    - by apply column_of_Ok in HY.
    - apply (bool_decide_unpack _). by vm_compute. }
  assert (Hlen : length ycol = length (index d)).
  { apply column_of_elem in HY.
    by apply (proj1 (Forall_forall _ _) Hwfd _ HY). }
  assert (Hin : Name "Y" ∈ labels c).
  { apply list_elem_of_fmap. exists (Name "Y", ycol). split; [done|].
    assert (Hy : (Name "Y", ycol) ∈ filter (λ c0, c0.1 = Name "Y") (columns c))
      by (rewrite Hfilter; left).
    by apply list_elem_of_filter in Hy as [_ Hy]. }
  unfold preprocess. rewrite Hd. cbn [mbind outcome_bind]. rewrite Hc.
  cbn [mbind outcome_bind]. unfold drop, values_of, reshape_column.
  rewrite decide_True by done. cbn [mbind outcome_bind]. rewrite Hfilter.
  cbn [mbind outcome_bind snd]. rewrite Hlen. split; intros Hn.
  - rewrite decide_True by done. cbn [mbind outcome_bind]. by eexists _, _.
  - by rewrite decide_False.
Qed.

(** X8.  The target is not among the features: [X] has the columns of
    [clf_df] in their order, all but those labelled Y, and the rows of
    [clf_df]; with one column labelled Y, that column is the last one of
    the cleaned frame and [Y] holds its cells, one to a row. *)
Theorem X8_target_is_split_from_the_features
    (csv : DataFrame (option string)) (d c X : DataFrame cell)
    (Y : ndarray cell) :
  preprocess to_numeric csv = Ok (d, c, X, Y) →
  (Name "Y" ∉ labels X)
  ∧ columns X `sublist_of` columns c
  ∧ (∀ c0, c0 ∈ columns X ↔ c0 ∈ columns c ∧ c0.1 ≠ Name "Y")
  ∧ index X = index c
  ∧ ∀ ycol, column_of KeyError "Y" d = Ok ycol →
      last (columns d) = Some (Name "Y", ycol)
      ∧ data Y = (λ v, [v]) <$> ycol.
Proof.
  intros Hpre.
  apply preprocess_Ok in Hpre as (values & Hd & Hc & HX & Hv & HY).
  unfold drop in HX. case_decide; [|done]. injection HX as <-.
  cbn [labels columns index].
  split.
  { intros Hin. apply list_elem_of_fmap in Hin as (c0 & Hl & Hin).
    by apply list_elem_of_filter in Hin as [Hne _]. }
  split; [apply sublist_filter|].
  split; [intros c0; rewrite list_elem_of_filter; tauto|].
  split; [done|]. intros ycol Hycol. split.
  - apply clean_labels in Hd as (_ & Hlast & _).
    unfold labels in Hlast. rewrite fmap_last in Hlast.
    destruct (last (columns d)) as [[l col]|] eqn:Hl; [|done].
    injection Hlast as ->. f_equal. f_equal.
    apply (column_of_unique _ _ _ _ _ Hycol).
    by apply last_Some_elem_of.
  - unfold values_of in Hv.
    rewrite (one_hot_keeps_column d c "Y" Hc) in Hv.
    2:{ apply (bool_decide_unpack _). by vm_compute. }
    apply column_of_Ok in Hycol. rewrite Hycol in Hv. injection Hv as <-.
    unfold reshape_column in HY. case_decide; [|done]. by injection HY as <-.
Qed.

(** X9.  The rows with the education value 0 are taken out before the
    encoding, so the encoded frame has no indicator column EDU_0. *)
Theorem X9_no_indicator_column_for_education_0
    (csv : DataFrame (option string)) (d c : DataFrame cell) :
  clean to_numeric csv = Ok d → one_hot d = Ok c →
  Dummy "EDU" 0 ∉ labels c.
Proof.
  intros Hd Hc Hin.
  apply clean_labels in Hd as Hlabels. destruct Hlabels as (Hnd & _ & _).
  apply clean_cells in Hd as ((education & Hedu & Hnz) & _).
  apply get_dummies_Ok in Hc as (encoded & _ & Henc & _ & Hcols).
  apply list_elem_of_fmap in Hin as ([l col] & Hl & Hin). cbn in Hl. subst l.
  rewrite Hcols in Hin. apply elem_of_app in Hin as [Hin|Hin].
  - apply list_elem_of_filter in Hin as [_ Hin].
    apply (proj1 (Forall_forall _ _) Hnd (Dummy "EDU" 0)).
    apply list_elem_of_fmap. by exists (Dummy "EDU" 0, col).
  - apply list_elem_of_bind in Hin as ([p pcol] & Hin & Hpc).
    apply dummy_columns_elem in Hin as (v & Hv & [= <- <-] & _).
    apply levels_elem in Hv.
    apply list_elem_of_lookup in Hpc as [i Hi].
    destruct (Forall2_lookup_r _ _ _ _ _ Henc Hi) as ([n p'] & Hnp & Hp & Hcol).
    cbn in Hp, Hcol. subst p'.
    assert (Hn : n = "EDUCATION").
    { apply list_elem_of_lookup_2 in Hnp. clear -Hnp.
      unfold categorical, prefixes in Hnp. cbn in Hnp.
      repeat (apply elem_of_cons in Hnp as [Hnp|Hnp]; [by simplify_eq|]).
      by inv Hnp. }
    subst n. apply column_of_Ok in Hcol, Hedu. rewrite Hcol in Hedu.
    injection Hedu as <-.
    by apply (proj1 (Forall_forall _ _) Hnz (Some 0%Z)).
Qed.

End Shapes.

Lemma small_csv_well_formed : well_formed small_csv.
Proof. unfold well_formed. apply (bool_decide_unpack _). by vm_compute. Qed.

Lemma small_csv_frames :
  ∃ d c X ycol,
    clean parse_int small_csv = Ok d ∧ one_hot d = Ok c
    ∧ drop "Y" c = Ok X ∧ column_of KeyError "Y" d = Ok ycol
    ∧ length (index d) = 2.
Proof.
  eexists _, _, _, _. split; [by vm_compute|]. split; [by vm_compute|].
  split; [by vm_compute|]. split; [by vm_compute|]. done.
Qed.

Lemma X5_witness :
  ∃ d sex mask,
    clean parse_int small_csv = Ok d
    ∧ length (index d) < length (index small_csv)
    ∧ column_of KeyError "SEX" d = Ok sex
    ∧ index d = compress mask (tail (index small_csv))
    ∧ Forall2 (λ r v, to_numeric_cell parse_int r = Ok v)
        (compress mask [None; Some "1"; Some "2"]) sex.
Proof.
  destruct small_csv_frames as (d & _ & _ & _ & Hd & _).
  destruct (X5_cleaning_keeps_columns_and_drops_the_header_row parse_int
              small_csv d small_csv_well_formed Hd)
    as (_ & _ & Hlt & _ & mask & Hindex & Hcells).
  destruct (column_of KeyError "SEX" d) as [sex|e] eqn:Hsex;
    [|revert Hsex; injection Hd as <-; by vm_compute].
  exists d, sex, mask.
  split; [done|]. split; [exact Hlt|]. split; [done|].
  split; [exact Hindex|].
  assert (Hpos : columns d !! 1 = Some (Name "SEX", sex)).
  { revert Hsex. injection Hd as <-. vm_compute. by intros [= <-]. }
  destruct (Forall2_lookup_r _ _ _ _ _ Hcells Hpos) as (c & Hc & Hkept).
  cbn in Hc. injection Hc as <-. exact Hkept.
Defined.

Lemma X6_witness :
  ∃ d c X,
    clean parse_int small_csv = Ok d ∧ one_hot d = Ok c ∧ drop "Y" c = Ok X
    ∧ shape (as_matrix X) = (2, length (columns X))
    ∧ Forall (λ row, length row = length (columns X)) (data (as_matrix X)).
Proof.
  destruct small_csv_frames as (d & c & X & _ & Hd & Hc & HX & _ & Hlen).
  destruct (X6_features_matrix_has_the_width_of_X parse_int small_csv d c X
              small_csv_well_formed Hd Hc HX)
    as (_ & _ & _ & _ & Hshape & _ & Hrows).
  exists d, c, X. rewrite Hshape, Hlen. done.
Defined.

Lemma X7_witness : preprocess parse_int small_csv = Raise ValueError.
Proof.
  destruct small_csv_frames as (d & c & X & ycol & Hd & Hc & _ & HY & Hlen).
  apply (X7_reshape_needs_29986_rows parse_int small_csv d c ycol
           small_csv_well_formed Hd Hc HY).
  rewrite Hlen. apply (bool_decide_unpack _). by vm_compute.
Defined.

Lemma X8_witness :
  ∃ d c X Y,
    preprocess parse_int full_csv = Ok (d, c, X, Y) ∧ Name "Y" ∉ labels X.
Proof.
  destruct full_csv_preprocessed as (d & c & X & Y & Hpre).
  exists d, c, X, Y. split; [exact Hpre|].
  apply (X8_target_is_split_from_the_features parse_int full_csv d c X Y Hpre).
Defined.

Lemma X9_witness :
  ∃ d c, clean parse_int small_csv = Ok d ∧ one_hot d = Ok c
         ∧ Dummy "EDU" 0 ∉ labels c.
Proof.
  destruct small_csv_frames as (d & c & _ & _ & Hd & Hc & _).
  exists d, c. split; [exact Hd|]. split; [exact Hc|].
  exact (X9_no_indicator_column_for_education_0 parse_int small_csv d c Hd Hc).
Defined.

(** ** The number of features *)

Lemma length_filter_split {A} (P : A → Prop) `{∀ a, Decision (P a)}
    (l : list A) :
  length (filter P l) + length (filter (λ a, ¬ P a) l) = length l.
Proof.
  induction l as [|a l IH]; [done|]. rewrite !filter_cons.
  destruct (decide (P a)), (decide (¬ P a)); cbn; try lia; tauto.
Qed.

Lemma length_filter_label_cons {A} (n : label) (names : list label)
    (cols : list (label * list A)) :
  n ∉ names →
  length (filter (λ c, c.1 ∈ n :: names) cols)
  = length (filter (λ c, c.1 = n) cols)
    + length (filter (λ c, c.1 ∈ names) cols).
Proof.
  intros Hn. induction cols as [|c cols IH]; [done|]. rewrite !filter_cons.
  destruct (decide (c.1 ∈ n :: names)) as [Hin|Hin],
           (decide (c.1 = n)) as [Heq|Hne],
           (decide (c.1 ∈ names)) as [Hin'|Hin']; cbn; rewrite ?IH; try lia.
  all: exfalso; rewrite elem_of_cons in Hin; try tauto.
  destruct Hn. by rewrite <- Heq.
Qed.

Lemma length_filter_labels {A} (names : list label)
    (cols : list (label * list A)) :
  NoDup names →
  (∀ n, n ∈ names → length (filter (λ c, c.1 = n) cols) = 1) →
  length (filter (λ c, c.1 ∈ names) cols) = length names.
Proof.
  intros Hnd. induction Hnd as [|n names Hn Hnd IH]; intros Hone.
  - clear Hone. induction cols as [|c cols IHc]; [done|]. rewrite filter_cons.
    rewrite decide_False; [exact IHc|]. apply not_elem_of_nil.
  - rewrite length_filter_label_cons by done.
    rewrite IH by (intros; apply Hone; by right).
    rewrite Hone by left. done.
Qed.

Lemma length_bind_sum {A B} (f : A → list B) (l : list A) :
  length (l ≫= f) = sum_list_with (λ a, length (f a)) l.
Proof.
  induction l as [|a l IH]; [done|].
  by rewrite bind_cons, length_app, IH.
Qed.

Lemma filter_all {A} (P : A → Prop) `{∀ a, Decision (P a)} (l : list A) :
  Forall P l → filter P l = l.
Proof.
  induction 1 as [|a l Ha Hl IH]; [done|].
  by rewrite filter_cons, decide_True, IH.
Qed.

(** X10.  The number of features.  With one column labelled Y, the
    number of columns of [X] is the number of columns of the cleaned
    frame, less the nine encoded columns and the target, plus the number
    of distinct values in each of the nine encoded columns. *)
Theorem X10_number_of_features
    (d c X : DataFrame cell) (ycol : list cell) :
  one_hot d = Ok c → drop "Y" c = Ok X →
  column_of KeyError "Y" d = Ok ycol →
  length (columns X) + 10
  = length (columns d)
    + sum_list_with
        (λ name, match column_of KeyError name d with
                 | Ok col => length (levels col)
                 | Raise _ => 0
                 end) categorical.
Proof.
  intros Hc HX HY.
  pose proof (one_hot_keeps_column d c "Y" Hc) as HkeepY.
  apply get_dummies_Ok in Hc as (encoded & _ & Henc & _ & Hcols).
  unfold drop in HX. case_decide; [|done]. injection HX as <-.
  cbn [columns]. rewrite Hcols, filter_app, length_app.
  rewrite (filter_all _ (encoded ≫= _)).
  2:{ apply Forall_forall. intros [l col] Hin.
      apply list_elem_of_bind in Hin as (pc & Hin & _).
      by apply dummy_columns_elem in Hin as (v & _ & -> & _). }
  rewrite length_bind_sum.
  set (kept := filter (λ c0 : label * list cell, c0.1 ∉ Name <$> categorical)
                 (columns d)).
  assert (Hkept : length kept + 9 = length (columns d)).
  { rewrite <- (length_filter_split (λ c0 : label * list cell,
                                      c0.1 ∉ Name <$> categorical) (columns d)).
    f_equal.
    rewrite (list_filter_iff _ (λ c0, c0.1 ∈ Name <$> categorical)).
    2:{ intros c0. split; [apply dec_stable|by intros ? ?]. }
    rewrite length_filter_labels; [done| |].
    - apply (bool_decide_unpack _). by vm_compute.
    - intros n Hn. apply list_elem_of_fmap in Hn as (name & -> & Hname).
      apply list_elem_of_lookup in Hname as [i Hi].
      destruct (lookup_lt_is_Some_2 prefixes i) as [p Hp].
      { apply lookup_lt_Some in Hi. exact Hi. }
      assert (Hz : zip categorical prefixes !! i = Some (name, p)).
      { apply lookup_zip_with_Some. by exists name, p. }
      destruct (Forall2_lookup_l _ _ _ _ _ Henc Hz) as (pc & _ & _ & Hcol).
      apply column_of_Ok in Hcol. cbn [fst] in Hcol. by rewrite Hcol. }
  assert (HkeptY : length (filter (λ c0 : label * list cell,
                                     c0.1 ≠ Name "Y") kept) + 1
                   = length kept).
  { rewrite <- (length_filter_split (λ c0 : label * list cell,
                                      c0.1 ≠ Name "Y") kept).
    f_equal.
    rewrite (list_filter_iff _ (λ c0, c0.1 = Name "Y")).
    2:{ intros c0. split; [apply dec_stable|by intros ? ?]. }
    assert (Hy : filter (λ c0 : label * list cell, c0.1 = Name "Y")
                   (columns c) = [(Name "Y", ycol)]).
    { rewrite HkeepY; [by apply column_of_Ok in HY|].
      apply (bool_decide_unpack _). by vm_compute. }
    rewrite Hcols, filter_app in Hy.
    rewrite (filter_label_nil (Name "Y") (encoded ≫= _)) in Hy.
    - rewrite app_nil_r in Hy. fold kept in Hy. by rewrite Hy.
    - intros Hin. apply list_elem_of_fmap in Hin as ([l col] & Hl & Hin).
      apply list_elem_of_bind in Hin as (pc & Hin & _).
      by apply dummy_columns_elem in Hin as (v & _ & -> & _). }
  assert (Hsum : sum_list_with
                   (λ pc : string * list cell,
                      length (dummy_columns pc.1 pc.2)) encoded
                 = sum_list_with
                     (λ np : string * string,
                        match column_of KeyError np.1 d with
                        | Ok col => length (levels col)
                        | Raise _ => 0
                        end) (zip categorical prefixes)).
  { clear -Henc. induction Henc as [|np pc l k [_ Hcol] _ IH]; [done|].
    cbn [sum_list_with]. rewrite IH, Hcol.
    unfold dummy_columns. by rewrite length_fmap. }
  rewrite Hsum.
  change (sum_list_with _ (zip categorical prefixes))
    with (sum_list_with
            (λ name, match column_of KeyError name d with
                     | Ok col => length (levels col)
                     | Raise _ => 0
                     end) categorical).
  lia.
Qed.

Lemma X10_witness :
  ∃ d c X,
    clean parse_int small_csv = Ok d ∧ one_hot d = Ok c ∧ drop "Y" c = Ok X
    ∧ length (columns X) + 10
      = length (columns d)
        + sum_list_with
            (λ name, match column_of KeyError name d with
                     | Ok col => length (levels col)
                     | Raise _ => 0
                     end) categorical.
Proof.
  destruct small_csv_frames as (d & c & X & ycol & Hd & Hc & HX & HY & _).
  exists d, c, X. split; [exact Hd|]. split; [exact Hc|]. split; [exact HX|].
  exact (X10_number_of_features d c X ycol Hc HX HY).
Defined.

(** ** The rows that are kept *)

Lemma length_compress_filter {A B} (P : B → Prop) `{∀ b, Decision (P b)}
    (k : list B) (l : list A) :
  length l = length k →
  length (compress ((λ b, bool_decide (P b)) <$> k) l) = length (filter P k).
Proof.
  revert l. induction k as [|b k IH]; intros [|a l] Hlen; try done.
  cbn [fmap list_fmap compress]. rewrite filter_cons.
  injection Hlen as Hlen. case_bool_decide.
  - rewrite decide_True by done. cbn. by rewrite IH.
  - rewrite decide_False by done. by rewrite IH.
Qed.

Section Rows.
Variable to_numeric : string → option Z.

(** X11.  Which rows are kept, and what they hold.  The cleaned frame
    has the rows below the header row whose cell under the header
    EDUCATION does not convert to 0, in the order of the table; a row with
    no value there is kept.  Each of its columns holds, for these rows,
    what [pd.to_numeric] makes of the cells of the same column of the
    table. *)
Theorem X11_rows_with_education_0_are_removed
    (csv : DataFrame (option string)) (d : DataFrame cell) :
  well_formed csv → clean to_numeric csv = Ok d →
  ∃ lbl raw education,
    (lbl, Some "EDUCATION" :: raw) ∈ columns csv
    ∧ Forall2 (λ r v, to_numeric_cell to_numeric r = Ok v) raw education
    ∧ column_of AttributeError "EDUCATION" d
      = Ok (filter (λ v, v ≠ Some 0%Z) education)
    ∧ index d
      = compress ((λ v, bool_decide (v ≠ Some 0%Z)) <$> education)
          (tail (index csv))
    ∧ length (index d) = length (filter (λ v, v ≠ Some 0%Z) education)
    ∧ Forall2
        (λ c c', ∃ converted,
           Forall2 (λ r v, to_numeric_cell to_numeric r = Ok v)
             (tail c.2) converted
           ∧ c'.2 = compress ((λ v, bool_decide (v ≠ Some 0%Z)) <$> education)
                      converted)
        (columns csv) (columns d).
Proof.
  intros Hwf Hd.
  apply clean_Ok in Hd
    as (header & new_header & df1 & df2 & education & Hh & Hn & H1 & H2 & He
        & ->).
  apply iloc0_heads in Hh as Hheads. destruct Hheads as [Hi Hheads].
  assert (Hcols : columns csv ≠ []).
  { intros Hnil. rewrite Hnil in Hheads. by inv Hheads. }
  destruct (clean_header csv Hwf Hi Hcols)
    as (header' & new_header' & df1' & Hh' & Hcons & Hn' & H1' & Hlabels
        & Hcells & Hindex).
  rewrite Hh in Hh'. injection Hh' as <-.
  rewrite Hn in Hn'. injection Hn' as <-.
  rewrite H1 in H1'. injection H1' as <-.
  apply apply_to_numeric_Ok in H2 as Hnum. destruct Hnum as [Hindex2 Hnum].
  apply column_of_elem in He as Hin.
  apply list_elem_of_lookup in Hin as [i Hin].
  destruct (Forall2_lookup_r _ _ _ _ _ Hnum Hin) as (c1 & Hc1 & Hl1 & Hconv).
  cbn in Hl1, Hconv.
  assert (Hlbl : labels df1 !! i = Some (Name "EDUCATION")).
  { unfold labels. by rewrite list_lookup_fmap, Hc1, Hl1. }
  assert (Hraw : (columns df1).*2 !! i = Some c1.2).
  { by rewrite list_lookup_fmap, Hc1. }
  rewrite Hlabels in Hlbl. rewrite Hcells in Hraw.
  rewrite <- list_fmap_compose, list_lookup_fmap in Hraw.
  destruct (columns csv !! i) as [[lbl col]|] eqn:Hcsv; [|done].
  cbn in Hraw. injection Hraw as Hraw.
  destruct (set_last_lookup _ _ _ _ _ Hn Hlbl) as [|[Hhd _]]; [done|].
  rewrite list_lookup_fmap in Hhd.
  destruct (header !! i) as [h|] eqn:Hhi; [|done].
  destruct h as [s|]; [|done]. cbn in Hhd. injection Hhd as ->.
  destruct (Forall2_lookup_l _ _ _ _ _ Hcons Hcsv) as (h & Hh2 & Hcol).
  rewrite Hhi in Hh2. injection Hh2 as <-. cbn in Hcol.
  exists lbl, (tail col), education.
  split; [rewrite <- Hcol; by eapply list_elem_of_lookup_2|].
  split; [by rewrite Hraw|].
  assert (Hlen : length (tail (index csv)) = length education).
  { rewrite <- (Forall2_length _ _ _ Hconv), <- Hraw.
    apply list_elem_of_lookup_2 in Hcsv.
    pose proof (proj1 (Forall_forall _ _) Hwf _ Hcsv) as Hlen. cbn in Hlen.
    clear -Hlen. destruct col, (index csv); cbn in *; lia. }
  split.
  { rewrite (column_of_select_rows _ _ _ _ _ He). f_equal.
    clear. induction education as [|v l IH]; [done|].
    cbn [fmap list_fmap compress]. rewrite filter_cons.
    case_bool_decide as Hv;
      [rewrite decide_True by exact Hv|rewrite decide_False by (intros Hne; by apply Hne)];
      by rewrite IH. }
  cbn [select_rows index columns]. rewrite Hindex2, Hindex. split; [done|].
  split; [by apply length_compress_filter|].
  apply Forall2_fmap_r.
  apply Forall2_same_length_lookup_2.
  { apply Forall2_length in Hnum. rewrite <- Hnum.
    apply (f_equal length) in Hcells. by rewrite !length_fmap in Hcells. }
  intros j c0 c2 Hc0 Hc2. cbn [snd].
  destruct (Forall2_lookup_r _ _ _ _ _ Hnum Hc2) as (c1' & Hc1' & _ & Hconv').
  exists c2.2. split; [|done].
  assert (Hraw' : (columns df1).*2 !! j = Some c1'.2).
  { by rewrite list_lookup_fmap, Hc1'. }
  rewrite Hcells, <- list_fmap_compose, list_lookup_fmap, Hc0 in Hraw'.
  cbn in Hraw'. injection Hraw' as Hraw'. by rewrite Hraw'.
Qed.

(** X22.  The column labels of the cleaned frame are the cells of the
    first row of the table, with the last one replaced by Y; the labels
    the table came with are gone, and the call of [rename], whose result
    is dropped, has no part in it. *)
Theorem X22_labels_are_the_first_row
    (csv : DataFrame (option string)) (d : DataFrame cell) :
  clean to_numeric csv = Ok d →
  ∃ header,
    Forall2 (λ c h, head c.2 = Some h) (columns csv) header
    ∧ labels d = <[pred (length header) := Name "Y"]> (as_label <$> header).
Proof.
  intros Hd.
  apply clean_Ok in Hd
    as (header & new_header & df1 & df2 & education & Hh & Hn & H1 & H2 & He
        & ->).
  exists header. apply iloc0_heads in Hh as [_ Hheads]. split; [done|].
  rewrite labels_select_rows, (labels_apply_to_numeric _ _ _ H2).
  apply set_columns_Ok in H1 as (-> & _).
  unfold set_last in Hn. rewrite <- (length_fmap as_label).
  by destruct (as_label <$> header); [|injection Hn as <-].
Qed.

End Rows.

Lemma X22_witness :
  ∃ d header,
    clean parse_int small_csv = Ok d
    ∧ labels d = <[pred (length header) := Name "Y"]> (as_label <$> header).
Proof.
  destruct small_csv_frames as (d & _ & _ & _ & Hd & _).
  destruct (X22_labels_are_the_first_row parse_int small_csv d Hd)
    as (header & _ & Hlabels).
  by exists d, header.
Defined.

Lemma X11_witness :
  ∃ d education,
    clean parse_int small_csv = Ok d
    ∧ column_of AttributeError "EDUCATION" d
      = Ok (filter (λ v, v ≠ Some 0%Z) education)
    ∧ length (index d) = length (filter (λ v, v ≠ Some 0%Z) education).
Proof.
  destruct small_csv_frames as (d & _ & _ & _ & Hd & _).
  destruct (X11_rows_with_education_0_are_removed parse_int small_csv d
              small_csv_well_formed Hd)
    as (lbl & raw & education & _ & _ & Hedu & _ & Hlen & _).
  by exists d, education.
Defined.

(** * Further properties of the graph cells *)

(** A cell that ends, and a cell that stops with an exception, on an
    explicit state. *)
Ltac cell_ends :=
  match goal with
  | |- ?c ?st = _ =>
      let H := fresh "Hcell" in
      destruct (c st) as [[? ?]|?] eqn:H; run_in H;
      [ apply Ok_pair_inv in H as [<- <-]; reflexivity | discriminate H ]
  end.

Ltac cell_raises :=
  match goal with
  | |- ?c ?st = _ =>
      let H := fresh "Hcell" in
      destruct (c st) as [[? ?]|?] eqn:H; run_in H;
      [ discriminate H | by injection H as <- ]
  end.

Section Order.
Variable tn : nat → nat → nat → Q → tensor R.
Variable gd :
  Q → Tensor R → list nat → gmap nat (ndarray cell) →
  gmap nat (tensor R) → gmap nat (tensor R).

(** X12.  Run before the first cell, when [X] is not bound yet, the cell
    that counts the columns and each of the three graph cells stop with a
    [NameError]. *)
Theorem X12_cells_need_X (st : state) :
  g_X st = None →
  cell_num_columns st = Raise NameError
  ∧ Forall (λ cell : M model, cell st = Raise NameError) (graph_cells tn gd)
  ∧ later_cells tn gd st = Raise NameError.
Proof.
  intros HX. destruct st as [d c X Y lr ep gs k g ns tr r].
  cbn [g_X] in HX. subst X.
  split; [reflexivity|]. split; [|reflexivity].
  repeat constructor.
Qed.

(** X13.  What a graph cell takes from the cells before it.  The first
    graph cell binds [learning_rate] itself and leaves it bound.  The
    second reads it: it stops with a [NameError] when no cell has bound
    it, and its optimizer has the rate that is bound, whatever it is.
    The third stops with a [NameError] when [learning_rate] or [epochs]
    is not bound. *)
Theorem X13_cells_read_the_hyperparameters (st : state) (X : DataFrame cell) :
  g_X st = Some X →
  (∃ m st', cell_graph1 tn st = Ok (m, st')
            ∧ train_rate (optimizer m) = (1 # 10000)%Q
            ∧ g_learning_rate st' = Some (1 # 10000)%Q)
  ∧ (g_learning_rate st = None → cell_graph2 tn st = Raise NameError)
  ∧ (∀ lr, g_learning_rate st = Some lr →
       ∃ m st', cell_graph2 tn st = Ok (m, st')
                ∧ train_rate (optimizer m) = lr
                ∧ g_learning_rate st' = Some lr)
  ∧ (g_learning_rate st = None ∨ g_epochs st = None →
     cell_graph3 tn gd st = Raise NameError).
Proof.
  intros HX. destruct st as [d c X' Y lr ep gs k g ns tr r].
  cbn [g_X g_learning_rate g_epochs] in *. subst X'.
  split.
  { eexists _, _. split; [cell_ends|]. split; reflexivity. }
  split; [intros ->; cell_raises|].
  split.
  { intros lr' [= ->]. eexists _, _. split; [cell_ends|].
    split; reflexivity. }
  intros [-> | ->]; [cell_raises|].
  destruct lr as [lr|]; cell_raises.
Qed.

Lemma misfit_feed (g : graph) (iy : nat) (Y : ndarray cell)
    (feed : gmap nat (ndarray cell)) :
  op <$> g !! iy = Some (Placeholder [None; Some 1]) →
  (shape Y).2 ≠ 1 →
  forallb (fits_placeholder g) (map_to_list (<[iy := Y]> feed)) = false.
Proof.
  intros Hy HY. apply not_true_is_false. intros Hfits.
  apply Is_true_true, forallb_True in Hfits.
  assert (Hin : (iy, Y) ∈ map_to_list (<[iy := Y]> feed)).
  { apply elem_of_map_to_list, lookup_insert_eq. }
  pose proof (proj1 (Forall_forall _ _) Hfits _ Hin) as Hfit.
  unfold fits_placeholder in Hfit. cbn [fst snd] in Hfit.
  rewrite Hy in Hfit. cbn in Hfit.
  destruct (shape Y).2 as [|[|k]]; cbn in Hfit; done.
Qed.

Lemma train_step_misfit (x y : Tensor R) (opt : train_op)
    (X : DataFrame cell) (Y : ndarray cell) (g : graph) (e : nat)
    (sess : session) (st : state) :
  g_X st = Some X → g_Y st = Some Y →
  graph_of st (sess_graph sess) = Some g →
  op <$> g !! t_id y = Some (Placeholder [None; Some 1]) →
  (shape Y).2 ≠ 1 →
  train_step gd x y opt e sess st = Raise ValueError.
Proof.
  intros HX HY Hg Hy Hshape.
  unfold train_step, global, mbind, M_bind. rewrite HX, HY.
  unfold run_train, mbind, M_bind, get. rewrite Hg. cbn [mret M_ret].
  by rewrite misfit_feed.
Qed.

Lemma for_each_raises {A S} (body : A → S → M S) (a : A) (l : list A)
    (s : S) (st : state) (e : exn) :
  body a s st = Raise e → for_each (a :: l) body s st = Raise e.
Proof. intros H. cbn [for_each]. unfold mbind, M_bind. by rewrite H. Qed.

(** X14.  Why [Y] is reshaped.  When the array bound to [Y] has another
    number of columns than one, it does not fit the placeholder of the
    labels, and the third graph cell stops with a [ValueError] at the
    first run of the optimizer, if [epochs] is not 0. *)
Theorem X14_training_needs_one_column_of_labels
    (st : state) (X : DataFrame cell) (Y : ndarray cell) (lr : Q) (n : nat) :
  g_X st = Some X → g_Y st = Some Y →
  g_learning_rate st = Some lr → g_epochs st = Some n →
  0 < n → (shape Y).2 ≠ 1 →
  cell_graph3 tn gd st = Raise ValueError.
Proof.
  intros HX HY Hlr Hep Hn Hshape.
  destruct st as [d c X' Y' lr' ep gs k g ns tr r].
  cbn [g_X g_Y g_learning_rate g_epochs] in *. subst X' Y' lr' ep.
  destruct n as [|n]; [lia|].
  match goal with
  | |- ?c ?st = _ =>
      destruct (c st) as [[? ?]|?] eqn:H; run_in H
  end.
  all: change (seq 0 (S n)) with (0 :: seq 1 n) in H.
  all: erewrite for_each_raises in H;
    [ | eapply train_step_misfit;
        [reflexivity|reflexivity|apply graph_of_default|reflexivity
        |exact Hshape] ].
  all: run_in H.
  - discriminate H.
  - by injection H as <-.
Qed.

(** The third graph cell on an explicit state with [X], [Y] of one
    column and the hyperparameters bound. *)
Ltac cell_trains Hshape :=
  match goal with
  | |- ?c ?st = _ =>
      let H := fresh "Hcell" in
      destruct (c st) as [[? ?]|?] eqn:H;
      run_in H; run_loop Hshape H;
      [ apply Ok_pair_inv in H as [<- <-]; reflexivity | discriminate H ]
  end.

(** X15.  The training loop has no other exit than its count: with [Y]
    of one column and as many rows as [X] the third graph cell ends after
    exactly [epochs] runs of the optimizer, each on the whole of [X] and [Y] and at the rate
    bound to [learning_rate], whatever the two hyperparameters are; with
    [epochs] 0 the variables keep their initial values.  [X] and [Y] are
    left as they are. *)
Theorem X15_training_runs_epochs_times
    (st : state) (X : DataFrame cell) (Y : ndarray cell) (lr : Q) (n : nat) :
  g_X st = Some X → g_Y st = Some Y →
  g_learning_rate st = Some lr → g_epochs st = Some n →
  (shape Y).2 = 1 →
  (0 < n → (shape Y).1 = length (index X)) →
  ∃ m st' init,
    let feed := <[t_id (y_labels m) := Y]> (<[t_id (x m) := as_matrix X]> ∅) in
    cell_graph3 tn gd st = Ok (m, st')
    ∧ runs_of (trace st')
      = replicate n (mkRun (sess_graph (sess m)) (train_id (optimizer m)) feed)
        ++ [init] ++ runs_of (trace st)
    ∧ train_rate (optimizer m) = lr
    ∧ sess_vars (sess m)
      = Nat.iter n
          (gd lr (cost m) [t_id (W m); t_id (b m)] feed)
          (<[t_id (b m) := Vec [0%R]]>
             (<[t_id (W m)
                := tn (rng_calls st) (length (columns X)) 1 (1 # 10)%Q]> ∅))
    ∧ g_X st' = Some X ∧ g_Y st' = Some Y.
Proof.
  intros HX HY Hlr Hep Hshape Hrows.
  destruct st as [d c X' Y' lr' ep gs k g ns tr r].
  cbn [g_X g_Y g_learning_rate g_epochs] in *. subst X' Y' lr' ep.
  eexists _, _, _. cbv zeta. split; [cell_trains Hshape|].
  split.
  { cbn [trace]. by rewrite iter_cons_replicate, runs_of_replicate_app. }
  repeat split.
Qed.

(** X16.  The summaries are built and merged but never run.  The graph
    of the third cell has a merge node over three summary nodes, the
    histogram Weights and the scalars Bias and Cost; every session run of
    the cell fetches the initializer or the optimizer, and what the cell
    writes is the graph, twice. *)
Theorem X16_summaries_are_never_run
    (st : state) (X : DataFrame cell) (Y : ndarray cell) (lr : Q) (n : nat) :
  g_X st = Some X → g_Y st = Some Y →
  g_learning_rate st = Some lr → g_epochs st = Some n →
  (shape Y).2 = 1 →
  (0 < n → (shape Y).1 = length (index X)) →
  ∃ m st' g merged nd new,
    cell_graph3 tn gd st = Ok (m, st')
    ∧ graph_of st' (sess_graph (sess m)) = Some g
    ∧ g !! merged = Some nd
    ∧ op nd = MergeSummary
    ∧ (λ j, op <$> g !! j) <$> inputs nd
      = [Some (HistogramSummary "Weights"); Some (ScalarSummary "Bias");
         Some (ScalarSummary "Cost")]
    ∧ length (filter (λ nd', is_summary nd' = true) g) = 3
    ∧ runs_of (trace st') = new ++ runs_of (trace st)
    ∧ Forall (λ r, ∃ nd', g !! run_fetch r = Some nd'
                          ∧ (op nd' = InitAll ∨ op nd' = GradientDescent lr))
        new
    ∧ writes_of (trace st')
      = [("./logs/4", g); ("./logs/4", g)] ++ writes_of (trace st).
Proof.
  intros HX HY Hlr Hep Hshape Hrows.
  destruct st as [d c X' Y' lr' ep gs k g ns tr r].
  cbn [g_X g_Y g_learning_rate g_epochs] in *. subst X' Y' lr' ep.
  eexists _, _, _, 18, _, _. split; [cell_trains Hshape|].
  split; [apply graph_of_default|].
  split; [reflexivity|]. split; [reflexivity|]. split; [reflexivity|].
  split; [reflexivity|].
  split.
  { cbn [trace]. rewrite iter_cons_replicate, runs_of_replicate_app.
    match goal with
    | |- context [runs_of (?w1 :: ?w2 :: Ran ?i :: ?o :: tr)] =>
        change (runs_of (w1 :: w2 :: Ran i :: o :: tr))
          with ([i] ++ runs_of tr)
    end.
    rewrite app_assoc. reflexivity. }
  split.
  { apply Forall_app. split.
    - apply Forall_replicate. eexists. split; [reflexivity|]. by right.
    - repeat constructor. eexists. split; [reflexivity|]. by left. }
  cbn [trace]. by rewrite iter_cons_replicate, writes_of_replicate_app.
Qed.

End Order.

(** * Further properties of the three graphs *)

(** The cells are run on [X] and [Y] as the first cell leaves them: [Y]
    has one column and a row for each row of [X]. *)
Section Graphs.
Variable tn : nat → nat → nat → Q → tensor R.
Variable gd :
  Q → Tensor R → list nat → gmap nat (ndarray cell) →
  gmap nat (tensor R) → gmap nat (tensor R).

(** X17.  Name scopes.  The first graph has all its nodes at the top
    level.  In the second and the third graph the weights and the bias
    are under Linear_Output, the output under Logits, the cost under Cost
    and the optimizer under Train (and the accuracy of the second under
    Accuracy), while the two placeholders, created between the scoped
    blocks, are at the top level; every node is under one of these scopes
    or under none.  After the cells the open name scopes are what they
    were. *)
Theorem X17_name_scopes (st : state) (X : DataFrame cell) (Y : ndarray cell) :
  g_X st = Some X → g_Y st = Some Y → (shape Y).2 = 1 →
  (shape Y).1 = length (index X) →
  let ns := name_scope st in
  let scoped (g : graph) (m : model) :=
    scope <$> g !! t_id (x m) = Some ns
    ∧ scope <$> g !! t_id (W m) = Some ("Linear_Output" :: ns)
    ∧ scope <$> g !! t_id (b m) = Some ("Linear_Output" :: ns)
    ∧ scope <$> g !! t_id (logits m) = Some ("Logits" :: ns)
    ∧ scope <$> g !! t_id (y_labels m) = Some ns
    ∧ scope <$> g !! t_id (cost m) = Some ("Cost" :: ns)
    ∧ scope <$> g !! train_id (optimizer m) = Some ("Train" :: ns)
    ∧ Forall (λ nd, scope nd ∈ [ns; "Linear_Output" :: ns; "Logits" :: ns;
                                "Cost" :: ns; "Train" :: ns;
                                "Accuracy" :: ns]) g in
  ∃ m1 m2 m3 st' g1 g2 g3 acc,
    later_cells tn gd st = Ok ([m1; m2; m3], st')
    ∧ graph_of st' (sess_graph (sess m1)) = Some g1
    ∧ graph_of st' (sess_graph (sess m2)) = Some g2
    ∧ graph_of st' (sess_graph (sess m3)) = Some g3
    ∧ name_scope st' = ns
    ∧ Forall (λ nd, scope nd = ns) g1
    ∧ scoped g2 m2 ∧ scoped g3 m3
    ∧ accuracy m2 = Some acc
    ∧ scope <$> g2 !! t_id acc = Some ("Accuracy" :: ns)
    ∧ Forall (λ nd, scope nd ≠ "Accuracy" :: ns) g3.
Proof.
  intros HX HY Hshape Hrows ns scoped. subst ns scoped.
  open_state st HX HY. cbn [name_scope].
  eexists _, _, _, _, _, _, _, _. split; [run_later Hshape|].
  split.
  { cbn [sess sess_graph]. rewrite graph_of_older by lia.
    rewrite lookup_insert_ne by lia. apply lookup_insert_eq. }
  split.
  { cbn [sess sess_graph]. rewrite graph_of_older by lia.
    apply lookup_insert_eq. }
  split; [apply graph_of_default|].
  split; [reflexivity|].
  split; [by repeat constructor|].
  split.
  { do 7 (split; [reflexivity|]).
    repeat (constructor; [set_solver|]). constructor. }
  split.
  { do 7 (split; [reflexivity|]).
    repeat (constructor; [set_solver|]). constructor. }
  split; [reflexivity|]. split; [reflexivity|].
  repeat (constructor;
          [cbn [scope]; intros Heq;
           first [ apply (f_equal length) in Heq; cbn in Heq; lia
                 | by injection Heq ]|]).
  constructor.
Qed.

(** X18.  Each of the three graphs is closed: a node consumes only nodes
    created before it in the same graph, and the nodes that the names of
    the cell are bound to are nodes of the graph of the cell. *)
Theorem X18_graphs_are_closed (st : state) (X : DataFrame cell)
    (Y : ndarray cell) :
  g_X st = Some X → g_Y st = Some Y → (shape Y).2 = 1 →
  (shape Y).1 = length (index X) →
  ∃ m1 m2 m3 st' g1 g2 g3,
    later_cells tn gd st = Ok ([m1; m2; m3], st')
    ∧ graph_of st' (sess_graph (sess m1)) = Some g1
    ∧ graph_of st' (sess_graph (sess m2)) = Some g2
    ∧ graph_of st' (sess_graph (sess m3)) = Some g3
    ∧ Forall (λ g : graph,
                ∀ i nd, g !! i = Some nd → Forall (λ j, j < i) (inputs nd))
        [g1; g2; g3]
    ∧ Forall (λ mg : model * graph,
                Forall (λ i, i < length mg.2)
                  [t_id (x mg.1); t_id (W mg.1); t_id (b mg.1);
                   t_id (logits mg.1); t_id (y_labels mg.1);
                   t_id (cost mg.1); train_id (optimizer mg.1)])
        [(m1, g1); (m2, g2); (m3, g3)].
Proof.
  intros HX HY Hshape Hrows.
  open_state st HX HY.
  eexists _, _, _, _, _, _, _. split; [run_later Hshape|].
  split.
  { cbn [sess sess_graph]. rewrite graph_of_older by lia.
    rewrite lookup_insert_ne by lia. apply lookup_insert_eq. }
  split.
  { cbn [sess sess_graph]. rewrite graph_of_older by lia.
    apply lookup_insert_eq. }
  split; [apply graph_of_default|].
  split.
  - repeat constructor.
    all: intros i nd Hi.
    all: repeat (destruct i as [|i];
                 [injection Hi as <-; repeat constructor; lia|]).
    all: done.
  - repeat constructor; cbn; lia.
Qed.

(** X23.  The second graph is the first one under other names: node by
    node the two have the same operation with the same attributes on the
    same inputs, and the names of the two cells are bound to the same
    nodes; only the names and the scopes of the nodes differ.  Summary
    nodes are in the third graph only. *)
Theorem X23_second_graph_is_the_first_renamed (st : state)
    (X : DataFrame cell) (Y : ndarray cell) :
  g_X st = Some X → g_Y st = Some Y → (shape Y).2 = 1 →
  (shape Y).1 = length (index X) →
  ∃ m1 m2 m3 st' g1 g2 g3,
    later_cells tn gd st = Ok ([m1; m2; m3], st')
    ∧ graph_of st' (sess_graph (sess m1)) = Some g1
    ∧ graph_of st' (sess_graph (sess m2)) = Some g2
    ∧ graph_of st' (sess_graph (sess m3)) = Some g3
    ∧ (λ nd, (op nd, inputs nd)) <$> g1 = (λ nd, (op nd, inputs nd)) <$> g2
    ∧ (λ m, [t_id (x m); t_id (W m); t_id (b m); t_id (logits m);
             t_id (y_labels m); t_id (cost m); train_id (optimizer m)]) m1
      = (λ m, [t_id (x m); t_id (W m); t_id (b m); t_id (logits m);
               t_id (y_labels m); t_id (cost m); train_id (optimizer m)]) m2
    ∧ t_id <$> accuracy m1 = t_id <$> accuracy m2
    ∧ name <$> g1 ≠ name <$> g2
    ∧ has_kind g1 KSummary = false ∧ has_kind g2 KSummary = false
    ∧ has_kind g3 KSummary = true
    ∧ length g3 = length g1 - 1.
Proof.
  intros HX HY Hshape Hrows.
  open_state st HX HY.
  eexists _, _, _, _, _, _, _. split; [run_later Hshape|].
  split.
  { cbn [sess sess_graph]. rewrite graph_of_older by lia.
    rewrite lookup_insert_ne by lia. apply lookup_insert_eq. }
  split.
  { cbn [sess sess_graph]. rewrite graph_of_older by lia.
    apply lookup_insert_eq. }
  split; [apply graph_of_default|].
  split; [reflexivity|]. split; [reflexivity|]. split; [reflexivity|].
  split; [by intros [=]|].
  repeat split; vm_compute; reflexivity.
Qed.

End Graphs.

(** * Further properties of the cost and of the placeholders *)

Section CostFacts.
Local Open Scope R_scope.

Lemma ln_sigmoid_negative (z : R) : ln (Op.sigmoid_fn z) < 0.
Proof.
  destruct (sigmoid_fn_bounds z) as [H0 H1].
  rewrite <- ln_1. by apply ln_increasing.
Qed.

Lemma sigmoid_fn_monotone (z z' : R) :
  z <= z' → Op.sigmoid_fn z <= Op.sigmoid_fn z'.
Proof.
  intros Hz. unfold Op.sigmoid_fn.
  pose proof (exp_pos (- z)) as H1. pose proof (exp_pos (- z')) as H2.
  assert (Hexp : exp (- z') <= exp (- z)).
  { destruct Hz as [Hlt| ->]; [|lra]. left. apply exp_increasing. lra. }
  apply Rmult_le_reg_r with (r := (1 + exp (- z)) * (1 + exp (- z'))).
  { apply Rmult_lt_0_compat; lra. }
  field_simplify; lra.
Qed.

Lemma ln_sigmoid_monotone (z z' : R) :
  z <= z' → ln (Op.sigmoid_fn z) <= ln (Op.sigmoid_fn z').
Proof.
  intros Hz. destruct (sigmoid_fn_bounds z) as [H0 _].
  destruct (sigmoid_fn_monotone z z' Hz) as [Hlt| ->]; [|lra].
  left. by apply ln_increasing.
Qed.

Lemma weighted_sum_sign (g : list R → R) (ys : list R) (xs : list (list R)) :
  (∀ row, g row < 0) → length ys = length xs →
  Forall (λ y, 0 <= y) ys →
  0 <= - Op.sum_list (zip_with (λ y row, y * g row) ys xs)
  ∧ (- Op.sum_list (zip_with (λ y row, y * g row) ys xs) = 0
     ↔ Forall (λ y, y = 0) ys).
Proof.
  intros Hg. revert xs. unfold Op.sum_list.
  induction ys as [|y ys IH]; intros [|row xs] Hlen Hys; try done.
  - cbn. split; [lra|]. split; [constructor|lra].
  - injection Hlen as Hlen. apply Forall_cons in Hys as [Hy Hys].
    destruct (IH xs Hlen Hys) as [Hsum Hzero].
    cbn [zip_with foldr] in *.
    pose proof (Hg row) as Hrow.
    assert (Hterm : y * g row <= 0) by nra.
    split; [lra|]. split.
    + intros Hs. assert (Hy0 : y = 0) by nra.
      constructor; [done|]. apply Hzero. subst y. lra.
    + intros Hall. apply Forall_cons in Hall as [-> Hall].
      apply Hzero in Hall. lra.
Qed.

Lemma weighted_sum_monotone (g g' : list R → R) (ys : list R)
    (xs : list (list R)) :
  (∀ row, g row <= g' row) → Forall (λ y, 0 <= y) ys →
  - Op.sum_list (zip_with (λ y row, y * g' row) ys xs)
  <= - Op.sum_list (zip_with (λ y row, y * g row) ys xs).
Proof.
  intros Hg. revert xs. unfold Op.sum_list.
  induction ys as [|y ys IH]; intros [|row xs] Hys; cbn; try lra.
  apply Forall_cons in Hys as [Hy Hys]. specialize (IH xs Hys).
  pose proof (Hg row). nra.
Qed.

End CostFacts.

Section Cost.
Variable tn : nat → nat → nat → Q → tensor R.
Variable gd :
  Q → Tensor R → list nat → gmap nat (ndarray cell) →
  gmap nat (tensor R) → gmap nat (tensor R).

(** X19.  With labels that are not negative the cost of each of the
    three graphs is not negative, and it is 0 exactly when every label of
    the batch is 0, whatever the rows, the weights and the bias are. *)
Theorem X19_cost_is_zero_only_without_positive_labels
    (cell : M model) st m st' X xs ys w b0 feed vars :
  cell ∈ graph_cells tn gd →
  cell st = Ok (m, st') →
  g_X st = Some X →
  Forall (λ row, length row = length (columns X)) xs →
  length w = length (columns X) →
  length ys = length xs →
  feed !! t_id (x m) = Some (Mat (length (columns X)) xs) →
  feed !! t_id (y_labels m) = Some (Mat 1 ((λ v, [v]) <$> ys)) →
  vars !! t_id (W m) = Some (Mat 1 ((λ v, [v]) <$> w)) →
  vars !! t_id (b m) = Some (Vec [b0]) →
  Forall (λ y, (0 <= y)%R) ys →
  ∃ c, t_eval (cost m) (mkEnv feed vars) = Some (Scalar c)
       ∧ (0 <= c)%R
       ∧ (c = 0%R ↔ Forall (λ y, y = 0%R) ys).
Proof.
  intros Hcell Hrun HX Hxs Hw Hys Hfx Hfy HvW Hvb Hpos.
  destruct st as [d c X' Y lr ep gs k g ns tr r]. cbn [g_X] in HX. subst X'.
  unfold graph_cells in Hcell.
  invert_run Hcell Hrun; cbn [t_id x W b y_labels cost t_eval] in *.
  all: eexists; split; [by eapply eval_cost|].
  all: apply (weighted_sum_sign
                (λ row, ln (Op.sigmoid_fn (Op.dot row w + b0)))); [|done|done].
  all: intros row; apply ln_sigmoid_negative.
Qed.

(** X20.  The cost has no term for the labels that are 0, so a larger
    bias never gives a larger cost: with labels that are not negative,
    the same rows and the same weights, the cost at a bias [b1] is at most
    the cost at any smaller bias [b0]. *)
Theorem X20_cost_never_grows_with_the_bias
    (cell : M model) st m st' X xs ys w b0 b1 feed vars :
  cell ∈ graph_cells tn gd →
  cell st = Ok (m, st') →
  g_X st = Some X →
  Forall (λ row, length row = length (columns X)) xs →
  length w = length (columns X) →
  length ys = length xs →
  feed !! t_id (x m) = Some (Mat (length (columns X)) xs) →
  feed !! t_id (y_labels m) = Some (Mat 1 ((λ v, [v]) <$> ys)) →
  vars !! t_id (W m) = Some (Mat 1 ((λ v, [v]) <$> w)) →
  Forall (λ y, (0 <= y)%R) ys →
  (b0 <= b1)%R →
  ∃ c0 c1,
    t_eval (cost m) (mkEnv feed (<[t_id (b m) := Vec [b0]]> vars))
    = Some (Scalar c0)
    ∧ t_eval (cost m) (mkEnv feed (<[t_id (b m) := Vec [b1]]> vars))
      = Some (Scalar c1)
    ∧ (c1 <= c0)%R.
Proof.
  intros Hcell Hrun HX Hxs Hw Hys Hfx Hfy HvW Hpos Hb.
  destruct st as [d c X' Y lr ep gs k g ns tr r]. cbn [g_X] in HX. subst X'.
  unfold graph_cells in Hcell.
  invert_run Hcell Hrun; cbn [t_id x W b y_labels cost t_eval] in *.
  all: eexists _, _.
  all: split;
    [eapply eval_cost; cbn [feed_dict variables];
       [done|by rewrite lookup_insert_ne by lia|apply lookup_insert_eq
       |done..]|].
  all: split;
    [eapply eval_cost; cbn [feed_dict variables];
       [done|by rewrite lookup_insert_ne by lia|apply lookup_insert_eq
       |done..]|].
  all: apply (weighted_sum_monotone
                (λ row, ln (Op.sigmoid_fn (Op.dot row w + b0)))
                (λ row, ln (Op.sigmoid_fn (Op.dot row w + b1)))); [|done].
  all: intros row; apply ln_sigmoid_monotone; lra.
Qed.

Lemma eval_placeholder_rejects (nf i : nat) (e : env) :
  feed_dict e !! i = None
  ∨ (∃ c xs, feed_dict e !! i = Some (Mat c xs) ∧ c ≠ nf) →
  eval_placeholder [None; Some nf] i e = None.
Proof.
  unfold eval_placeholder. intros [->|(c & xs & -> & Hc)]; [done|].
  cbn. apply Nat.eqb_neq in Hc. rewrite Nat.eqb_sym in Hc. by rewrite Hc.
Qed.

(** X21.  The placeholder of the inputs has the width [len(list(X))]:
    when nothing is fed for it, or a matrix of another width, neither the
    output nor the cost nor the accuracy of any of the three graphs can be
    evaluated, whatever is fed for the labels and whatever the variables
    hold. *)
Theorem X21_inputs_must_have_the_width_of_X
    (cell : M model) st m st' X feed vars :
  cell ∈ graph_cells tn gd →
  cell st = Ok (m, st') →
  g_X st = Some X →
  feed !! t_id (x m) = None
  ∨ (∃ c xs, feed !! t_id (x m) = Some (Mat c xs) ∧ c ≠ length (columns X)) →
  t_eval (logits m) (mkEnv feed vars) = None
  ∧ t_eval (cost m) (mkEnv feed vars) = None
  ∧ ∀ acc, accuracy m = Some acc → t_eval acc (mkEnv feed vars) = None.
Proof.
  intros Hcell Hrun HX Hfeed.
  destruct st as [d c X' Y lr ep gs k g ns tr r]. cbn [g_X] in HX. subst X'.
  unfold graph_cells in Hcell.
  invert_run Hcell Hrun; cbn [t_id x logits cost accuracy t_eval] in *.
  all: unfold eval_unary, eval_binary.
  all: match goal with
       | |- context [eval_placeholder ?s 0 ?e] =>
           assert (Hrej : eval_placeholder s 0 e = None)
             by (apply eval_placeholder_rejects; exact Hfeed)
       end.
  all: split; [unfold eval_unary, eval_binary; rewrite Hrej; reflexivity|].
  all: split.
  all: try (intros acc [= <-]; cbn [t_eval]).
  all: try done.
  all: unfold eval_unary, eval_binary; rewrite Hrej; cbn [mbind option_bind].
  all: try reflexivity; destruct (eval_placeholder [None; Some 1] _ _); reflexivity.
Qed.

End Cost.

Lemma X12_witness :
  cell_num_columns initial_state = Raise NameError
  ∧ later_cells zero_init keep_values initial_state = Raise NameError.
Proof.
  destruct (X12_cells_need_X zero_init keep_values initial_state eq_refl)
    as (Hnum & _ & Hlater).
  split; [exact Hnum|exact Hlater].
Defined.

Lemma X13_witness :
  cell_graph2 zero_init small_state = Raise NameError
  ∧ cell_graph3 zero_init keep_values small_state = Raise NameError.
Proof.
  destruct (X13_cells_read_the_hyperparameters zero_init keep_values
              small_state small_X eq_refl) as (_ & H2 & _ & H3).
  split; [exact (H2 eq_refl)|apply H3; by left].
Defined.

Lemma X14_witness :
  cell_graph3 zero_init keep_values
    (set_epochs 1 (set_learning_rate (1 # 10000)
       (set_Y (mkArray (2, 2) [[Some 1; Some 0]; [Some 0; Some 1]]%Z)
          small_state)))
  = Raise ValueError.
Proof.
  eapply (X14_training_needs_one_column_of_labels zero_init keep_values);
    [reflexivity|reflexivity|reflexivity|reflexivity|lia|cbn; lia].
Defined.

Lemma X15_witness :
  ∃ m st',
    cell_graph3 zero_init keep_values
      (set_epochs 3 (set_learning_rate (1 # 2) small_state)) = Ok (m, st')
    ∧ length (runs_of (trace st')) = 4
    ∧ train_rate (optimizer m) = (1 # 2)%Q.
Proof.
  destruct (X15_training_runs_epochs_times zero_init keep_values
              (set_epochs 3 (set_learning_rate (1 # 2) small_state))
              small_X small_Y (1 # 2) 3 eq_refl eq_refl eq_refl eq_refl
              eq_refl (λ _, eq_refl))
    as (m & st' & init & Hrun & Hruns & Hrate & _).
  exists m, st'. split; [exact Hrun|]. split; [|exact Hrate].
  rewrite Hruns. reflexivity.
Defined.

Lemma X16_witness :
  ∃ m st',
    cell_graph3 zero_init keep_values
      (set_epochs 2 (set_learning_rate (1 # 2) small_state)) = Ok (m, st')
    ∧ length (writes_of (trace st')) = 2.
Proof.
  destruct (X16_summaries_are_never_run zero_init keep_values
              (set_epochs 2 (set_learning_rate (1 # 2) small_state))
              small_X small_Y (1 # 2) 2 eq_refl eq_refl eq_refl eq_refl
              eq_refl (λ _, eq_refl))
    as (m & st' & g & merged & nd & new & Hrun & _ & _ & _ & _ & _ & _ & _
        & Hwrites).
  exists m, st'. split; [exact Hrun|]. rewrite Hwrites. reflexivity.
Defined.

Lemma X17_witness :
  ∃ ms st',
    later_cells zero_init keep_values small_state = Ok (ms, st')
    ∧ name_scope st' = [].
Proof.
  pose proof (X17_name_scopes zero_init keep_values small_state small_X small_Y
              eq_refl eq_refl eq_refl eq_refl) as H.
  cbv zeta in H.
  destruct H
    as (m1 & m2 & m3 & st' & g1 & g2 & g3 & acc & Hrun & _ & _ & _ & Hns & _).
  exists [m1; m2; m3], st'. split; [exact Hrun|exact Hns].
Defined.

Lemma X18_witness :
  ∃ m1 m2 m3 st' g3,
    later_cells zero_init keep_values small_state = Ok ([m1; m2; m3], st')
    ∧ graph_of st' (sess_graph (sess m3)) = Some g3
    ∧ ∀ i nd, g3 !! i = Some nd → Forall (λ j, j < i) (inputs nd).
Proof.
  destruct (X18_graphs_are_closed zero_init keep_values small_state small_X
              small_Y eq_refl eq_refl eq_refl eq_refl)
    as (m1 & m2 & m3 & st' & g1 & g2 & g3 & Hrun & _ & _ & Hg3 & Hclosed & _).
  exists m1, m2, m3, st', g3. split; [exact Hrun|]. split; [exact Hg3|].
  apply Forall_cons in Hclosed as [_ Hclosed].
  apply Forall_cons in Hclosed as [_ Hclosed].
  apply Forall_cons in Hclosed as [Hclosed _]. exact Hclosed.
Defined.

Lemma X19_witness :
  ∃ m st' c,
    cell_graph1 zero_init small_state = Ok (m, st') ∧
    t_eval (cost m)
      (mkEnv (<[0 := Mat 2 [[1; 2]; [3; 4]]%R]> {[8 := Mat 1 [[1]; [0]]%R]})
             (<[2 := Mat 1 [[1]; [1]]%R]> {[4 := Vec [0%R]]}))
    = Some (Scalar c) ∧ (0 <= c)%R.
Proof.
  edestruct X19_cost_is_zero_only_without_positive_labels
    with (tn := zero_init) (gd := keep_values) (cell := cell_graph1 zero_init)
         (st := small_state) (X := small_X)
         (xs := [[1; 2]; [3; 4]]%R) (ys := [1; 0]%R) (w := [1; 1]%R)
         (b0 := 0%R)
         (feed := <[0 := Mat 2 [[1; 2]; [3; 4]]%R]>
                    ({[8 := Mat 1 [[1]; [0]]%R]} : gmap nat (tensor R)))
         (vars := <[2 := Mat 1 [[1]; [1]]%R]>
                    ({[4 := Vec [0%R]]} : gmap nat (tensor R)))
    as (c & Hc & Hpos & _);
    [ apply list_elem_of_here | compute_cell; reflexivity | reflexivity
    | repeat constructor | reflexivity | reflexivity | reflexivity
    | reflexivity | reflexivity | reflexivity
    | repeat constructor; lra | ].
  eexists _, _, c. split; [compute_cell; reflexivity|].
  split; [exact Hc|exact Hpos].
Defined.

Lemma X20_witness :
  ∃ m st' c0 c1,
    cell_graph1 zero_init small_state = Ok (m, st') ∧
    t_eval (cost m)
      (mkEnv (<[0 := Mat 2 [[1; 2]; [3; 4]]%R]> {[8 := Mat 1 [[1]; [0]]%R]})
             (<[4 := Vec [0%R]]> {[2 := Mat 1 [[1]; [1]]%R]}))
    = Some (Scalar c0) ∧
    t_eval (cost m)
      (mkEnv (<[0 := Mat 2 [[1; 2]; [3; 4]]%R]> {[8 := Mat 1 [[1]; [0]]%R]})
             (<[4 := Vec [1%R]]> {[2 := Mat 1 [[1]; [1]]%R]}))
    = Some (Scalar c1) ∧ (c1 <= c0)%R.
Proof.
  edestruct X20_cost_never_grows_with_the_bias
    with (tn := zero_init) (gd := keep_values) (cell := cell_graph1 zero_init)
         (st := small_state) (X := small_X)
         (xs := [[1; 2]; [3; 4]]%R) (ys := [1; 0]%R) (w := [1; 1]%R)
         (b0 := 0%R) (b1 := 1%R)
         (feed := <[0 := Mat 2 [[1; 2]; [3; 4]]%R]>
                    ({[8 := Mat 1 [[1]; [0]]%R]} : gmap nat (tensor R)))
         (vars := ({[2 := Mat 1 [[1]; [1]]%R]} : gmap nat (tensor R)))
    as (c0 & c1 & Hc0 & Hc1 & Hle);
    [ apply list_elem_of_here | compute_cell; reflexivity | reflexivity
    | repeat constructor | reflexivity | reflexivity | reflexivity
    | reflexivity | reflexivity
    | repeat constructor; lra | lra | ].
  eexists _, _, c0, c1. split; [compute_cell; reflexivity|].
  split; [exact Hc0|]. split; [exact Hc1|exact Hle].
Defined.

Lemma X21_witness :
  ∃ m st',
    cell_graph1 zero_init small_state = Ok (m, st') ∧
    t_eval (logits m)
      (mkEnv {[0 := Mat 3 [[1; 2; 3]]%R]}
             (<[2 := Mat 1 [[1]; [1]]%R]> {[4 := Vec [0%R]]}))
    = None.
Proof.
  eexists _, _. split; [compute_cell; reflexivity|].
  eapply proj1.
  eapply (X21_inputs_must_have_the_width_of_X zero_init keep_values
            (cell_graph1 zero_init) small_state _ _ small_X);
    [ apply list_elem_of_here | compute_cell; reflexivity | reflexivity | ].
  right. exists 3, [[1; 2; 3]]%R. split; [reflexivity|]. cbn. lia.
Defined.

Lemma X23_witness :
  ∃ m1 m2 m3 st',
    later_cells zero_init keep_values small_state = Ok ([m1; m2; m3], st')
    ∧ t_id (cost m1) = t_id (cost m2).
Proof.
  destruct (X23_second_graph_is_the_first_renamed zero_init keep_values
              small_state small_X small_Y eq_refl eq_refl eq_refl eq_refl)
    as (m1 & m2 & m3 & st' & g1 & g2 & g3 & Hrun & _ & _ & _ & _ & Hids & _).
  exists m1, m2, m3, st'. split; [exact Hrun|]. by injection Hids.
Defined.
